(** * webvs: the Mirror component and the Main controller

    A shallow embedding of the Mirror component ([src/unnamed/part_000]:
    quadrant map, mix vectors, smooth transition, the fragment shader of
    [MirrorProgram]) and of the two revisions of the Main class
    ([src/unnamed/part_001] and [src/unnamed/part_002]: frame scheduling,
    preset loading, serialisation, buffer cache).  Line numbers refer to
    [part_000] for Mirror and to [part_001] for Main.

    JavaScript and GLSL numbers that hold mix weights, frame counts or
    positions are modelled by exact rationals ([Qc]): they are finite,
    and sums, differences and quotients are the exact ones where the code
    rounds to binary64 or to the shader's floats.  Statements about
    weights and frame counts are made so that they do not depend on the
    difference: a frame count is counted down from a whole number of at
    most 2^53, weights are compared where they are 0, 1 or a quadrant id,
    and the deltas and the weights during a transition are named through
    the functions that compute them.  Numbers that are only ever quadrant
    ids are modelled by [Z].  Objects used as dictionaries are [gmap]s.  The
    modules [Mirror], [Main], [MirrorProgram], [MirrorStates] and
    [MainStates] hold the embedding and the notions the statements use,
    the modules after them what is proved about it. *)

From Stdlib Require Import ZArith QArith Qcanon Lia Lqa.
From stdpp Require Import gmap strings list fin_maps pretty.

(** ** Numbers *)

(** An integer-valued JavaScript number. *)
Definition Qc_int (z : Z) : Qc := Q2Qc (inject_Z z).

#[global] Instance Qc_inhabited : Inhabited Qc := populate (Qc_int 0).

(** ** Outcome of code that writes through a computed index *)

(** [this.mix[i][quad] = 1] writes through a number read from the mix
    vector.  When that number is not one of the indices of the row,
    JavaScript grows the array or adds a named property; the row is then
    no longer the [vec4] that is uploaded to the shader.  The model stops
    with [NotVec4] there. *)
Inductive result (A : Type) : Type :=
| Ok (a : A)
| NotVec4.
Arguments Ok {A} a.
Arguments NotVec4 {A}.

Definition bind {A B} (r : result A) (k : A -> result B) : result B :=
  match r with
  | Ok a => k a
  | NotVec4 => NotVec4
  end.

Notation "x <-- r ;; k" := (bind r (fun x => k))
  (at level 100, r at next level, right associativity).

(** [for(let i = lo; i < lo + n; i++) body] with a body that may stop. *)
Fixpoint for_range {St : Type} (lo n : nat) (body : nat -> St -> result St) (s : St)
  : result St :=
  match n with
  | O => Ok s
  | S n' => s' <-- body lo s ;; for_range (S lo) n' body s'
  end.

(** The same loop with a body that cannot stop. *)
Fixpoint for_each {St : Type} (lo n : nat) (body : nat -> St -> St) (s : St) : St :=
  match n with
  | O => s
  | S n' => for_each (S lo) n' body (body lo s)
  end.

Module Mirror.

(** *** Options and component state *)

Record MirrorDirs := mkDirs {
  topToBottom : bool;
  bottomToTop : bool;
  leftToRight : bool;
  rightToLeft : bool
}.

Record MirrorOpts := mkOpts {
  dirs : MirrorDirs;
  onBeatRandom : bool;
  smoothTransition : bool;
  transitionDuration : Qc
}.

Definition defaultOptions : MirrorOpts :=
  mkOpts (mkDirs true false false false) false false (Qc_int 4).

Record t := mk {
  opts : MirrorOpts;
  animFrameCount : Qc;
  map : list Z;
  mix : list (list Qc);
  mixDelta : list (list Qc)
}.

Definition with_map (mp : list Z) (m : t) : t :=
  mk (opts m) (animFrameCount m) mp (mix m) (mixDelta m).
Definition with_mix (mx : list (list Qc)) (m : t) : t :=
  mk (opts m) (animFrameCount m) (map m) mx (mixDelta m).
Definition with_animFrameCount (c : Qc) (m : t) : t :=
  mk (opts m) c (map m) (mix m) (mixDelta m).
Definition with_opts (o : MirrorOpts) (m : t) : t :=
  mk o (animFrameCount m) (map m) (mix m) (mixDelta m).

(** *** Array accesses *)

(** [a[i][j]] and [a[i][j] = v] for literal or loop indices.  The arrays
    are 4x4 from [init] on and the indices run over 0..3, so the default
    of [!!!] (a read of [undefined] in JavaScript) and the silent
    out-of-range update of the list insert are never reached. *)
Definition get2 (a : list (list Qc)) (i j : nat) : Qc := (a !!! i) !!! j.
Definition set2 (i j : nat) (v : Qc) (a : list (list Qc)) : list (list Qc) :=
  <[i := <[j := v]> (a !!! i)]> a.

(** A number used as a property key names an array element exactly when
    it is a non-negative integer. *)
Definition js_index (q : Qc) : option nat :=
  if ((Qden q =? 1)%positive && (0 <=? Qnum q)%Z)%bool
  then Some (Z.to_nat (Qnum q)) else None.

(** [row[quad] = v] for a computed [quad]. *)
Definition set_computed (quad : Qc) (v : Qc) (row : list Qc) : result (list Qc) :=
  match js_index quad with
  | Some k => if decide (k < length row) then Ok (<[k := v]> row) else NotVec4
  | None => NotVec4
  end.

(** *** [_inTransition] *)

Definition _inTransition (m : t) : bool :=
  smoothTransition (opts m) && negb (Qc_eq_bool (animFrameCount m) 0).

(** *** [_setMix] *)

(** Lines 132-136: the index representation becomes one-hot weights. *)
Definition to_onehot_row (i : nat) (mx : list (list Qc)) : result (list (list Qc)) :=
  let quad := get2 mx i 0 in
  let mx1 := set2 i 0 0%Qc mx in
  row <-- set_computed quad 1%Qc (mx1 !!! i) ;;
  Ok (<[i := row]> mx1).

(** Line 142: [(j == this.map[i]) ? 1 : 0]. *)
Definition endValue (mp : list Z) (i j : nat) : Qc :=
  if (Z.of_nat j =? mp !!! i)%Z then 1%Qc else 0%Qc.

(** Lines 140-145: the per-weight deltas.  The difference and the
    quotient are the exact ones; the code rounds them to binary64.  A
    division by 0 is 0 in [Qc] and an infinity or NaN in JavaScript; it
    occurs for a duration of 0 only, which leaves [animFrameCount] at 0,
    and [draw] adds deltas only while [animFrameCount] is not 0. *)
Definition compute_deltas (d : Qc) (mp : list Z) (mx md : list (list Qc))
  : list (list Qc) :=
  for_each 0 4 (fun i md =>
    for_each 0 4 (fun j md =>
      set2 i j ((endValue mp i j - get2 mx i j) / d)%Qc md) md) md.

(** Lines 150-155: the mix vectors in the first (index) format. *)
Definition index_format (mp : list Z) (mx : list (list Qc)) : list (list Qc) :=
  for_each 0 4 (fun i mx =>
    let mx0 := set2 i 0 (Qc_int (mp !!! i)) mx in
    for_each 1 3 (fun j mx => set2 i j 0%Qc mx) mx0) mx.

Definition _setMix (noTransition : bool) (m : t) : result t :=
  if smoothTransition (opts m) && negb noTransition then
    mx <-- (if Qc_eq_bool (animFrameCount m) 0
            then for_range 0 4 to_onehot_row (mix m)
            else Ok (mix m)) ;;
    let d := transitionDuration (opts m) in
    let md := compute_deltas d (map m) mx (mixDelta m) in
    Ok (mk (opts m) d (map m) mx md)
  else
    Ok (with_mix (index_format (map m) (mix m)) m).

(** *** [_setQuadrantMap] *)

(** [map[dst] = map[src]]. *)
Definition assign (dst src : nat) (mp : list Z) : list Z :=
  <[dst := mp !!! src]> mp.

(** [(randVal & bit) && flag], used only as a condition. *)
Definition gate (randVal bit : Z) (flag : bool) : bool :=
  negb (Z.land randVal bit =? 0)%Z && flag.

(** Lines 101-109. *)
Definition mirrorDirs (random : bool) (randVal : Z) (o : MirrorOpts) : MirrorDirs :=
  if random then
    mkDirs (gate randVal 1 (topToBottom (dirs o)))
           (gate randVal 2 (bottomToTop (dirs o)))
           (gate randVal 4 (leftToRight (dirs o)))
           (gate randVal 8 (rightToLeft (dirs o)))
  else dirs o.

(** Lines 99 and 110-121. *)
Definition quadrant_map (ds : MirrorDirs) : list Z :=
  let mp := [0; 1; 2; 3]%Z in
  let mp := if topToBottom ds then assign 3 1 (assign 2 0 mp) else mp in
  let mp := if bottomToTop ds then assign 1 3 (assign 0 2 mp) else mp in
  let mp := if leftToRight ds then assign 3 2 (assign 1 0 mp) else mp in
  let mp := if rightToLeft ds then assign 2 3 (assign 0 1 mp) else mp in
  mp.

(** [randVal] is the value of [Math.floor(Math.random()*16)], read only
    when [random] is set. *)
Definition _setQuadrantMap (random : bool) (randVal : Z) (m : t) : result t :=
  let mp := quadrant_map (mirrorDirs random randVal (opts m)) in
  _setMix false (with_map mp m).

Definition updateMap (m : t) : result t := _setQuadrantMap false 0 m.

(** *** [init] *)

Definition init (o : MirrorOpts) : result t :=
  let r (k : Z) := [Qc_int k; 0; 0; 0]%Qc in
  let z := [0; 0; 0; 0]%Qc in
  updateMap (mk o 0%Qc [] [r 0%Z; r 1%Z; r 2%Z; r 3%Z] [z; z; z; z]).

(** *** [draw] *)

(** Lines 81-85.  The sums are the exact ones; the code rounds them to
    binary64. *)
Definition add_deltas (md mx : list (list Qc)) : list (list Qc) :=
  for_each 0 4 (fun i mx =>
    for_each 0 4 (fun j mx =>
      set2 i j (get2 mx i j + get2 md i j)%Qc mx) mx) mx.

(** What [program.run] receives: the mode flag and the four mix vectors. *)
Definition uniforms (m : t) : bool * list (list Qc) := (_inTransition m, mix m).

(** [beat] is [this.main.analyser.beat]; the result carries the uniforms
    the frame was rendered with.  [animFrameCount--] is the exact
    difference, which is what the code computes while the count is a
    whole number of at most 2^53. *)
Definition draw (beat : bool) (randVal : Z) (m : t)
  : result (t * (bool * list (list Qc))) :=
  m1 <-- (if onBeatRandom (opts m) && beat
          then _setQuadrantMap true randVal m else Ok m) ;;
  let u := uniforms m1 in
  if _inTransition m1 then
    let m2 := with_animFrameCount (animFrameCount m1 - 1)%Qc m1 in
    if Qc_eq_bool (animFrameCount m2) 0 then
      m3 <-- _setMix true m2 ;; Ok (m3, u)
    else
      Ok (with_mix (add_deltas (mixDelta m2) (mix m2)) m2, u)
  else Ok (m1, u).

(** Consecutive frames; each carries the analyser's beat flag and the
    random value [draw] would read. *)
Fixpoint draws (frames : list (bool * Z)) (m : t) : result t :=
  match frames with
  | [] => Ok m
  | (beat, randVal) :: fs => r <-- draw beat randVal m ;; draws fs (fst r)
  end.

(** *** Option updates *)

Inductive direction := TopToBottom | BottomToTop | LeftToRight | RightToLeft.

Inductive option_update :=
| SetDirection (d : direction) (b : bool)
| SetOnBeatRandom (b : bool)
| SetSmoothTransition (b : bool)
| SetTransitionDuration (q : Qc).

Definition set_direction (d : direction) (b : bool) (ds : MirrorDirs) : MirrorDirs :=
  match d with
  | TopToBottom => mkDirs b (bottomToTop ds) (leftToRight ds) (rightToLeft ds)
  | BottomToTop => mkDirs (topToBottom ds) b (leftToRight ds) (rightToLeft ds)
  | LeftToRight => mkDirs (topToBottom ds) (bottomToTop ds) b (rightToLeft ds)
  | RightToLeft => mkDirs (topToBottom ds) (bottomToTop ds) (leftToRight ds) b
  end.

Definition apply_update (u : option_update) (o : MirrorOpts) : MirrorOpts :=
  match u with
  | SetDirection d b =>
      mkOpts (set_direction d b (dirs o)) (onBeatRandom o) (smoothTransition o)
             (transitionDuration o)
  | SetOnBeatRandom b =>
      mkOpts (dirs o) b (smoothTransition o) (transitionDuration o)
  | SetSmoothTransition b =>
      mkOpts (dirs o) (onBeatRandom o) b (transitionDuration o)
  | SetTransitionDuration q =>
      mkOpts (dirs o) (onBeatRandom o) (smoothTransition o) q
  end.

(** [optUpdateHandlers]: the four direction options name [updateMap];
    the other options have no handler. *)
Definition has_updateMap_handler (u : option_update) : bool :=
  match u with
  | SetDirection _ _ => true
  | _ => false
  end.

(** Modelled from the spec: [Component.setOption] is not in src/.  The
    spec says that option assignment triggers the update handlers declared
    for that option before the next draw; the handler table is
    [optUpdateHandlers] above. *)
Definition setOption (u : option_update) (m : t) : result t :=
  let m1 := with_opts (apply_update u (opts m)) m in
  if has_updateMap_handler u then updateMap m1 else Ok m1.

(** What can happen to a Mirror once it is initialised. *)
Inductive event :=
| Frame (beat : bool) (randVal : Z)
| Update (u : option_update).

Definition step (e : event) (m : t) : result t :=
  match e with
  | Frame beat randVal => r <-- draw beat randVal m ;; Ok (fst r)
  | Update u => setOption u m
  end.

Fixpoint run (es : list event) (m : t) : result t :=
  match es with
  | [] => Ok m
  | e :: es' => m' <-- step e m ;; run es' m'
  end.

(** *** The quadrant map as the spec words it *)



Definition enabled (ds : MirrorDirs) (d : direction) : bool :=
  match d with
  | TopToBottom => topToBottom ds
  | BottomToTop => bottomToTop ds
  | LeftToRight => leftToRight ds
  | RightToLeft => rightToLeft ds
  end.




(** *** The fragment shader's reading of the mix vectors *)

(** [int(mix.x)]: conversion to int drops the fractional part. *)
Definition glsl_int (q : Qc) : Z := Z.quot (Qnum q) (Zpos (Qden q)).

Definition dot4 (c : nat -> Qc) (w : list Qc) : Qc :=
  (c 0%nat * (w !!! 0%nat) + c 1%nat * (w !!! 1%nat)
   + c 2%nat * (w !!! 2%nat) + c 3%nat * (w !!! 3%nat))%Qc.

(** One colour channel of [main()] for a pixel whose mix vector is [row];
    [c k] is that channel of [getMirrorColor(v_position, quadrant, k)]. *)
Definition fragment (mode : bool) (row : list Qc) (c : nat -> Qc) : Qc :=
  if mode then dot4 c row else c (Z.to_nat (glsl_int (row !!! 0))).

Definition unit_row (k : Z) : list Qc :=
  let e (j : nat) := if (Z.of_nat j =? k)%Z then 1%Qc else 0%Qc in
  [e 0; e 1; e 2; e 3].

(** The weights with which a quadrant mixes the four mirrored colours,
    in either mode. *)
Definition weights (u : bool * list (list Qc)) (i : nat) : list Qc :=
  if fst u then snd u !!! i else unit_row (glsl_int (get2 (snd u) i 0)).

(** *** Shapes and representations *)

Definition vec4 (row : list Qc) : Prop := length row = 4.
Definition shape (a : list (list Qc)) : Prop := length a = 4 /\ Forall vec4 a.

Definition tabulate4 (f : nat -> nat -> Qc) : list (list Qc) :=
  let row i := [f i 0; f i 1; f i 2; f i 3] in
  [row 0; row 1; row 2; row 3].

Definition quadrants (mp : list Z) : Prop :=
  length mp = 4 /\ Forall (fun z => (0 <= z < 4)%Z) mp.

Definition is_quadrant (q : Qc) : Prop := exists k, (0 <= k < 4)%Z /\ q = Qc_int k.

(** The first format: each row holds the quadrant it copies from. *)
Definition indexed (mp : list Z) : list (list Qc) :=
  tabulate4 (fun i j => match j with O => Qc_int (mp !!! i) | _ => 0%Qc end).

(** The second format at the end of a transition to [mp]. *)
Definition onehot (mp : list Z) : list (list Qc) := tabulate4 (endValue mp).

Definition row_sum (row : list Qc) : Qc :=
  (row !!! 0%nat + row !!! 1%nat + row !!! 2%nat + row !!! 3%nat)%Qc.

(** The mix state between two calls: well-shaped arrays, and an index in
    the first slot of every row whenever no transition runs. *)
Definition settled (m : t) : Prop :=
  shape (mix m) /\ shape (mixDelta m) /\
  (animFrameCount m = 0%Qc -> forall i, i < 4 -> is_quadrant (get2 (mix m) i 0)) /\
  (transitionDuration (opts m) = 0%Qc -> animFrameCount m = 0%Qc).

Definition wf (m : t) : Prop := quadrants (map m) /\ settled m.

(** Updates that do not set the duration to zero. *)
Definition nonzero_duration (e : event) : Prop :=
  match e with
  | Update (SetTransitionDuration q) => q <> 0%Qc
  | _ => True
  end.

(** A frame on which [draw] does not redraw the map at random. *)
Definition quiet (o : MirrorOpts) (f : bool * Z) : Prop := onBeatRandom o && fst f = false.

End Mirror.

Module Main.

(** *** Values *)

#[warnings="-register-all"] Inductive Json : Type :=
| JUndefined
| JNull
| JBool (b : bool)
| JNum (q : Qc)
| JStr (s : string)
| JArr (l : list Json)
| JObj (o : gmap string Json).

(** A WebGL buffer handle. *)
Definition Buffer := nat.

Inductive value :=
| VUndefined
| VBool (b : bool)
| VJson (j : Json)
| VBuffer (b : Buffer).

Inductive error :=
| TypeError
| Error (msg : string).

Inductive outcome (A : Type) : Type :=
| Returned (a : A)
| Threw (e : error).
Arguments Returned {A} a.
Arguments Threw {A} e.

(** *** The host: animation frames, clock, WebGL *)

(** Which pair of frame callbacks a function value belongs to. *)
Inductive source := Window | Custom.

(** A pending frame request: its id, and whether the callback is
    [drawFrame] wrapped in stats collection. *)
Record request := mkRequest { req_id : nat; with_stats : bool }.

Record Scheduler := mkScheduler { pending : list request; next_id : nat }.

(** What the object does to its surroundings. *)
Inductive effect :=
| AnalyserUpdate
| Draw
| StatsBegin
| StatsEnd
| StatsAttached
| StatsRemoved
| Viewport
| TempBuffersResize
| TempBuffersDestroy
| Emit (name : string)
| ComponentDestroy
| PreventDefault.

(** The pending frame requests of the window and of the custom
    callbacks, the clock, whether the canvas has a WebGL context, the
    number of contexts handed out, the effects so far, and the text of
    the exception that building the rendering context raises on a canvas
    without WebGL. *)
Record Host := mkHost {
  window_frames : Scheduler;
  custom_frames : Scheduler;
  clock : Z;
  webgl : bool;
  contexts : nat;
  log : list effect;
  gl_failure : string
}.

(** *** Collaborators *)

(** Modelled from the spec: [ResourceManager] is not in src/.  The spec
    gives a preset its associated external resource URIs and a
    ready/not-ready signal; [Main] calls [clear], [registerUri], [toJSON]
    and reads [ready].  The URIs registered by presets are a map from key
    to URI, [clear] forgets the given keys, [registerUri] adds the pairs
    of a map, [toJSON] returns the map under the key [uris]. *)
Record ResourceManager := mkRsrc {
  ready : bool;
  uris : gmap string Json;
  prefix : string
}.

(** Modelled from the spec: [new ResourceManager(builtinPack)] is not in
    src/.  A new manager is ready and holds no preset URI; [prefix] is the
    overriding prefix, empty for the baked-in one. *)
Definition ResourceManager_new (prefix : string) : ResourceManager :=
  mkRsrc true ∅ prefix.

(** Modelled from the spec: [ResourceManager.clear] is not in src/. *)
Definition ResourceManager_clear (keys : list string) (r : ResourceManager)
  : ResourceManager :=
  mkRsrc (ready r) (foldr delete (uris r) keys) (prefix r).

(** Modelled from the spec: [ResourceManager.registerUri] is not in
    src/. *)
Definition ResourceManager_registerUri (v : Json) (r : ResourceManager)
  : ResourceManager :=
  match v with
  | JObj u => mkRsrc (ready r) (u ∪ uris r) (prefix r)
  | _ => r
  end.

(** Modelled from the spec: [ResourceManager.toJSON] is not in src/. *)
Definition ResourceManager_toJSON (r : ResourceManager) : Json :=
  JObj {[ "uris" := JObj (uris r) ]}.

(** Modelled from the spec: [EffectList] and [Component] are not in src/.
    The spec requires that [toConfig()] on a node reproduces the
    configuration it was instantiated from; a component therefore carries
    that configuration.  It also records the rendering context it was
    initialised with and the register bank it found at construction. *)
Record Component := mkComponent {
  config : Json;
  built_on : nat;
  bank_at_init : gmap string Qc
}.

(** Modelled from the spec: [Component.toJSON] is not in src/. *)
Definition Component_toJSON (c : Component) : Json := config c.

(** *** The object *)

(** The fields of [Main].  [stats] tells whether [this.stats] holds a
    Stats object; an [option] is [None] for [null] or [undefined];
    [rctx] names the rendering context created by the last [_initGl];
    [listening] and [contextHandlers] tell whether the listeners on the
    resource manager and on the canvas are attached.  The canvas, the
    analyser, the component registry, the copier and the temporary
    buffers appear through their effects only. *)
Record t := mk {
  isStarted : bool;
  requestAnimationFrame : source;
  cancelAnimationFrame : source;
  stats : bool;
  meta : Json;
  rsrcMan : option ResourceManager;
  rootComponent : option Component;
  registerBank : gmap string Qc;
  bootTime : Z;
  animReqId : option nat;
  buffers : option (gmap string Buffer);
  presetResourceKeys : list string;
  rctx : nat;
  listening : bool;
  contextHandlers : bool
}.

(** The object together with the host it runs on. *)
Record World := mkWorld { obj : t; host : Host }.

(** *** State and exceptions *)

Definition M (A : Type) : Type := World -> outcome A * World.

Definition ret {A} (a : A) : M A := fun w => (Returned a, w).
Definition throw {A} (e : error) : M A := fun w => (Threw e, w).
Definition bindM {A B} (m : M A) (k : A -> M B) : M B :=
  fun w => match m w with
           | (Returned a, w') => k a w'
           | (Threw e, w') => (Threw e, w')
           end.

Notation "'let*' x ':=' m 'in' k" := (bindM m (fun x => k))
  (at level 10, x name, m at level 100, k at level 200).
Notation "m ';;;' k" := (bindM m (fun _ => k))
  (at level 100, k at level 200, right associativity).

Definition read {A} (f : t -> A) : M A := fun w => (Returned (f (obj w)), w).
Definition update (f : t -> t) : M unit :=
  fun w => (Returned tt, mkWorld (f (obj w)) (host w)).
Definition update_host (f : Host -> Host) : M unit :=
  fun w => (Returned tt, mkWorld (obj w) (f (host w))).
Definition read_host {A} (f : Host -> A) : M A := fun w => (Returned (f (host w)), w).

(** Dereferencing a field that may hold [null] or [undefined]. *)
Definition deref {A} (f : t -> option A) : M A :=
  let* o := read f in
  match o with
  | Some a => ret a
  | None => throw TypeError
  end.

Definition when (b : bool) (m : M unit) : M unit := if b then m else ret tt.

Definition emit_effect (e : effect) : M unit :=
  update_host (fun h => mkHost (window_frames h) (custom_frames h) (clock h) (webgl h)
                               (contexts h) (log h ++ [e]) (gl_failure h)).

(** Field assignments. *)
Definition set_isStarted (b : bool) (m : t) : t :=
  mk b (requestAnimationFrame m) (cancelAnimationFrame m) (stats m) (meta m) (rsrcMan m)
     (rootComponent m) (registerBank m) (bootTime m) (animReqId m) (buffers m)
     (presetResourceKeys m) (rctx m) (listening m) (contextHandlers m).
Definition set_stats (b : bool) (m : t) : t :=
  mk (isStarted m) (requestAnimationFrame m) (cancelAnimationFrame m) b (meta m) (rsrcMan m)
     (rootComponent m) (registerBank m) (bootTime m) (animReqId m) (buffers m)
     (presetResourceKeys m) (rctx m) (listening m) (contextHandlers m).
Definition set_meta (j : Json) (m : t) : t :=
  mk (isStarted m) (requestAnimationFrame m) (cancelAnimationFrame m) (stats m) j (rsrcMan m)
     (rootComponent m) (registerBank m) (bootTime m) (animReqId m) (buffers m)
     (presetResourceKeys m) (rctx m) (listening m) (contextHandlers m).
Definition set_rsrcMan (r : option ResourceManager) (m : t) : t :=
  mk (isStarted m) (requestAnimationFrame m) (cancelAnimationFrame m) (stats m) (meta m) r
     (rootComponent m) (registerBank m) (bootTime m) (animReqId m) (buffers m)
     (presetResourceKeys m) (rctx m) (listening m) (contextHandlers m).
Definition set_rootComponent (c : option Component) (m : t) : t :=
  mk (isStarted m) (requestAnimationFrame m) (cancelAnimationFrame m) (stats m) (meta m)
     (rsrcMan m) c (registerBank m) (bootTime m) (animReqId m) (buffers m)
     (presetResourceKeys m) (rctx m) (listening m) (contextHandlers m).
Definition set_registerBank (b : gmap string Qc) (m : t) : t :=
  mk (isStarted m) (requestAnimationFrame m) (cancelAnimationFrame m) (stats m) (meta m)
     (rsrcMan m) (rootComponent m) b (bootTime m) (animReqId m) (buffers m)
     (presetResourceKeys m) (rctx m) (listening m) (contextHandlers m).
Definition set_bootTime (z : Z) (m : t) : t :=
  mk (isStarted m) (requestAnimationFrame m) (cancelAnimationFrame m) (stats m) (meta m)
     (rsrcMan m) (rootComponent m) (registerBank m) z (animReqId m) (buffers m)
     (presetResourceKeys m) (rctx m) (listening m) (contextHandlers m).
Definition set_animReqId (i : option nat) (m : t) : t :=
  mk (isStarted m) (requestAnimationFrame m) (cancelAnimationFrame m) (stats m) (meta m)
     (rsrcMan m) (rootComponent m) (registerBank m) (bootTime m) i (buffers m)
     (presetResourceKeys m) (rctx m) (listening m) (contextHandlers m).
Definition set_buffers (b : option (gmap string Buffer)) (m : t) : t :=
  mk (isStarted m) (requestAnimationFrame m) (cancelAnimationFrame m) (stats m) (meta m)
     (rsrcMan m) (rootComponent m) (registerBank m) (bootTime m) (animReqId m) b
     (presetResourceKeys m) (rctx m) (listening m) (contextHandlers m).
Definition set_presetResourceKeys (k : list string) (m : t) : t :=
  mk (isStarted m) (requestAnimationFrame m) (cancelAnimationFrame m) (stats m) (meta m)
     (rsrcMan m) (rootComponent m) (registerBank m) (bootTime m) (animReqId m) (buffers m)
     k (rctx m) (listening m) (contextHandlers m).
Definition set_rctx (n : nat) (m : t) : t :=
  mk (isStarted m) (requestAnimationFrame m) (cancelAnimationFrame m) (stats m) (meta m)
     (rsrcMan m) (rootComponent m) (registerBank m) (bootTime m) (animReqId m) (buffers m)
     (presetResourceKeys m) n (listening m) (contextHandlers m).
Definition set_listening (b : bool) (m : t) : t :=
  mk (isStarted m) (requestAnimationFrame m) (cancelAnimationFrame m) (stats m) (meta m)
     (rsrcMan m) (rootComponent m) (registerBank m) (bootTime m) (animReqId m) (buffers m)
     (presetResourceKeys m) (rctx m) b (contextHandlers m).
Definition set_contextHandlers (b : bool) (m : t) : t :=
  mk (isStarted m) (requestAnimationFrame m) (cancelAnimationFrame m) (stats m) (meta m)
     (rsrcMan m) (rootComponent m) (registerBank m) (bootTime m) (animReqId m) (buffers m)
     (presetResourceKeys m) (rctx m) (listening m) b.

(** A method call that changes the resource manager in place. *)
Definition call_rsrcMan (f : ResourceManager -> ResourceManager) : M unit :=
  let* _rm := deref rsrcMan in
  update (fun m => set_rsrcMan (f <$> rsrcMan m) m).

(** *** Frame requests *)

Definition sched (s : source) (h : Host) : Scheduler :=
  match s with
  | Window => window_frames h
  | Custom => custom_frames h
  end.

Definition with_sched (s : source) (sc : Scheduler) (h : Host) : Host :=
  match s with
  | Window => mkHost sc (custom_frames h) (clock h) (webgl h) (contexts h) (log h)
                     (gl_failure h)
  | Custom => mkHost (window_frames h) sc (clock h) (webgl h) (contexts h) (log h)
                     (gl_failure h)
  end.

(** [requestAnimationFrame(callback)] of either pair: the callback is
    queued for the next frame and the request id is returned. *)
Definition host_request (s : source) (wrapped : bool) : M nat :=
  fun w =>
    let sc := sched s (host w) in
    let id := next_id sc in
    (Returned id,
     mkWorld (obj w)
       (with_sched s (mkScheduler (pending sc ++ [mkRequest id wrapped]) (S id)) (host w))).

Definition unrequest (id : nat) (sc : Scheduler) : Scheduler :=
  mkScheduler (List.filter (fun r => negb (req_id r =? id)) (pending sc)) (next_id sc).

(** [cancelAnimationFrame(reqId)]; an [undefined] id cancels nothing. *)
Definition host_cancel (s : source) (id : option nat) : M unit :=
  match id with
  | Some i => update_host (fun h => with_sched s (unrequest i (sched s h)) h)
  | None => ret tt
  end.

(** *** Private methods *)

Definition _startAnimation : M unit :=
  let* wrapped := read stats in
  let* raf := read requestAnimationFrame in
  let* id := host_request raf wrapped in
  update (set_animReqId (Some id)).

Definition _stopAnimation : M unit :=
  let* caf := read cancelAnimationFrame in
  let* id := read animReqId in
  host_cancel caf id.

(** The callback queued by [_startAnimation].  [eel] is what the frame's
    expression code does to the register bank ([rootComponent.draw()] and
    the interpreter are not in src/). *)
Definition drawFrame (wrapped : bool) (eel : gmap string Qc -> gmap string Qc) : M unit :=
  let body : M unit :=
    emit_effect AnalyserUpdate ;;;
    let* _root := deref rootComponent in
    emit_effect Draw ;;;
    let* bank := read registerBank in
    update (set_registerBank (eel bank)) ;;;
    let* raf := read requestAnimationFrame in
    let* id := host_request raf wrapped in
    update (set_animReqId (Some id)) in
  if wrapped then
    let* st := read stats in
    (if st then emit_effect StatsBegin else throw TypeError) ;;;
    body ;;;
    let* st' := read stats in
    (if st' then emit_effect StatsEnd else throw TypeError)
  else body.

(** The [catch] branch is taken when the canvas has no WebGL context;
    the error it throws carries the fixed text followed by the text of
    the exception it caught ([+ e]). *)
Definition _initGl : M unit :=
  let* ok := read_host webgl in
  if ok then
    let* n := read_host contexts in
    update_host (fun h => mkHost (window_frames h) (custom_frames h) (clock h) (webgl h)
                                 (S n) (log h) (gl_failure h)) ;;;
    update (set_rctx (S n))
  else
    let* e := read_host gl_failure in
    throw (Error ("Couldnt get webgl context" ++ e)).

(** Modelled from the spec: the constructor of [EffectList] is not in
    src/.  [new EffectList(this, null, preset)] builds the component from
    the preset, on the object's current rendering context and register
    bank. *)
Definition EffectList_new (preset : Json) : M Component :=
  let* ctx := read rctx in
  let* bank := read registerBank in
  ret (mkComponent preset ctx bank).

Definition _setupRoot (preset : Json) : M unit :=
  update (set_registerBank ∅) ;;;
  let* now := read_host clock in
  update (set_bootTime now) ;;;
  let* root := EffectList_new preset in
  update (set_rootComponent (Some root)).

Definition _initResourceManager (prefix : string) : M unit :=
  update (set_rsrcMan (Some (ResourceManager_new prefix))) ;;;
  update (set_listening true).

Definition _registerContextEvents : M unit := update (set_contextHandlers true).

(** *** Public methods *)

Definition start : M value :=
  let* started := read isStarted in
  if started then ret VUndefined
  else
    update (set_isStarted true) ;;;
    let* rm := deref rsrcMan in
    when (ready rm) _startAnimation ;;;
    ret VUndefined.

Definition stop : M value :=
  let* started := read isStarted in
  if negb started then ret VUndefined
  else
    update (set_isStarted false) ;;;
    let* rm := deref rsrcMan in
    when (ready rm) _stopAnimation ;;;
    ret VUndefined.

(** ["uris" in preset.resources]: [in] throws on a primitive. *)
Definition has_uris (resources : Json) : M bool :=
  match resources with
  | JObj r => ret (bool_decide (is_Some (r !! "uris")))
  | JArr _ => ret false
  | _ => throw TypeError
  end.

(** [Object.keys]. *)
Definition object_keys (v : Json) : M (list string) :=
  match v with
  | JObj u => ret (List.map fst (map_to_list u))
  | JArr l => ret (List.map (fun i => pretty i) (seq 0 (length l)))
  | JStr s => ret (List.map (fun i => pretty i) (seq 0 (String.length s)))
  | JUndefined | JNull => throw TypeError
  | _ => ret []
  end.

(** The preset is an object; [_.clone] copies it, which a value needs
    no step for. *)
Definition loadPreset (preset : gmap string Json) : M value :=
  let preset := <["id" := JStr "root"]> preset in
  let* _old := deref rootComponent in
  emit_effect ComponentDestroy ;;;
  let* keys := read presetResourceKeys in
  call_rsrcMan (ResourceManager_clear keys) ;;;
  let* registers :=
    match preset !! "resources" with
    | Some resources => has_uris resources
    | None => ret false
    end in
  (if registers then
     let u := match preset !! "resources" with
              | Some (JObj r) => default JUndefined (r !! "uris")
              | _ => JUndefined
              end in
     call_rsrcMan (ResourceManager_registerUri u) ;;;
     let* keys := object_keys u in
     update (set_presetResourceKeys keys)
   else update (set_presetResourceKeys [])) ;;;
  update (set_meta (default JUndefined (preset !! "meta"))) ;;;
  _setupRoot (JObj preset) ;;;
  ret VUndefined.

Definition resetCanvas : M value :=
  let* root := deref rootComponent in
  let preset := Component_toJSON root in
  emit_effect ComponentDestroy ;;;
  emit_effect TempBuffersDestroy ;;;
  _initGl ;;;
  _setupRoot preset ;;;
  ret VUndefined.

Definition notifyResize : M value :=
  emit_effect Viewport ;;;
  emit_effect TempBuffersResize ;;;
  emit_effect (Emit "resize") ;;;
  ret VUndefined.

Definition cacheBuffer (name : string) (buffer : Buffer) : M value :=
  let* bufs := deref buffers in
  update (set_buffers (Some (<[name := buffer]> bufs))) ;;;
  ret VUndefined.

Definition getBuffer (name : string) : M value :=
  let* bufs := deref buffers in
  ret (match bufs !! name with
       | Some b => VBuffer b
       | None => VUndefined
       end).

Definition get (key : string) : M value :=
  if decide (key = "meta") then
    let* m := read meta in ret (VJson m)
  else ret VUndefined.

Definition setAttribute (key : string) (v : Json) : M value :=
  if decide (key = "meta") then
    update (set_meta v) ;;; ret (VBool true)
  else ret (VBool false).

(** [_.pick(object, keys...)]. *)
Definition pick (keys : list string) (j : Json) : gmap string Json :=
  match j with
  | JObj o => filter (fun kv => fst kv ∈ keys) o
  | _ => ∅
  end.

Definition toJSON : M value :=
  let* root := deref rootComponent in
  let preset := pick ["clearFrame"; "components"] (Component_toJSON root) in
  let* rm := deref rsrcMan in
  let preset := <["resources" := ResourceManager_toJSON rm]> preset in
  let* m := read meta in
  let preset := <["meta" := m]> preset in
  ret (VJson (JObj preset)).

Definition destroy : M value :=
  stop ;;;
  let* _root := deref rootComponent in
  emit_effect ComponentDestroy ;;;
  update (set_rootComponent None) ;;;
  let* st := read stats in
  when st (emit_effect StatsRemoved ;;; update (set_stats false)) ;;;
  update (set_rsrcMan None) ;;;
  update (set_listening false) ;;;
  update (set_contextHandlers false) ;;;
  ret VUndefined.

(** *** Event handlers *)

Definition handleRsrcWait : M unit :=
  let* started := read isStarted in
  when started _stopAnimation.

Definition handleRsrcReady : M unit :=
  let* started := read isStarted in
  when started _startAnimation.

Definition contextLostHander : M unit :=
  emit_effect PreventDefault ;;;
  stop ;;; ret tt.

Definition contextRestoredHander : M unit :=
  resetCanvas ;;; ret tt.

(** *** Constructors *)

(** The options after [checkRequiredOptions] and [_.defaults]: the canvas
    and the analyser are supplied; the last two fields tell whether a
    custom callback is supplied. *)
Record IMainOpts := mkIMainOpts {
  showStat : bool;
  resourcePrefix : string;
  opt_requestAnimationFrame : bool;
  opt_cancelAnimationFrame : bool
}.

(** The object before the constructor body runs: only the field
    initialiser [presetResourceKeys = []] has run. *)
Definition blank : t :=
  mk false Window Window false JUndefined None None ∅ 0 None None [] 0 false false.

(** [src/unnamed/part_001], lines 163-169. *)
Definition select_callbacks_001 (o : IMainOpts) : source * source :=
  if opt_requestAnimationFrame o && opt_cancelAnimationFrame o
  then (Custom, Custom) else (Window, Window).

(** [src/unnamed/part_002], lines 78-79. *)
Definition select_callbacks_002 (o : IMainOpts) : source * source :=
  (if opt_requestAnimationFrame o then Custom else Window,
   if opt_cancelAnimationFrame o then Custom else Window).

Definition set_callbacks (c : source * source) (m : t) : t :=
  mk (isStarted m) (fst c) (snd c) (stats m) (meta m) (rsrcMan m)
     (rootComponent m) (registerBank m) (bootTime m) (animReqId m) (buffers m)
     (presetResourceKeys m) (rctx m) (listening m) (contextHandlers m).

(** The constructor body; the two revisions differ in [select] only.
    [_initComponentRegistry] fills the registry, which no method below
    reads. *)
Definition construct (select : IMainOpts -> source * source) (o : IMainOpts) : M unit :=
  update (set_isStarted false) ;;;
  update (set_callbacks (select o)) ;;;
  when (showStat o) (emit_effect StatsAttached ;;; update (set_stats true)) ;;;
  update (set_meta (JObj ∅)) ;;;
  _initResourceManager (resourcePrefix o) ;;;
  _registerContextEvents ;;;
  _initGl ;;;
  _setupRoot (JObj {[ "id" := JStr "root" ]}).

(** A host on which nothing has happened yet; its canvas has a WebGL
    context, so the failure text is never read. *)
Definition fresh_host : Host :=
  mkHost (mkScheduler [] 0) (mkScheduler [] 0) 0 true 0 [] "".

Definition constructor_001 (o : IMainOpts) (h : Host) : outcome unit * World :=
  construct select_callbacks_001 o (mkWorld blank h).

Definition constructor_002 (o : IMainOpts) (h : Host) : outcome unit * World :=
  construct select_callbacks_002 o (mkWorld blank h).

(** *** The environment *)

(** [rsrcMan.ready], and its change by the manager itself. *)
Definition set_ready (b : bool) (m : t) : t :=
  set_rsrcMan ((fun r => mkRsrc b (uris r) (prefix r)) <$> rsrcMan m) m.

Definition is_ready (m : t) : bool :=
  match rsrcMan m with
  | Some r => ready r
  | None => false
  end.

(** Modelled from the spec: the resource manager's signals are not in
    src/.  The not-ready signal is raised when the manager stops being
    ready, the ready signal when it becomes ready again; a listener that
    was removed by [stopListening] is not called. *)
Definition signal_wait : M unit :=
  let* on := read listening in
  let* r := read is_ready in
  when (on && r) (update (set_ready false) ;;; handleRsrcWait).

(** Modelled from the spec: the ready signal, see [signal_wait]. *)
Definition signal_ready : M unit :=
  let* on := read listening in
  let* r := read is_ready in
  let* have := read (fun m => bool_decide (is_Some (rsrcMan m))) in
  when (on && have && negb r) (update (set_ready true) ;;; handleRsrcReady).

Definition set_webgl (b : bool) (h : Host) : Host :=
  mkHost (window_frames h) (custom_frames h) (clock h) b (contexts h) (log h)
         (gl_failure h).

(** The canvas raises [webglcontextlost] and [webglcontextrestored]. *)
Definition context_lost : M unit :=
  update_host (set_webgl false) ;;;
  let* on := read contextHandlers in
  when on contextLostHander.

Definition context_restored : M unit :=
  update_host (set_webgl true) ;;;
  let* on := read contextHandlers in
  when on contextRestoredHander.

Definition find_request (id : nat) (sc : Scheduler) : option request :=
  List.find (fun r => req_id r =? id) (pending sc).

(** The host runs the callback of a pending request; a request that is
    not pending has no callback to run. *)
Definition tick (s : source) (id : nat) (eel : gmap string Qc -> gmap string Qc) : M unit :=
  let* sc := read_host (sched s) in
  match find_request id sc with
  | Some r =>
      update_host (fun h => with_sched s (unrequest id (sched s h)) h) ;;;
      drawFrame (with_stats r) eel
  | None => ret tt
  end.

(** Whether any frame callback is waiting to run. *)
Definition frames_pending (w : World) : list request :=
  pending (window_frames (host w)) ++ pending (custom_frames (host w)).

(** *** Calls *)

Inductive call :=
| Start
| Stop
| LoadPreset (preset : gmap string Json)
| ResetCanvas
| NotifyResize
| CacheBuffer (name : string) (buffer : Buffer)
| GetBuffer (name : string)
| Get (key : string)
| SetAttribute (key : string) (v : Json)
| ToJSON
| Destroy
| SignalWait
| SignalReady
| ContextLost
| ContextRestored
| Tick (s : source) (id : nat) (eel : gmap string Qc -> gmap string Qc).

Definition perform (c : call) : M value :=
  match c with
  | Start => start
  | Stop => stop
  | LoadPreset p => loadPreset p
  | ResetCanvas => resetCanvas
  | NotifyResize => notifyResize
  | CacheBuffer n b => cacheBuffer n b
  | GetBuffer n => getBuffer n
  | Get k => get k
  | SetAttribute k v => setAttribute k v
  | ToJSON => toJSON
  | Destroy => destroy
  | SignalWait => signal_wait ;;; ret VUndefined
  | SignalReady => signal_ready ;;; ret VUndefined
  | ContextLost => context_lost ;;; ret VUndefined
  | ContextRestored => context_restored ;;; ret VUndefined
  | Tick s id eel => tick s id eel ;;; ret VUndefined
  end.

(** A caller that goes on after an exception: the results in order, and
    the final state. *)
Fixpoint run (cs : list call) (w : World) : list (outcome value) * World :=
  match cs with
  | [] => ([], w)
  | c :: cs' =>
      let (r, w1) := perform c w in
      let (rs, w2) := run cs' w1 in
      (r :: rs, w2)
  end.

Definition state_after (cs : list call) (w : World) : World := snd (run cs w).

#[global] Instance source_eq_dec : EqDecision source.
Proof. solve_decision. Defined.

(** No frame callback is waiting. *)
Definition idle (h : Host) : Prop :=
  pending (window_frames h) = [] /\ pending (custom_frames h) = [].

(** *** Scheduling invariant of the first revision *)

(** The object uses one pair of callbacks, and a frame is pending exactly
    when it is started and the resources are ready: then the pending
    request is [animReqId], and its callback collects stats if the object
    does. *)
Definition coherent (w : World) : Prop :=
  let m := obj w in
  requestAnimationFrame m = cancelAnimationFrame m /\
  (forall s, s <> requestAnimationFrame m -> pending (sched s (host w)) = []) /\
  (if isStarted m && is_ready m
   then exists id,
          animReqId m = Some id /\
          pending (sched (requestAnimationFrame m) (host w)) = [mkRequest id (stats m)]
   else pending (sched (requestAnimationFrame m) (host w)) = []) /\
  (listening m = true <-> is_Some (rsrcMan m)) /\
  (contextHandlers m = true <-> is_Some (rsrcMan m)) /\
  (is_Some (rsrcMan m) -> is_Some (rootComponent m)).

(** Two states that agree on everything scheduling depends on. *)
Definition same_schedule (w0 w : World) : Prop :=
  isStarted (obj w) = isStarted (obj w0) /\
  is_ready (obj w) = is_ready (obj w0) /\
  requestAnimationFrame (obj w) = requestAnimationFrame (obj w0) /\
  cancelAnimationFrame (obj w) = cancelAnimationFrame (obj w0) /\
  animReqId (obj w) = animReqId (obj w0) /\
  stats (obj w) = stats (obj w0) /\
  listening (obj w) = listening (obj w0) /\
  contextHandlers (obj w) = contextHandlers (obj w0) /\
  (is_Some (rsrcMan (obj w)) <-> is_Some (rsrcMan (obj w0))) /\
  (is_Some (rootComponent (obj w0)) -> is_Some (rootComponent (obj w))) /\
  window_frames (host w) = window_frames (host w0) /\
  custom_frames (host w) = custom_frames (host w0).

(** *** Preset round trip *)

(** A preset whose root carries nothing but the properties [toJSON]
    writes. *)
Definition plain_preset (clearFrame components : option Json)
    (u : gmap string Json) (m : Json) : gmap string Json :=
  let p : gmap string Json :=
    <["resources" := JObj {[ "uris" := JObj u ]}]> (<["meta" := m]> ∅) in
  let p := match clearFrame with Some v => <["clearFrame" := v]> p | None => p end in
  match components with Some v => <["components" := v]> p | None => p end.

(** The resource manager holds exactly the URIs of the loaded preset. *)
Definition own_uris (m : t) : Prop :=
  match rsrcMan m with
  | Some r => forall k, is_Some (uris r !! k) -> k ∈ presetResourceKeys m
  | None => True
  end.

(** *** Notions used in the proofs *)

(** Only [requestAnimationFrame] is supplied. *)
Definition single_callback : IMainOpts := mkIMainOpts false "" true false.

(** [preserves P m]: running [m] keeps the property [P] of the state,
    whether [m] returns or throws. *)
Definition preserves {A} (P : World -> Prop) (m : M A) : Prop :=
  forall w, P w -> P (snd (m w)).

(** A call that neither sets up a root nor runs a frame. *)
Definition keeps_root (c : call) : Prop :=
  match c with
  | LoadPreset _ | ResetCanvas | ContextRestored | Tick _ _ _ => False
  | _ => True
  end.

(** No stats, no prefix, no custom callbacks. *)
Definition plain_options : IMainOpts := mkIMainOpts false "" false false.

(** The root of the repository's example preset and an empty tree. *)
Definition pillow : gmap string Json :=
  <["name" := JStr "pillow fight (re-feathered)"]>
    (<["author" := JStr "yiA2 yathosho"]>
       (plain_preset (Some (JBool true)) (Some (JArr [])) ∅ (JObj ∅))).

(** Calls that do not touch scheduling. *)
Definition passive (c : call) : Prop :=
  match c with
  | LoadPreset _ | ResetCanvas | NotifyResize | CacheBuffer _ _ | GetBuffer _ | Get _
  | SetAttribute _ _ | ToJSON | ContextRestored => True
  | _ => False
  end.

End Main.

(** ** The shader program of the Mirror component *)

Module MirrorProgram.
Import Mirror.

(** The literal [0.5]. *)
Definition half : Qc := Q2Qc (1 # 2).

(** A [vec2]; [fst] is [.x] and [snd] is [.y]. *)
Definition vec2 : Type := (Qc * Qc)%type.

Record colour := rgba { red : Qc; green : Qc; blue : Qc; alpha : Qc }.

(** Line 191. *)
Definition getQuadrant (pos : vec2) : Z :=
  if decide (fst pos < half)%Qc
  then (if decide (snd pos < half)%Qc then 2 else 0)
  else (if decide (snd pos < half)%Qc then 3 else 1).

(** Line 192. *)
Definition check (a b c d e f : Z) : bool :=
  (((a =? c) || (a =? d)) && ((b =? e) || (b =? f))
   || ((a =? e) || (a =? f)) && ((b =? c) || (b =? d)))%Z.

(** Lines 193-194. *)
Definition xFlip (qa qb : Z) : Z := if check qa qb 0 2 1 3 then -1 else 1.
Definition yFlip (qa qb : Z) : Z := if check qa qb 0 1 2 3 then -1 else 1.

(** Line 195; [vec2(xFlip, yFlip)] turns the two ints into floats.  The
    difference, the product and the sum are the exact ones; the shader
    rounds them, so that a position that is not flipped may come back
    changed in its last digit. *)
Definition mirrorPos (pos : vec2) (qa qb : Z) : vec2 :=
  ((fst pos - half) * Qc_int (xFlip qa qb) + half,
   (snd pos - half) * Qc_int (yFlip qa qb) + half)%Qc.

(** Line 196; [getSrcColorAtPos] samples the source frame. *)
Definition getMirrorColor (getSrcColorAtPos : vec2 -> colour)
    (pos : vec2) (qa qb : Z) : colour :=
  getSrcColorAtPos (mirrorPos pos qa qb).

Record Uniforms := mkUniforms {
  u_mode : Z;
  u_mix0 : list Qc;
  u_mix1 : list Qc;
  u_mix2 : list Qc;
  u_mix3 : list Qc
}.

(** [MirrorProgram.draw], lines 226-232: the uniforms the shader runs
    with. *)
Definition draw (transition : bool) (mix : list (list Qc)) : Uniforms :=
  mkUniforms (if transition then 1 else 0)
             (mix !!! 0%nat) (mix !!! 1%nat) (mix !!! 2%nat) (mix !!! 3%nat).

(** [main()], lines 198-221: the colour of the pixel at [v_position].
    [getQuadrant] returns 0..3, so the chain of tests at lines 201-204
    always assigns [mix]; the last branch below is never taken. *)
Definition main (u : Uniforms) (getSrcColorAtPos : vec2 -> colour)
    (v_position : vec2) : colour :=
  let quadrant := getQuadrant v_position in
  let mix :=
    if (quadrant =? 0)%Z then u_mix0 u
    else if (quadrant =? 1)%Z then u_mix1 u
    else if (quadrant =? 2)%Z then u_mix2 u
    else if (quadrant =? 3)%Z then u_mix3 u
    else [] in
  if (u_mode u =? 0)%Z then
    let otherQuadrant := glsl_int (mix !!! 0%nat) in
    getMirrorColor getSrcColorAtPos v_position quadrant otherQuadrant
  else
    let c (k : nat) := getMirrorColor getSrcColorAtPos v_position quadrant (Z.of_nat k) in
    rgba (dot4 (fun k => red (c k)) mix)
         (dot4 (fun k => green (c k)) mix)
         (dot4 (fun k => blue (c k)) mix)
         1%Qc.

(** The picture a frame puts on the screen.  [Mirror.draw] (line 74)
    calls [program.run] with the transition flag and the mix vectors as
    its last arguments; [run] belongs to the base class, which is not in
    src/, and is taken to hand them to [MirrorProgram.draw], whose two
    parameters they are. *)
Definition rendered (u : bool * list (list Qc)) (getSrcColorAtPos : vec2 -> colour)
  : vec2 -> colour :=
  main (draw (fst u) (snd u)) getSrcColorAtPos.

(** A point on neither centre line of the frame. *)
Definition off_centre (pos : vec2) : Prop := fst pos <> half /\ snd pos <> half.

End MirrorProgram.

(** ** Runs of a Mirror component *)

Module MirrorStates.
Import Mirror.

(** [ds'] enables no direction that [ds] does not enable. *)
Definition among (ds' ds : MirrorDirs) : Prop :=
  forall d, enabled ds' d = true -> enabled ds d = true.

(** An event that does not switch smooth transitions on. *)
Definition stays_plain (e : event) : Prop :=
  match e with
  | Update (SetSmoothTransition b) => b = false
  | _ => True
  end.

(** A Mirror without smooth transitions between two calls: the map was
    computed from some direction flags and the mix vectors hold it in the
    index format. *)
Definition plain (m : t) : Prop :=
  smoothTransition (opts m) = false /\
  (exists ds, map m = quadrant_map ds) /\
  mix m = indexed (map m).

(** A transition of the options [o] that is [k] frames past its start. *)
Definition adrift (o : MirrorOpts) (k : nat) (m : t) : Prop :=
  opts m = o /\ shape (mix m) /\ shape (mixDelta m) /\
  animFrameCount m = (transitionDuration o - Qc_int (Z.of_nat k))%Qc.

(** The identity map. *)
Definition unmirrored : list Z := [0; 1; 2; 3]%Z.

(** The life of a Mirror: [init] with the options [o], then the events
    [es]. *)
Definition play (o : MirrorOpts) (es : list event) : result t :=
  m0 <-- init o ;; run es m0.

End MirrorStates.

(** ** States and runs of Main *)

Module MainStates.
Import Main.

(** A value on which the [in] operator throws. *)
Definition primitive (j : Json) : Prop :=
  match j with
  | JObj _ | JArr _ => False
  | _ => True
  end.

(** Calls that do not assign [meta]. *)
Definition keeps_meta (c : call) : Prop :=
  match c with
  | LoadPreset _ => False
  | SetAttribute k _ => k <> "meta"
  | _ => True
  end.

(** What scheduling reads and writes: the started flag, the callbacks,
    the last request id and the pending requests of both schedulers. *)
Definition schedule (w : World)
  : bool * source * source * option nat * Scheduler * Scheduler :=
  (isStarted (obj w), requestAnimationFrame (obj w), cancelAnimationFrame (obj w),
   animReqId (obj w), window_frames (host w), custom_frames (host w)).

(** The object after [destroy()]. *)
Definition destroyed (w : World) : Prop :=
  rootComponent (obj w) = None /\ rsrcMan (obj w) = None /\
  isStarted (obj w) = false /\ stats (obj w) = false /\
  listening (obj w) = false /\ contextHandlers (obj w) = false.


(** The host runs the frame callback that the object requested last. *)
Definition next_frame (eel : gmap string Qc -> gmap string Qc) : M unit :=
  let* raf := read requestAnimationFrame in
  let* id := read animReqId in
  match id with
  | Some i => tick raf i eel
  | None => ret tt
  end.




(** The object right after a constructor has returned. *)
Definition constructed (select : IMainOpts -> source * source) (o : IMainOpts) (h : Host)
  : t :=
  mk false (fst (select o)) (snd (select o)) (showStat o) (JObj ∅)
     (Some (ResourceManager_new (resourcePrefix o)))
     (Some (mkComponent (JObj {[ "id" := JStr "root" ]}) (S (contexts h)) ∅))
     ∅ (clock h) None None [] (S (contexts h)) true true.

(** The host [h] with a canvas that gives no WebGL context, where
    building the rendering context raises an exception of text [e]. *)
Definition failing (e : string) (h : Host) : Host :=
  mkHost (window_frames h) (custom_frames h) (clock h) false (contexts h) (log h) e.

End MainStates.

(** ** The callbacks of Main *)

Module MainCallbacks.
Import Main.

(** The pair of callbacks the object did not select. *)
Definition other (s : source) : source :=
  match s with
  | Window => Custom
  | Custom => Window
  end.

(** A destroyed object whose last frame request is still pending. *)
Definition orphaned (with_stats : bool) (w : World) : Prop :=
  rootComponent (obj w) = None /\ stats (obj w) = false /\
  (forall s, s <> requestAnimationFrame (obj w) -> pending (sched s (host w)) = []) /\
  exists id, animReqId (obj w) = Some id /\
             pending (sched (requestAnimationFrame (obj w)) (host w))
             = [mkRequest id with_stats].

End MainCallbacks.

(** * Proofs *)

Module MirrorProofs.
Import Mirror.

(** *** Numbers *)

Lemma Qc_int_inj a b : Qc_int a = Qc_int b -> a = b.
Proof.
  unfold Qc_int. intros H. apply Q2Qc_eq_iff in H.
  apply inject_Z_injective. exact H.
Qed.


Lemma Qc_int_add a b : Qc_int (a + b) = (Qc_int a + Qc_int b)%Qc.
Proof.
  apply Qc_is_canon. unfold Qc_int. simpl.
  rewrite !Qred_correct. rewrite <- inject_Z_plus.
  reflexivity.
Qed.

Lemma Qc_eq_bool_true x y : Qc_eq_bool x y = true <-> x = y.
Proof.
  split; [apply Qc_eq_bool_correct |].
  intros ->. unfold Qc_eq_bool. destruct (Qcanon.Qc_eq_dec y y); [reflexivity | contradiction].
Qed.

Lemma Qc_eq_bool_false x y : Qc_eq_bool x y = false <-> x <> y.
Proof.
  unfold Qc_eq_bool. destruct (Qcanon.Qc_eq_dec x y); split; intros; try contradiction; try discriminate; auto.
Qed.

Lemma js_index_quadrant k : (0 <= k < 4)%Z -> js_index (Qc_int k) = Some (Z.to_nat k).
Proof.
  intros H. assert (k = 0 \/ k = 1 \/ k = 2 \/ k = 3)%Z as [-> | [-> | [-> | ->]]] by lia;
    reflexivity.
Qed.

Lemma glsl_int_quadrant k : (0 <= k < 4)%Z -> glsl_int (Qc_int k) = k.
Proof.
  intros H. assert (k = 0 \/ k = 1 \/ k = 2 \/ k = 3)%Z as [-> | [-> | [-> | ->]]] by lia;
    reflexivity.
Qed.

(** *** 4x4 arrays *)

Lemma shape_tabulate4 f : shape (tabulate4 f).
Proof. split; [reflexivity | repeat constructor]. Qed.

Lemma get2_tabulate4 f i j : i < 4 -> j < 4 -> get2 (tabulate4 f) i j = f i j.
Proof.
  intros Hi Hj.
  destruct i as [|[|[|[|]]]]; try lia;
  destruct j as [|[|[|[|]]]]; try lia; reflexivity.
Qed.

Lemma vec4_inv row : vec4 row -> exists a b c d, row = [a; b; c; d].
Proof.
  unfold vec4. destruct row as [|a [|b [|c [|d [|]]]]]; simpl; intros; try lia.
  eauto.
Qed.

Lemma shape_tabulate a : shape a -> a = tabulate4 (get2 a).
Proof.
  intros [Hl Hr].
  destruct a as [|r0 [|r1 [|r2 [|r3 [|]]]]]; simpl in Hl; try lia.
  inversion Hr as [|? ? H0 Hr1]; subst. inversion Hr1 as [|? ? H1 Hr2]; subst.
  inversion Hr2 as [|? ? H2 Hr3]; subst. inversion Hr3 as [|? ? H3 _]; subst.
  destruct (vec4_inv _ H0) as (?&?&?&?&->).
  destruct (vec4_inv _ H1) as (?&?&?&?&->).
  destruct (vec4_inv _ H2) as (?&?&?&?&->).
  destruct (vec4_inv _ H3) as (?&?&?&?&->).
  reflexivity.
Qed.


Lemma row_tabulate4 f i : i < 4 -> tabulate4 f !!! i = [f i 0; f i 1; f i 2; f i 3].
Proof. intros Hi. destruct i as [|[|[|[|]]]]; try lia; reflexivity. Qed.

Lemma compute_deltas_eq d mp mx md :
  shape md ->
  compute_deltas d mp mx md
  = tabulate4 (fun i j => (endValue mp i j - get2 mx i j) / d)%Qc.
Proof. intros H. rewrite (shape_tabulate md H). reflexivity. Qed.

Lemma add_deltas_eq md mx :
  shape mx ->
  add_deltas md mx = tabulate4 (fun i j => get2 mx i j + get2 md i j)%Qc.
Proof. intros H. rewrite (shape_tabulate mx H) at 1. reflexivity. Qed.

Lemma index_format_eq mp mx : shape mx -> index_format mp mx = indexed mp.
Proof. intros H. rewrite (shape_tabulate mx H). reflexivity. Qed.

(** *** The quadrant map *)

Lemma quadrant_map_quadrants ds : quadrants (quadrant_map ds).
Proof.
  destruct ds as [[] [] [] []]; split; try reflexivity;
    repeat constructor; vm_compute; congruence.
Qed.

Lemma quadrants_lookup mp i : quadrants mp -> i < 4 -> (0 <= mp !!! i < 4)%Z.
Proof.
  intros [Hl Hf] Hi.
  destruct mp as [|a [|b [|c [|d [|]]]]]; simpl in Hl; try lia.
  inversion Hf as [|? ? Ha Hf1]; subst. inversion Hf1 as [|? ? Hb Hf2]; subst.
  inversion Hf2 as [|? ? Hc Hf3]; subst. inversion Hf3 as [|? ? Hd _]; subst.
  destruct i as [|[|[|[|]]]]; try lia; assumption.
Qed.



(** *** One-hot conversion *)

Lemma to_onehot_rows k0 a1 a2 a3 k1 b1 b2 b3 k2 c1 c2 c3 k3 d1 d2 d3 :
  (0 <= k0 < 4)%Z -> (0 <= k1 < 4)%Z -> (0 <= k2 < 4)%Z -> (0 <= k3 < 4)%Z ->
  for_range 0 4 to_onehot_row
    [[Qc_int k0; a1; a2; a3]; [Qc_int k1; b1; b2; b3];
     [Qc_int k2; c1; c2; c3]; [Qc_int k3; d1; d2; d3]]
  = Ok [<[Z.to_nat k0 := 1%Qc]> [0%Qc; a1; a2; a3];
        <[Z.to_nat k1 := 1%Qc]> [0%Qc; b1; b2; b3];
        <[Z.to_nat k2 := 1%Qc]> [0%Qc; c1; c2; c3];
        <[Z.to_nat k3 := 1%Qc]> [0%Qc; d1; d2; d3]].
Proof.
  intros H0 H1 H2 H3.
  assert (k0 = 0 \/ k0 = 1 \/ k0 = 2 \/ k0 = 3)%Z as [-> | [-> | [-> | ->]]] by lia;
  assert (k1 = 0 \/ k1 = 1 \/ k1 = 2 \/ k1 = 3)%Z as [-> | [-> | [-> | ->]]] by lia;
  assert (k2 = 0 \/ k2 = 1 \/ k2 = 2 \/ k2 = 3)%Z as [-> | [-> | [-> | ->]]] by lia;
  assert (k3 = 0 \/ k3 = 1 \/ k3 = 2 \/ k3 = 3)%Z as [-> | [-> | [-> | ->]]] by lia;
  reflexivity.
Qed.

Lemma is_quadrant_01 (k : Z) :
  (0 <= k < 4)%Z -> forall b c d, is_quadrant (<[Z.to_nat k := 1%Qc]> [0%Qc; b; c; d] !!! 0).
Proof.
  intros H b c d.
  assert (k = 0 \/ k = 1 \/ k = 2 \/ k = 3)%Z as [-> | [-> | [-> | ->]]] by lia;
    [exists 1%Z | exists 0%Z | exists 0%Z | exists 0%Z]; (split; [lia | reflexivity]).
Qed.

Lemma vec4_insert k (v : Qc) row : vec4 row -> vec4 (<[k := v]> row).
Proof. unfold vec4. now rewrite length_insert. Qed.

Lemma to_onehot_settled mx :
  shape mx -> (forall i, i < 4 -> is_quadrant (get2 mx i 0)) ->
  exists mx', for_range 0 4 to_onehot_row mx = Ok mx' /\ shape mx' /\
              forall i, i < 4 -> is_quadrant (get2 mx' i 0).
Proof.
  intros Hs Hq. rewrite (shape_tabulate mx Hs).
  destruct (Hq 0) as (k0 & Hk0 & E0); [lia |].
  destruct (Hq 1) as (k1 & Hk1 & E1); [lia |].
  destruct (Hq 2) as (k2 & Hk2 & E2); [lia |].
  destruct (Hq 3) as (k3 & Hk3 & E3); [lia |].
  unfold tabulate4. rewrite E0, E1, E2, E3.
  eexists. split; [apply to_onehot_rows; assumption |].
  split.
  - split; [reflexivity |].
    repeat constructor; apply vec4_insert; reflexivity.
  - intros i Hi. destruct i as [|[|[|[|]]]]; try lia;
      unfold get2; cbn [lookup_total list_lookup_total];
      apply is_quadrant_01; assumption.
Qed.

Lemma to_onehot_indexed mp :
  quadrants mp -> for_range 0 4 to_onehot_row (indexed mp) = Ok (onehot mp).
Proof.
  intros Hq. unfold indexed, onehot, tabulate4.
  rewrite to_onehot_rows by (apply quadrants_lookup; [assumption | lia]).
  unfold endValue.
  pose proof (quadrants_lookup mp 0 Hq ltac:(lia)) as H0.
  pose proof (quadrants_lookup mp 1 Hq ltac:(lia)) as H1.
  pose proof (quadrants_lookup mp 2 Hq ltac:(lia)) as H2.
  pose proof (quadrants_lookup mp 3 Hq ltac:(lia)) as H3.
  revert H0 H1 H2 H3.
  generalize (mp !!! 0) (mp !!! 1) (mp !!! 2) (mp !!! 3). intros k0 k1 k2 k3 H0 H1 H2 H3.
  assert (k0 = 0 \/ k0 = 1 \/ k0 = 2 \/ k0 = 3)%Z as [-> | [-> | [-> | ->]]] by lia;
  assert (k1 = 0 \/ k1 = 1 \/ k1 = 2 \/ k1 = 3)%Z as [-> | [-> | [-> | ->]]] by lia;
  assert (k2 = 0 \/ k2 = 1 \/ k2 = 2 \/ k2 = 3)%Z as [-> | [-> | [-> | ->]]] by lia;
  assert (k3 = 0 \/ k3 = 1 \/ k3 = 2 \/ k3 = 3)%Z as [-> | [-> | [-> | ->]]] by lia;
  reflexivity.
Qed.

Lemma indexed_quadrant mp i : quadrants mp -> i < 4 -> is_quadrant (get2 (indexed mp) i 0).
Proof.
  intros Hq Hi. unfold indexed. rewrite get2_tabulate4 by lia.
  exists (mp !!! i). split; [apply quadrants_lookup; assumption | reflexivity].
Qed.

(** *** The state stays well formed *)

Lemma setMix_settles nt m :
  quadrants (map m) -> shape (mix m) -> shape (mixDelta m) ->
  (smoothTransition (opts m) && negb nt = true -> animFrameCount m = 0%Qc ->
   forall i, i < 4 -> is_quadrant (get2 (mix m) i 0)) ->
  (transitionDuration (opts m) = 0%Qc -> animFrameCount m = 0%Qc) ->
  exists m', _setMix nt m = Ok m' /\ wf m' /\ opts m' = opts m /\ map m' = map m.
Proof.
  intros Hq Hmx Hmd Hidx Hd. unfold _setMix.
  destruct (smoothTransition (opts m) && negb nt).
  - destruct (Qc_eq_bool (animFrameCount m) 0) eqn:E.
    + apply Qc_eq_bool_true in E.
      destruct (to_onehot_settled (mix m) Hmx (Hidx eq_refl E)) as (mx' & -> & Hs' & Hq').
      cbn [bind]. eexists. split; [reflexivity |].
      split; [| split; reflexivity].
      split; [exact Hq |]. split; [exact Hs' |].
      split; [cbn [mixDelta]; rewrite compute_deltas_eq by assumption; apply shape_tabulate4 |].
      split; [intros _; exact Hq' | intros H; exact H].
    + apply Qc_eq_bool_false in E.
      cbn [bind]. eexists. split; [reflexivity |].
      split; [| split; reflexivity].
      split; [exact Hq |]. split; [exact Hmx |].
      split; [cbn [mixDelta]; rewrite compute_deltas_eq by assumption; apply shape_tabulate4 |].
      cbn [animFrameCount opts mix].
      split; [intros H0; elim E; apply Hd; exact H0 | intros H; exact H].
  - eexists. split; [reflexivity |].
    split; [| split; reflexivity].
    split; [exact Hq |]. unfold settled, with_mix; cbn [mix mixDelta animFrameCount opts map].
    rewrite index_format_eq by assumption.
    split; [apply shape_tabulate4 |]. split; [exact Hmd |].
    split; [intros _ i Hi; apply indexed_quadrant; assumption | exact Hd].
Qed.

Lemma setMix_wf nt m :
  wf m -> exists m', _setMix nt m = Ok m' /\ wf m' /\ opts m' = opts m /\ map m' = map m.
Proof.
  intros (Hq & Hmx & Hmd & Hidx & Hd). apply setMix_settles; auto.
Qed.

Lemma setQuadrantMap_wf random randVal m :
  settled m ->
  exists m', _setQuadrantMap random randVal m = Ok m' /\ wf m' /\ opts m' = opts m.
Proof.
  intros Hs. unfold _setQuadrantMap.
  destruct (setMix_wf false
              (with_map (quadrant_map (mirrorDirs random randVal (opts m))) m))
    as (m' & E & Hwf & Ho & _).
  { split; [apply quadrant_map_quadrants | exact Hs]. }
  exists m'. split; [exact E |]. split; [exact Hwf | exact Ho].
Qed.

Lemma init_wf o : exists m, init o = Ok m /\ wf m /\ opts m = o.
Proof.
  unfold init, updateMap. apply setQuadrantMap_wf.
  split; [split; [reflexivity | repeat constructor] |].
  split; [split; [reflexivity | repeat constructor] |].
  split; [| intros _; reflexivity].
  intros _ i Hi. destruct i as [|[|[|[|]]]]; try lia;
    [exists 0%Z | exists 1%Z | exists 2%Z | exists 3%Z]; (split; [lia | reflexivity]).
Qed.

Lemma draw_wf beat randVal m :
  wf m -> exists m' u, draw beat randVal m = Ok (m', u) /\ wf m'.
Proof.
  intros Hwf. unfold draw.
  assert (exists m1, (if onBeatRandom (opts m) && beat
                      then _setQuadrantMap true randVal m else Ok m) = Ok m1 /\ wf m1)
    as (m1 & -> & Hwf1).
  { destruct (onBeatRandom (opts m) && beat).
    - destruct (setQuadrantMap_wf true randVal m (proj2 Hwf)) as (m1 & E & H1 & _).
      eauto.
    - eauto. }
  cbn [bind]. destruct (_inTransition m1) eqn:Ht; [| eauto].
  unfold _inTransition in Ht. apply andb_true_iff in Ht as [_ Hc].
  apply negb_true_iff, Qc_eq_bool_false in Hc.
  destruct Hwf1 as (Hq & Hmx & Hmd & Hidx & Hd).
  destruct (Qc_eq_bool _ _) eqn:E.
  - destruct (setMix_settles true (with_animFrameCount (animFrameCount m1 - 1)%Qc m1))
      as (m3 & -> & Hwf3 & _); try assumption.
    { rewrite andb_false_r. discriminate. }
    { intros _. apply Qc_eq_bool_true in E. exact E. }
    cbn [bind]. eauto.
  - apply Qc_eq_bool_false in E. cbn [animFrameCount with_animFrameCount] in E.
    do 2 eexists. split; [reflexivity |].
    split; [exact Hq |]. unfold settled.
    cbn [with_mix with_animFrameCount mix mixDelta animFrameCount opts].
    rewrite add_deltas_eq by assumption.
    split; [apply shape_tabulate4 |]. split; [exact Hmd |].
    split; [intros H0; contradiction |].
    intros H0. elim Hc. apply Hd. exact H0.
Qed.

Lemma setOption_wf u m :
  wf m -> nonzero_duration (Update u) -> exists m', setOption u m = Ok m' /\ wf m'.
Proof.
  intros (Hq & Hmx & Hmd & Hidx & Hd) Hu. unfold setOption.
  destruct u as [d b | b | b | q]; cbn [has_updateMap_handler].
  - unfold updateMap.
    destruct (setQuadrantMap_wf false 0
                (with_opts (apply_update (SetDirection d b) (opts m)) m))
      as (m' & E & Hwf & _); [| eauto].
    split; [exact Hmx |]. split; [exact Hmd |]. split; [exact Hidx | exact Hd].
  - eexists. split; [reflexivity |].
    split; [exact Hq |]. split; [exact Hmx |]. split; [exact Hmd |].
    split; [exact Hidx | exact Hd].
  - eexists. split; [reflexivity |].
    split; [exact Hq |]. split; [exact Hmx |]. split; [exact Hmd |].
    split; [exact Hidx | exact Hd].
  - eexists. split; [reflexivity |].
    split; [exact Hq |]. split; [exact Hmx |]. split; [exact Hmd |].
    split; [exact Hidx |]. cbn. intros H. elim Hu. exact H.
Qed.

Lemma run_wf es : forall m,
  wf m -> Forall nonzero_duration es -> exists m', run es m = Ok m' /\ wf m'.
Proof.
  induction es as [| e es IH]; intros m Hwf Hes; [cbn; eauto |].
  inversion Hes as [| ? ? He Hes']; subst. cbn [run].
  assert (exists m1, step e m = Ok m1 /\ wf m1) as (m1 & -> & Hwf1).
  { destruct e as [beat randVal | u]; cbn [step].
    - destruct (draw_wf beat randVal m Hwf) as (m1 & u & -> & H1). cbn. eauto.
    - apply setOption_wf; assumption. }
  cbn [bind]. apply IH; assumption.
Qed.

(** X26.  As long as [transitionDuration] is never set to 0, every entry
    of the quadrant map is an integer in {0,1,2,3}: for every combination
    of the four direction flags and every random value, after [init] and
    after every later frame and option update.  [init] and every such step
    return normally: the write [mix[i][quad] = 1] of the one-hot
    conversion, which runs when [animFrameCount] is 0, finds in
    [mix[i][0]] one of the indices 0..3 of the 4-element row, and the next
    [_setQuadrantMap] call, random or not, succeeds as well.  The updates
    range over the four directions, [onBeatRandom], [smoothTransition] and
    every [transitionDuration] other than 0. *)
Theorem quadrant_entries_index_the_weight_vector (o : MirrorOpts) (es : list event) :
  Forall nonzero_duration es ->
  (forall random randVal, quadrants (quadrant_map (mirrorDirs random randVal o))) /\
  exists m0 m, init o = Ok m0 /\ run es m0 = Ok m /\
               quadrants (map m) /\
               (forall random randVal,
                   exists m', _setQuadrantMap random randVal m = Ok m' /\
                              quadrants (map m')) /\
               (animFrameCount m = 0%Qc ->
                forall i, i < 4 -> exists k, (0 <= k < 4)%Z /\
                                             get2 (mix m) i 0 = Qc_int k /\
                                             js_index (get2 (mix m) i 0) = Some (Z.to_nat k)).
Proof.
  intros Hes. split; [intros; apply quadrant_map_quadrants |].
  destruct (init_wf o) as (m0 & E0 & Hwf0 & _).
  destruct (run_wf es m0 Hwf0 Hes) as (m & E & Hq & Hsettled).
  exists m0, m. repeat (split; [assumption |]). split.
  - intros random randVal.
    destruct (setQuadrantMap_wf random randVal m Hsettled) as (m' & E' & [Hq' _] & _).
    exists m'. split; assumption.
  - destruct Hsettled as (Hmx & Hmd & Hidx & Hd).
    intros H0 i Hi. destruct (Hidx H0 i Hi) as (k & Hk & Ek).
    exists k. rewrite Ek. split; [exact Hk |]. split; [reflexivity |].
    apply js_index_quadrant; exact Hk.
Qed.

(** On the default options: a smooth random run. *)
Lemma quadrant_entries_index_witness :
  exists m0 m,
    init defaultOptions = Ok m0 /\
    run [Update (SetSmoothTransition true); Update (SetDirection LeftToRight true);
         Frame true 5; Update (SetTransitionDuration (Qc_int 2));
         Update (SetOnBeatRandom true); Frame true 9; Frame false 0] m0 = Ok m /\
    quadrants (map m).
Proof.
  destruct (quadrant_entries_index_the_weight_vector defaultOptions
    [Update (SetSmoothTransition true); Update (SetDirection LeftToRight true);
     Frame true 5; Update (SetTransitionDuration (Qc_int 2));
     Update (SetOnBeatRandom true); Frame true 9; Frame false 0])
    as (_ & m0 & m & H0 & H1 & H2 & _).
  - repeat constructor. simpl. discriminate.
  - exists m0, m. auto.
Defined.

(** *** A transition, frame by frame *)

(** [_setMix(true)]: back to the index format. *)
Lemma setMix_snaps m :
  shape (mix m) ->
  _setMix true m = Ok (with_mix (indexed (map m)) m).
Proof.
  intros Hmx. unfold _setMix. rewrite andb_false_r.
  rewrite index_format_eq by assumption. reflexivity.
Qed.


Lemma draw_quiet beat randVal m :
  onBeatRandom (opts m) && beat = false -> smoothTransition (opts m) = true ->
  animFrameCount m <> 0%Qc -> shape (mix m) ->
  draw beat randVal m =
    Ok (let m2 := with_animFrameCount (animFrameCount m - 1)%Qc m in
        if Qc_eq_bool (animFrameCount m - 1)%Qc 0
        then with_mix (indexed (map m)) m2
        else with_mix (tabulate4 (fun i j => get2 (mix m) i j + get2 (mixDelta m) i j)%Qc) m2,
        uniforms m).
Proof.
  intros Hquiet Hs Hc Hmx. unfold draw. rewrite Hquiet. cbn [bind].
  unfold _inTransition. rewrite Hs. apply Qc_eq_bool_false in Hc. rewrite Hc. cbn [andb negb].
  cbn [animFrameCount with_animFrameCount].
  destruct (Qc_eq_bool (animFrameCount m - 1) 0).
  - rewrite setMix_snaps by assumption. reflexivity.
  - cbn [mix mixDelta with_animFrameCount]. rewrite add_deltas_eq by assumption. reflexivity.
Qed.


Lemma Qc_int_succ (k : nat) : Qc_int (Z.of_nat (S k)) = (Qc_int (Z.of_nat k) + 1)%Qc.
Proof. rewrite Nat2Z.inj_succ. unfold Z.succ. rewrite Qc_int_add. reflexivity. Qed.

Lemma Qc_int_of_Z (z : Z) : Qc_int z = Qc_of_Z z.
Proof. apply Qc_is_canon. simpl. apply Qred_correct. Qed.









(** The weights are the coefficients with which the shader mixes the
    four mirrored colours. *)
Lemma fragment_weights (u : bool * list (list Qc)) (i : nat) (c : nat -> Qc) :
  (fst u = false -> is_quadrant (get2 (snd u) i 0)) ->
  fragment (fst u) (snd u !!! i) c = dot4 c (weights u i).
Proof.
  intros Hq. unfold fragment, weights. destruct (fst u); [reflexivity |].
  destruct (Hq eq_refl) as (k & Hk & E). unfold get2 in E. unfold get2. rewrite E.
  rewrite glsl_int_quadrant by assumption.
  unfold dot4.
  assert (k = 0 \/ k = 1 \/ k = 2 \/ k = 3)%Z as [-> | [-> | [-> | ->]]] by lia.
  - change (unit_row 0) with [1; 0; 0; 0]%Qc. change (Z.to_nat 0) with 0%nat.
    cbn [lookup_total list_lookup_total]. ring.
  - change (unit_row 1) with [0; 1; 0; 0]%Qc. change (Z.to_nat 1) with 1%nat.
    cbn [lookup_total list_lookup_total]. ring.
  - change (unit_row 2) with [0; 0; 1; 0]%Qc. change (Z.to_nat 2) with 2%nat.
    cbn [lookup_total list_lookup_total]. ring.
  - change (unit_row 3) with [0; 0; 0; 1]%Qc. change (Z.to_nat 3) with 3%nat.
    cbn [lookup_total list_lookup_total]. ring.
Qed.

End MirrorProofs.

Module MainProofs.
Import Main.

(** *** The buffer cache *)

Lemma construct_buffers select o h :
  buffers (obj (snd (construct select o (mkWorld blank h)))) = None.
Proof.
  unfold construct, bindM, update, when, _initResourceManager, _registerContextEvents,
    _initGl, _setupRoot, EffectList_new, read, read_host, update_host, emit_effect, ret, throw.
  cbn. destruct (showStat o); cbn; destruct (webgl h); reflexivity.
Qed.

Lemma getBuffer_without_cache w name :
  buffers (obj w) = None -> getBuffer name w = (Threw TypeError, w).
Proof. intros H. unfold getBuffer, deref, bindM, read, throw. rewrite H. reflexivity. Qed.

Lemma cacheBuffer_without_cache w name b :
  buffers (obj w) = None -> cacheBuffer name b w = (Threw TypeError, w).
Proof. intros H. unfold cacheBuffer, deref, bindM, read, throw. rewrite H. reflexivity. Qed.

(** *** The two revisions *)

(** C8 as stated fails.  With only [requestAnimationFrame] supplied,
    the first revision takes both callbacks from the window and the
    second takes the supplied request callback with the window's cancel
    callback.  After [start(); stop()] no frame is pending for the first
    revision, while the second has cancelled nothing and its frame is
    still pending: the two revisions are not equivalent on every option
    set. *)
Lemma revisions_differ_on_single_callback :
  let w1 := snd (constructor_001 single_callback fresh_host) in
  let w2 := snd (constructor_002 single_callback fresh_host) in
  requestAnimationFrame (obj w1) = Window /\
  requestAnimationFrame (obj w2) = Custom /\
  cancelAnimationFrame (obj w2) = Window /\
  frames_pending (state_after [Start; Stop] w1) = [] /\
  frames_pending (state_after [Start; Stop] w2) = [mkRequest 0 false] /\
  ~ (forall o h cs,
       run cs (snd (constructor_001 o h)) = run cs (snd (constructor_002 o h))).
Proof.
  cbv zeta. repeat (split; [reflexivity |]).
  intros H. specialize (H single_callback fresh_host [Start; Stop]).
  apply (f_equal (fun r => frames_pending (snd r))) in H. vm_compute in H. discriminate.
Qed.

(** C8, amended.  For every option set that supplies both custom frame
    callbacks or neither, the two revisions select the same callbacks,
    construct the same object and, for every sequence of calls, signals,
    context events and frames, return the same results and end in the same
    state.  The two files differ in the constructor's choice of callbacks
    only; every method is the same text, up to visibility modifiers and
    the order of declaration, and is embedded once. *)
Theorem revisions_agree_on_matched_callbacks (o : IMainOpts) (h : Host) (cs : list call) :
  opt_requestAnimationFrame o = opt_cancelAnimationFrame o ->
  select_callbacks_001 o = select_callbacks_002 o /\
  constructor_001 o h = constructor_002 o h /\
  run cs (snd (constructor_001 o h)) = run cs (snd (constructor_002 o h)).
Proof.
  intros H.
  assert (Hsel : select_callbacks_001 o = select_callbacks_002 o).
  { unfold select_callbacks_001, select_callbacks_002. rewrite H.
    destruct (opt_cancelAnimationFrame o); reflexivity. }
  assert (Hc : constructor_001 o h = constructor_002 o h).
  { unfold constructor_001, constructor_002, construct. rewrite Hsel. reflexivity. }
  split; [exact Hsel |]. split; [exact Hc |]. rewrite Hc. reflexivity.
Qed.

(** C8, amended, with both custom callbacks and stats. *)
Lemma revisions_agree_witness :
  let o := mkIMainOpts true "" true true in
  constructor_001 o fresh_host = constructor_002 o fresh_host /\
  run [Start; SignalWait; SignalReady; Stop] (snd (constructor_001 o fresh_host))
  = run [Start; SignalWait; SignalReady; Stop] (snd (constructor_002 o fresh_host)).
Proof.
  intros o.
  destruct (revisions_agree_on_matched_callbacks o fresh_host
              [Start; SignalWait; SignalReady; Stop]) as (_ & H1 & H2).
  - reflexivity.
  - split; assumption.
Defined.

(** *** What a method leaves alone *)

Lemma preserves_bind {A B} P (m : M A) (k : A -> M B) :
  preserves P m -> (forall a, preserves P (k a)) -> preserves P (bindM m k).
Proof.
  intros Hm Hk w H. unfold bindM. specialize (Hm w H).
  destruct (m w) as [[a | e] w1]; cbn in *; [apply Hk; exact Hm | exact Hm].
Qed.

Lemma preserves_deref {A} P (f : t -> option A) : preserves P (deref f).
Proof.
  intros w H. unfold deref, bindM, read. destruct (f (obj w)); exact H.
Qed.

Lemma preserves_when P b m : preserves P m -> preserves P (when b m).
Proof. intros Hm. destruct b; [exact Hm | intros w H; exact H]. Qed.

Lemma preserves_host_cancel P s i :
  (forall j, preserves P (host_cancel s (Some j))) -> preserves P (host_cancel s i).
Proof. intros H. destruct i; [apply H | intros w Hw; exact Hw]. Qed.

Lemma preserves_call_rsrcMan P f :
  (forall w, P w -> P (mkWorld (set_rsrcMan (f <$> rsrcMan (obj w)) (obj w)) (host w))) ->
  preserves P (call_rsrcMan f).
Proof.
  intros Hf. unfold call_rsrcMan. apply preserves_bind; [apply preserves_deref |].
  intros _ w H. apply Hf. exact H.
Qed.

Ltac unfold_methods :=
  unfold start, stop, loadPreset, resetCanvas, notifyResize, cacheBuffer, getBuffer, get,
    setAttribute, toJSON, destroy, signal_wait, signal_ready, context_lost,
    context_restored, contextLostHander, contextRestoredHander, tick,
    drawFrame, handleRsrcWait, handleRsrcReady, _startAnimation, _stopAnimation,
    _initGl, _setupRoot, EffectList_new, has_uris, object_keys, host_cancel.

(** A step that leaves the fields [P] reads as they are keeps [P] by
    computation. *)
Ltac preserve_step :=
  first
    [ match goal with
      | |- preserves _ (bindM _ _) => apply preserves_bind; [| intros ?]
      | |- preserves _ (deref _) => apply preserves_deref
      | |- preserves _ (when _ _) => apply preserves_when
      | |- preserves _ (call_rsrcMan _) =>
          apply preserves_call_rsrcMan;
          let w := fresh "w" in let H := fresh "H" in intros w H; exact H
      end
    | match goal with
      | |- preserves _ (if ?b then _ else _) => destruct b
      | |- preserves _ (match ?x with _ => _ end) => destruct x
      end
    | progress unfold_methods
    | let w := fresh "w" in let H := fresh "H" in intros w H; exact H ].

Ltac preserve := repeat preserve_step.

Lemma perform_keeps_registerBank bank c :
  keeps_root c -> preserves (fun w => registerBank (obj w) = bank) (perform c).
Proof.
  intros Hc. destruct c; try destruct Hc; cbn [perform]; preserve.
Qed.

Lemma perform_keeps_buffers c :
  preserves (fun w => buffers (obj w) = None) (perform c).
Proof.
  destruct c; cbn [perform];
    try (intros w H; rewrite cacheBuffer_without_cache by exact H; exact H);
    preserve.
Qed.

Lemma run_keeps_buffers cs : forall w,
  buffers (obj w) = None -> buffers (obj (state_after cs w)) = None.
Proof.
  induction cs as [| c cs IH]; intros w H; [exact H |].
  unfold state_after in *. cbn [run].
  pose proof (perform_keeps_buffers c w H) as H1.
  destruct (perform c w) as [r w1]. cbn [snd] in H1.
  specialize (IH w1 H1). destruct (run cs w1) as [rs w2]. exact IH.
Qed.

(** C10.  The claim asks that [getBuffer] return [undefined] for a name
    that was never cached and the cached buffer after [cacheBuffer].  The
    code does neither: no constructor and no method of either revision
    assigns [this.buffers], so on a constructed Main, after any calls, both
    [getBuffer] and [cacheBuffer] dereference [undefined] and throw a
    TypeError, and [getBuffer] still throws right after [cacheBuffer]. *)
Theorem buffer_cache_is_never_created
    (o : IMainOpts) (h : Host) (cs : list call) (name : string) (b : Buffer) :
  let w := state_after cs (snd (constructor_001 o h)) in
  let w' := state_after cs (snd (constructor_002 o h)) in
  getBuffer name w = (Threw TypeError, w) /\
  cacheBuffer name b w = (Threw TypeError, w) /\
  getBuffer name w' = (Threw TypeError, w') /\
  cacheBuffer name b w' = (Threw TypeError, w') /\
  fst (run [CacheBuffer name b; GetBuffer name] w) = [Threw TypeError; Threw TypeError].
Proof.
  intros w w'.
  assert (Hw : buffers (obj w) = None).
  { apply run_keeps_buffers. apply construct_buffers. }
  assert (Hw' : buffers (obj w') = None).
  { apply run_keeps_buffers. apply construct_buffers. }
  rewrite !getBuffer_without_cache, !cacheBuffer_without_cache by assumption.
  repeat (split; [reflexivity |]).
  unfold run, perform.
  rewrite cacheBuffer_without_cache, getBuffer_without_cache by assumption.
  reflexivity.
Qed.

(** *** The register bank *)

Lemma bindM_returned {A B} (m : M A) (k : A -> M B) w b w' :
  bindM m k w = (Returned b, w') ->
  exists a w1, m w = (Returned a, w1) /\ k a w1 = (Returned b, w').
Proof.
  unfold bindM. destruct (m w) as [[a | e] w1]; intros H; [eauto | discriminate].
Qed.

Lemma setupRoot_eq preset w :
  _setupRoot preset w =
    (Returned tt,
     mkWorld (set_rootComponent (Some (mkComponent preset (rctx (obj w)) ∅))
                (set_bootTime (clock (host w)) (set_registerBank ∅ (obj w))))
             (host w)).
Proof. reflexivity. Qed.

Ltac peel H :=
  let a := fresh "a" in let w := fresh "w" in let E := fresh "E" in
  apply bindM_returned in H as (a & w & E & H).

Lemma loadPreset_sets_up_root p w v w' :
  loadPreset p w = (Returned v, w') ->
  registerBank (obj w') = ∅ /\
  rootComponent (obj w') =
    Some (mkComponent (JObj (<["id" := JStr "root"]> p)) (rctx (obj w')) ∅).
Proof.
  intros H. unfold loadPreset in H. repeat peel H.
  match goal with E : _setupRoot _ _ = _ |- _ => rewrite setupRoot_eq in E; injection E as _ <- end.
  injection H as _ <-. split; reflexivity.
Qed.

Lemma resetCanvas_sets_up_root w v w' :
  resetCanvas w = (Returned v, w') ->
  registerBank (obj w') = ∅ /\
  exists old, rootComponent (obj w) = Some old /\
    rootComponent (obj w') = Some (mkComponent (Component_toJSON old) (rctx (obj w')) ∅).
Proof.
  intros H. unfold resetCanvas in H.
  peel H. unfold deref, bindM, read in E. destruct (rootComponent (obj w)) as [old |] eqn:Eold;
    [| discriminate]. injection E as <- <-.
  repeat peel H.
  match goal with E : _setupRoot _ _ = _ |- _ => rewrite setupRoot_eq in E; injection E as _ <- end.
  injection H as _ <-. split; [reflexivity |]. exists old. split; reflexivity.
Qed.

Ltac unfold_M :=
  unfold deref, when, emit_effect, host_request, host_cancel, bindM, read, read_host,
    update, update_host, ret, throw in *.

Lemma tick_runs_frame s id eel w w' :
  tick s id eel w = (Returned tt, w') ->
  is_Some (find_request id (sched s (host w))) ->
  registerBank (obj w') = eel (registerBank (obj w)).
Proof.
  intros H [r Hr]. unfold tick, drawFrame in H. unfold_M. rewrite Hr in H.
  cbn [fst snd obj host] in H. revert H.
  destruct (with_stats r), (stats (obj w)) eqn:Est, (rootComponent (obj w)) eqn:Eroot;
    repeat (progress (cbn; rewrite ?Est, ?Eroot)); intros H; try discriminate;
    injection H as <-; reflexivity.
Qed.

(** C7 as stated fails.  After a preset is loaded and a frame has
    written register [reg00], [resetCanvas] empties the register bank
    although the same preset stays loaded: [loadPreset] is not the only
    operation that resets the bank. *)
Lemma resetCanvas_empties_register_bank :
  let w0 := snd (constructor_001 plain_options fresh_host) in
  let w1 := state_after
              [LoadPreset pillow; Start; Tick Window 0 (fun bank => <["reg00" := 1%Qc]> bank)]
              w0 in
  let w2 := snd (perform ResetCanvas w1) in
  registerBank (obj w1) !! "reg00" = Some 1%Qc /\
  fst (perform ResetCanvas w1) = Returned VUndefined /\
  registerBank (obj w2) = ∅ /\
  config <$> rootComponent (obj w2) = config <$> rootComponent (obj w1) /\
  ~ (forall c w, (forall p, c <> LoadPreset p) ->
                 registerBank (obj (snd (perform c w))) = registerBank (obj w)).
Proof.
  cbv zeta. repeat (split; [vm_compute; reflexivity |]).
  intros H.
  specialize (H ResetCanvas
    (state_after
       [LoadPreset pillow; Start; Tick Window 0 (fun bank => <["reg00" := 1%Qc]> bank)]
       (snd (constructor_001 plain_options fresh_host)))).
  assert (Hne : forall p, ResetCanvas <> LoadPreset p) by (intros p; discriminate).
  specialize (H Hne). apply (f_equal (lookup "reg00")) in H.
  vm_compute in H. discriminate.
Qed.

(** C7, amended.  [loadPreset] and [resetCanvas] (which the
    context-restored handler runs) both go through [_setupRoot]: when they
    return, the register bank is the empty map and the new root component
    was constructed on the empty bank, with the preset as its
    configuration.  Every other call (start, stop, notifyResize,
    cacheBuffer, getBuffer, get, setAttribute, toJSON, destroy, the
    resource signals, context loss) leaves the bank as it is, whether it
    returns or throws; and a frame that runs hands the bank it found to
    the frame's expression code and keeps what that code leaves, so the
    registers persist from frame to frame. *)
Theorem register_bank_reset_by_root_setup :
  (forall p w v w',
      loadPreset p w = (Returned v, w') ->
      registerBank (obj w') = ∅ /\
      exists c, rootComponent (obj w') = Some c /\ bank_at_init c = ∅ /\
                config c = JObj (<["id" := JStr "root"]> p)) /\
  (forall w v w',
      resetCanvas w = (Returned v, w') ->
      registerBank (obj w') = ∅ /\
      exists c, rootComponent (obj w') = Some c /\ bank_at_init c = ∅) /\
  (forall c w, keeps_root c ->
      registerBank (obj (snd (perform c w))) = registerBank (obj w)) /\
  (forall s id eel w w',
      tick s id eel w = (Returned tt, w') ->
      is_Some (find_request id (sched s (host w))) ->
      registerBank (obj w') = eel (registerBank (obj w))).
Proof.
  split; [| split; [| split]].
  - intros p w v w' H. destruct (loadPreset_sets_up_root p w v w' H) as [Hb Hr].
    split; [exact Hb |]. eexists. split; [exact Hr |]. split; reflexivity.
  - intros w v w' H. destruct (resetCanvas_sets_up_root w v w' H) as (Hb & old & _ & Hr).
    split; [exact Hb |]. eexists. split; [exact Hr |]. reflexivity.
  - intros c w Hc. exact (perform_keeps_registerBank _ c Hc w eq_refl).
  - exact tick_runs_frame.
Qed.

(** C7, amended, on the example preset. *)
Lemma register_bank_witness :
  let w0 := snd (constructor_001 plain_options fresh_host) in
  let w1 := snd (loadPreset pillow w0) in
  registerBank (obj w1) = ∅ /\
  registerBank (obj (snd (perform Stop w1))) = registerBank (obj w1) /\
  registerBank (obj (snd (tick Window 0 (fun bank => <["reg00" := 1%Qc]> bank)
                                (snd (perform Start w1)))))
  = <["reg00" := 1%Qc]> (registerBank (obj (snd (perform Start w1)))).
Proof.
  intros w0 w1.
  destruct register_bank_reset_by_root_setup as (Hload & _ & Hkeep & Htick).
  split; [| split].
  - apply (Hload pillow w0 VUndefined w1). vm_compute. reflexivity.
  - apply Hkeep. exact I.
  - apply (Htick Window 0 _ (snd (perform Start w1))
             (snd (tick Window 0 (fun bank => <["reg00" := 1%Qc]> bank)
                        (snd (perform Start w1))))).
    + vm_compute. reflexivity.
    + eexists. vm_compute. reflexivity.
Defined.

(** *** Scheduling *)

Lemma same_schedule_refl w : same_schedule w w.
Proof. repeat split; auto. Qed.

Lemma coherent_same_schedule w0 w : same_schedule w0 w -> coherent w0 -> coherent w.
Proof.
  intros (Hst & Hrd & Hraf & Hcaf & Hid & Hstats & Hl & Hc & Hrm & Hroot & Hwf & Hcf).
  unfold coherent.
  assert (Hs : forall s, sched s (host w) = sched s (host w0)).
  { intros []; assumption. }
  rewrite Hst, Hrd, Hraf, Hcaf, Hid, Hstats, Hl, Hc, Hrm, !Hs.
  intros (H1 & H2 & H3 & H4 & H5 & H6). split; [exact H1 |]. split.
  - intros s Hne. rewrite Hs. apply H2. exact Hne.
  - split; [exact H3 |]. split; [exact H4 |]. split; [exact H5 |].
    intros Hx. apply Hroot, H6, Hx.
Qed.

Lemma same_schedule_call_rsrcMan w0 f :
  (forall r, ready (f r) = ready r) ->
  preserves (same_schedule w0) (call_rsrcMan f).
Proof.
  intros Hf. apply preserves_call_rsrcMan.
  intros w (Hst & Hrd & Hraf & Hcaf & Hid & Hstats & Hl & Hc & Hrm & Hroot & Hwf & Hcf).
  unfold same_schedule, is_ready in *. cbn.
  destruct (rsrcMan (obj w)) as [r |]; cbn; rewrite ?Hf;
    repeat split; try assumption; intros Hx; try (apply Hrm; eauto; fail); eauto.
Qed.

Lemma same_schedule_root w0 c :
  preserves (same_schedule w0) (update (set_rootComponent (Some c))).
Proof.
  intros w (Hst & Hrd & Hraf & Hcaf & Hid & Hstats & Hl & Hc & Hrm & Hroot & Hwf & Hcf).
  unfold same_schedule. cbn. repeat split; try assumption; try apply Hrm; eauto.
Qed.

Lemma passive_same_schedule w0 c :
  passive c -> preserves (same_schedule w0) (perform c).
Proof.
  intros Hc. destruct c; try destruct Hc; cbn [perform]; preserve;
    try (apply same_schedule_root);
    apply same_schedule_call_rsrcMan; intros r; try reflexivity.
  destruct (match _ with Some (JObj _) => _ | _ => _ end); reflexivity.
Qed.

Lemma passive_coherent c w : passive c -> coherent w -> coherent (snd (perform c w)).
Proof.
  intros Hc Hw. apply (coherent_same_schedule w); [| exact Hw].
  apply (passive_same_schedule w c Hc w). apply same_schedule_refl.
Qed.

Ltac open_world w :=
  destruct w as [[started raf caf st mt [[rd us pf] |] root bank boot req bufs keys ctx lis hand]
                 [[wp wn] [cp cn] clk gl ctxs lg glf]].

Ltac split_coherent :=
  unfold coherent, is_ready in *; unfold_methods; unfold_M; cbn in *.

Ltac finish_coherent :=
  cbn in *; rewrite ?andb_false_r in *; cbn in *;
  repeat match goal with
         | H : exists _, _ |- _ => destruct H
         | H : _ /\ _ |- _ => destruct H
         end;
  subst; cbn in *; rewrite ?Nat.eqb_refl; cbn;
  repeat split; try tauto; try discriminate; eauto;
  try (intros [? ?]; discriminate);
  try (let s := fresh "s" in let Hs := fresh "Hs" in
       intros s Hs;
       match goal with
       | H2 : forall s, s <> _ -> _ |- _ => specialize (H2 s Hs); destruct s; tauto
       end).

Lemma start_coherent w : coherent w -> coherent (snd (start w)).
Proof.
  open_world w; split_coherent; intros (H1 & H2 & H3 & H4 & H5 & H6); subst caf.
  - destruct started, rd, raf; finish_coherent.
  - destruct started, raf; finish_coherent.
Qed.

Lemma stop_coherent w : coherent w -> coherent (snd (stop w)).
Proof.
  open_world w; split_coherent; intros (H1 & H2 & H3 & H4 & H5 & H6); subst caf.
  - destruct started, rd, raf; finish_coherent.
  - destruct started, raf; finish_coherent.
Qed.

Lemma bindM_snd {A B} (P Q R : World -> Prop) (m : M A) (k : A -> M B) :
  (forall w, P w -> Q (snd (m w))) ->
  (forall a w, Q w -> R (snd (k a w))) ->
  (forall w, Q w -> R w) ->
  forall w, P w -> R (snd (bindM m k w)).
Proof.
  intros Hm Hk Hthrow w H. unfold bindM. specialize (Hm w H).
  destruct (m w) as [[a | e] w1]; cbn in *; [apply Hk | apply Hthrow]; exact Hm.
Qed.

Lemma stop_stops w : isStarted (obj (snd (stop w))) = false.
Proof.
  unfold stop. unfold_methods. unfold_M. cbn.
  destruct (isStarted (obj w)) eqn:E; cbn; [| exact E].
  destruct (rsrcMan (obj w)) as [[[] ? ?] |]; cbn; [| reflexivity | reflexivity].
  destruct (animReqId (obj w)); reflexivity.
Qed.

Lemma destroy_coherent w : coherent w -> coherent (snd (destroy w)).
Proof.
  revert w. unfold destroy.
  apply (bindM_snd coherent (fun w => coherent w /\ isStarted (obj w) = false) coherent).
  - intros w H. split; [apply stop_coherent; exact H | apply stop_stops].
  - intros _ w. open_world w; split_coherent; intros [(H1 & H2 & H3 & H4 & H5 & H6) H7];
      subst caf started; destruct root, st, raf; finish_coherent.
  - tauto.
Qed.

Lemma signal_wait_coherent w : coherent w -> coherent (snd (signal_wait w)).
Proof.
  open_world w; split_coherent; intros (H1 & H2 & H3 & H4 & H5 & H6); subst caf.
  - destruct lis, started, rd, raf; finish_coherent.
  - destruct lis, started, raf; finish_coherent.
Qed.

Lemma signal_ready_coherent w : coherent w -> coherent (snd (signal_ready w)).
Proof.
  open_world w; split_coherent; intros (H1 & H2 & H3 & H4 & H5 & H6); subst caf.
  - destruct lis, started, rd, raf; finish_coherent.
  - destruct lis, started, raf; finish_coherent.
Qed.

Lemma context_lost_coherent w : coherent w -> coherent (snd (context_lost w)).
Proof.
  open_world w; split_coherent; intros (H1 & H2 & H3 & H4 & H5 & H6); subst caf.
  - destruct hand, started, rd, raf; finish_coherent.
  - destruct hand, started, raf; finish_coherent.
Qed.

Lemma find_request_nil id n : find_request id (mkScheduler [] n) = None.
Proof. reflexivity. Qed.

Lemma find_request_single id x b n r :
  find_request id (mkScheduler [mkRequest x b] n) = Some r -> x = id /\ r = mkRequest x b.
Proof.
  unfold find_request. cbn. destruct (x =? id) eqn:E; [| discriminate].
  apply Nat.eqb_eq in E. intros [= <-]. split; [exact E | reflexivity].
Qed.

(** A frame that is pending on a coherent state: it is the object's own
    request, and the object is started with its resources ready. *)
Lemma pending_frame_is_own s id w r :
  coherent w -> find_request id (sched s (host w)) = Some r ->
  s = requestAnimationFrame (obj w) /\
  animReqId (obj w) = Some id /\
  r = mkRequest id (stats (obj w)) /\
  pending (sched s (host w)) = [r] /\
  isStarted (obj w) = true /\
  exists rm c, rsrcMan (obj w) = Some rm /\ ready rm = true /\
               rootComponent (obj w) = Some c.
Proof.
  intros (H1 & H2 & H3 & H4 & H5 & H6) E.
  assert (Hs : s = requestAnimationFrame (obj w)).
  { destruct (source_eq_dec s (requestAnimationFrame (obj w))) as [-> | Hne];
      [reflexivity |].
    specialize (H2 s Hne). destruct (sched s (host w)) as [p n]. cbn in H2. subst p.
    discriminate. }
  subst s.
  destruct (isStarted (obj w) && is_ready (obj w)) eqn:Hrun.
  - destruct H3 as (x & Hid & Hp).
    destruct (sched (requestAnimationFrame (obj w)) (host w)) as [p n] eqn:Es.
    cbn in Hp. subst p.
    apply find_request_single in E as [-> ->].
    apply andb_true_iff in Hrun as [Hst Hrd]. unfold is_ready in Hrd.
    destruct (rsrcMan (obj w)) as [rm |] eqn:Erm; [| discriminate].
    destruct (H6 (ex_intro _ rm eq_refl)) as [c Hc].
    repeat split; try assumption; try reflexivity. exists rm, c. auto.
  - destruct (sched (requestAnimationFrame (obj w)) (host w)) as [p n].
    cbn in H3. subst p. discriminate.
Qed.

Lemma tick_coherent s id eel w : coherent w -> coherent (snd (tick s id eel w)).
Proof.
  intros H. unfold tick. unfold bindM at 1, read_host. cbn [fst snd].
  destruct (find_request id (sched s (host w))) as [r |] eqn:E; [| exact H].
  destruct (pending_frame_is_own s id w r H E)
    as (-> & Hid & -> & Hp & Hst & rm & c & Hrm & Hrd & Hroot).
  destruct H as (H1 & H2 & _ & H4 & H5 & H6).
  open_world w; cbn in *; [| discriminate].
  subst caf started root req. injection Hrm as <-. cbn in Hrd. subst rd.
  unfold coherent, is_ready, drawFrame. unfold_M.
  destruct raf, st; cbn in Hp; subst; cbn; rewrite ?Nat.eqb_refl; cbn;
    repeat split; eauto;
    try (intros s Hs; specialize (H2 s Hs); destruct s; tauto);
    try tauto.
Qed.

Lemma perform_coherent c w : coherent w -> coherent (snd (perform c w)).
Proof.
  intros H. destruct c; try (apply passive_coherent; [exact I | exact H]); cbn [perform].
  - apply start_coherent; exact H.
  - apply stop_coherent; exact H.
  - apply destroy_coherent; exact H.
  - unfold bindM. pose proof (signal_wait_coherent w H) as H'.
    destruct (signal_wait w) as [[[] | e] w1]; exact H'.
  - unfold bindM. pose proof (signal_ready_coherent w H) as H'.
    destruct (signal_ready w) as [[[] | e] w1]; exact H'.
  - unfold bindM. pose proof (context_lost_coherent w H) as H'.
    destruct (context_lost w) as [[[] | e] w1]; exact H'.
  - unfold bindM. pose proof (tick_coherent s id eel w H) as H'.
    destruct (tick s id eel w) as [[[] | e] w1]; exact H'.
Qed.

Lemma run_coherent cs : forall w, coherent w -> coherent (state_after cs w).
Proof.
  induction cs as [| c cs IH]; intros w H; [exact H |].
  unfold state_after in *. cbn [run].
  pose proof (perform_coherent c w H) as H1.
  destruct (perform c w) as [r w1]. cbn [snd] in H1.
  specialize (IH w1 H1). destruct (run cs w1) as [rs w2]. exact IH.
Qed.

Lemma constructor_001_coherent o h :
  idle h -> webgl h = true ->
  fst (constructor_001 o h) = Returned tt /\ coherent (snd (constructor_001 o h)).
Proof.
  intros [Hw Hc] Hgl. destruct h as [[wp wn] [cp cn] clk gl ctxs lg glf].
  cbn in Hw, Hc, Hgl. subst.
  unfold constructor_001, construct, select_callbacks_001, _initResourceManager,
    _registerContextEvents, coherent, is_ready.
  unfold_methods. unfold_M.
  destruct o as [[] pf [] []]; cbn; repeat split; eauto;
    try (intros []; reflexivity); try discriminate.
Qed.

(** *** The resource gate *)

Lemma coherent_frames w :
  coherent w ->
  if isStarted (obj w) && is_ready (obj w)
  then exists id, animReqId (obj w) = Some id /\
                  frames_pending w = [mkRequest id (stats (obj w))]
  else frames_pending w = [].
Proof.
  intros (H1 & H2 & H3 & _). unfold frames_pending.
  destruct (requestAnimationFrame (obj w)) eqn:Eraf.
  - pose proof (H2 Custom ltac:(discriminate)) as Hc. cbn in Hc. rewrite Hc.
    rewrite app_nil_r. exact H3.
  - pose proof (H2 Window ltac:(discriminate)) as Hc. cbn in Hc. rewrite Hc.
    exact H3.
Qed.

Lemma no_frames_no_tick w s id eel :
  frames_pending w = [] -> tick s id eel w = (Returned tt, w).
Proof.
  unfold frames_pending. intros H. apply app_eq_nil in H as [Hw Hc].
  unfold tick, bindM, read_host, find_request. cbn.
  destruct s; cbn; rewrite ?Hw, ?Hc; reflexivity.
Qed.

Lemma signal_wait_pauses w :
  listening (obj w) = true ->
  is_ready (obj (snd (signal_wait w))) = false /\
  isStarted (obj (snd (signal_wait w))) = isStarted (obj w) /\
  listening (obj (snd (signal_wait w))) = true.
Proof.
  intros Hl. open_world w; cbn in Hl; subst lis;
    unfold signal_wait, is_ready; unfold_methods; unfold_M; cbn.
  - destruct rd, started; cbn; try destruct req; cbn; repeat split; reflexivity.
  - repeat split; reflexivity.
Qed.

Lemma signal_ready_resumes w :
  listening (obj w) = true -> is_Some (rsrcMan (obj w)) ->
  is_ready (obj (snd (signal_ready w))) = true /\
  isStarted (obj (snd (signal_ready w))) = isStarted (obj w) /\
  stats (obj (snd (signal_ready w))) = stats (obj w).
Proof.
  intros Hl [rm Hrm]. open_world w; cbn in Hl, Hrm; subst lis; [| discriminate].
  unfold signal_ready, is_ready; unfold_methods; unfold_M; cbn.
  destruct rd, started; cbn; repeat split; reflexivity.
Qed.

Lemma tick_keeps_running s id eel started rd :
  preserves (fun w => isStarted (obj w) = started /\ is_ready (obj w) = rd)
            (tick s id eel).
Proof. preserve. Qed.

Lemma tick_returns s id eel w r :
  coherent w -> find_request id (sched s (host w)) = Some r ->
  fst (tick s id eel w) = Returned tt.
Proof.
  intros H E.
  destruct (pending_frame_is_own s id w r H E)
    as (-> & Hid & -> & Hp & Hst & rm & c & Hrm & Hrd & Hroot).
  unfold tick, drawFrame. unfold_M. rewrite E. cbn [fst snd obj host with_stats].
  destruct (stats (obj w)) eqn:Est;
    repeat (progress (cbn; rewrite ?Est, ?Hroot)); reflexivity.
Qed.

(** C3.  On a Main of the first revision, constructed on a host with no
    frame pending and a WebGL context, after any sequence of calls: if
    the animation is started and the resource manager's listeners are
    attached, then after a not-ready signal no frame request is pending,
    so no frame callback can run (every tick leaves the state as it is),
    and the object is still started; after the following ready signal
    exactly one frame request is pending, it is [animReqId], and when the
    host runs it the frame is drawn and the next frame is requested. *)
Theorem resource_gate_pauses_and_resumes (o : IMainOpts) (h : Host) (cs : list call) :
  idle h -> webgl h = true ->
  let w := state_after cs (snd (constructor_001 o h)) in
  isStarted (obj w) = true -> listening (obj w) = true ->
  let w1 := snd (signal_wait w) in
  let w2 := snd (signal_ready w1) in
  (frames_pending w1 = [] /\
   (forall s id eel, tick s id eel w1 = (Returned tt, w1)) /\
   isStarted (obj w1) = true) /\
  exists id,
    animReqId (obj w2) = Some id /\
    frames_pending w2 = [mkRequest id (stats (obj w2))] /\
    forall eel, exists id',
      let w3 := snd (tick (requestAnimationFrame (obj w2)) id eel w2) in
      fst (tick (requestAnimationFrame (obj w2)) id eel w2) = Returned tt /\
      registerBank (obj w3) = eel (registerBank (obj w2)) /\
      frames_pending w3 = [mkRequest id' (stats (obj w3))].
Proof.
  intros Hidle Hgl w Hst Hl w1 w2.
  assert (Hw : coherent w).
  { apply run_coherent. apply constructor_001_coherent; assumption. }
  assert (Hw1 : coherent w1) by (apply signal_wait_coherent; exact Hw).
  assert (Hw2 : coherent w2) by (apply signal_ready_coherent; exact Hw1).
  destruct (signal_wait_pauses w Hl) as (Hrd1 & Hst1 & Hl1). fold w1 in Hrd1, Hst1, Hl1.
  rewrite Hst in Hst1.
  assert (Hrm1 : is_Some (rsrcMan (obj w1))).
  { destruct Hw1 as (_ & _ & _ & H4 & _). apply H4. exact Hl1. }
  destruct (signal_ready_resumes w1 Hl1 Hrm1) as (Hrd2 & Hst2 & _). fold w2 in Hrd2, Hst2.
  rewrite Hst1 in Hst2.
  pose proof (coherent_frames w1 Hw1) as F1. rewrite Hst1, Hrd1 in F1. cbn in F1.
  pose proof (coherent_frames w2 Hw2) as F2. rewrite Hst2, Hrd2 in F2. cbn in F2.
  split.
  - split; [exact F1 |]. split; [| exact Hst1].
    intros s id eel. apply no_frames_no_tick. exact F1.
  - destruct F2 as (id & Hid & F2). exists id. split; [exact Hid |]. split; [exact F2 |].
    intros eel.
    assert (E : find_request id (sched (requestAnimationFrame (obj w2)) (host w2))
                = Some (mkRequest id (stats (obj w2)))).
    { destruct Hw2 as (_ & _ & H3 & _). rewrite Hst2, Hrd2 in H3. cbn in H3.
      destruct H3 as (x & Hx & Hp). rewrite Hid in Hx. injection Hx as <-.
      unfold find_request. rewrite Hp. cbn. rewrite Nat.eqb_refl. reflexivity. }
    pose proof (tick_returns _ id eel w2 _ Hw2 E) as Hret.
    pose proof (tick_coherent (requestAnimationFrame (obj w2)) id eel w2 Hw2) as Hw3.
    pose proof (tick_keeps_running (requestAnimationFrame (obj w2)) id eel true true w2
                  (conj Hst2 Hrd2)) as [Hst3 Hrd3].
    pose proof (coherent_frames _ Hw3) as F3. rewrite Hst3, Hrd3 in F3. cbn in F3.
    destruct F3 as (id' & _ & F3). exists id'. cbv zeta.
    split; [exact Hret |]. split; [| exact F3].
    apply (tick_runs_frame (requestAnimationFrame (obj w2)) id eel w2).
    + destruct (tick _ id eel w2) as [r w3] eqn:Et. cbn in Hret. subst r.
      reflexivity.
    + eexists. exact E.
Qed.

(** C3 on a started Main. *)
Lemma resource_gate_witness :
  let w := state_after [Start] (snd (constructor_001 plain_options fresh_host)) in
  let w1 := snd (signal_wait w) in
  let w2 := snd (signal_ready w1) in
  frames_pending w = [mkRequest 0 false] /\
  frames_pending w1 = [] /\
  frames_pending w2 = [mkRequest 1 false].
Proof.
  intros w w1 w2.
  destruct (resource_gate_pauses_and_resumes plain_options fresh_host [Start])
    as ((F1 & _ & _) & id & Hid & F2 & _).
  - split; reflexivity.
  - reflexivity.
  - reflexivity.
  - reflexivity.
  - split; [reflexivity |]. split; [exact F1 |]. reflexivity.
Defined.

(** *** Context loss and restore *)

(** C2 as stated fails.  A Main that is started, with a frame pending,
    loses its WebGL context and gets it back: both handlers return, and
    afterwards the object is stopped and no frame is pending, so no frame
    runs; the animation that ran before the loss is not resumed. *)
Lemma context_restore_does_not_resume :
  let w := state_after [Start] (snd (constructor_001 plain_options fresh_host)) in
  let w' := state_after [ContextLost; ContextRestored] w in
  isStarted (obj w) = true /\ frames_pending w = [mkRequest 0 false] /\
  fst (run [ContextLost; ContextRestored] w) = [Returned VUndefined; Returned VUndefined] /\
  isStarted (obj w') = false /\ frames_pending w' = [] /\
  forall eel s id, tick s id eel w' = (Returned tt, w').
Proof.
  cbv zeta. repeat (split; [vm_compute; reflexivity |]).
  intros eel s id. apply no_frames_no_tick. vm_compute. reflexivity.
Qed.

Lemma lost_then_restored w rm c :
  rsrcMan (obj w) = Some rm -> rootComponent (obj w) = Some c ->
  contextHandlers (obj w) = true ->
  let w2 := state_after [ContextLost; ContextRestored] w in
  fst (run [ContextLost; ContextRestored] w) = [Returned VUndefined; Returned VUndefined] /\
  rootComponent (obj w2) = Some (mkComponent (Component_toJSON c) (rctx (obj w2)) ∅) /\
  rctx (obj w2) = S (contexts (host w)) /\
  isStarted (obj w2) = false /\
  is_ready (obj w2) = is_ready (obj w) /\
  stats (obj w2) = stats (obj w).
Proof.
  intros Hrm Hroot Hh. open_world w; cbn in Hrm, Hroot, Hh; [| discriminate].
  subst root hand. unfold state_after, run, perform, is_ready.
  unfold_methods. unfold stop. unfold_methods. unfold_M.
  destruct started, rd, caf; cbn; try destruct req; cbn; repeat split; reflexivity.
Qed.

Lemma start_requests_frame w :
  coherent w -> isStarted (obj w) = false -> is_ready (obj w) = true ->
  exists id, frames_pending (snd (start w)) = [mkRequest id (stats (obj w))] /\
             isStarted (obj (snd (start w))) = true.
Proof.
  intros Hw Hst Hrd.
  pose proof (start_coherent w Hw) as Hw'.
  pose proof (coherent_frames _ Hw') as F.
  assert (E : isStarted (obj (snd (start w))) = true /\
              is_ready (obj (snd (start w))) = true /\
              stats (obj (snd (start w))) = stats (obj w)).
  { clear F Hw' Hw. open_world w; unfold is_ready in *; cbn in Hst, Hrd; subst;
      [| discriminate].
    unfold start, is_ready. unfold_methods. unfold_M. cbn. repeat split; reflexivity. }
  destruct E as (E1 & E2 & E3). rewrite E1, E2, E3 in F. cbn in F.
  destruct F as (id & _ & F). exists id. split; [exact F | exact E1].
Qed.

(** C2, amended.  On a Main of the first revision, constructed on a host
    with no frame pending and a WebGL context, after any sequence of calls
    that leaves the context handlers attached: a context-lost event
    followed by a context-restored event rebuilds the root component from
    the configuration the last root serialises to, on a fresh rendering
    context, and leaves the object stopped with no frame pending, whether
    or not it was running before; a later [start()] requests a frame
    again when the resources are ready. *)
Theorem context_restore_rebuilds_and_stays_stopped
    (o : IMainOpts) (h : Host) (cs : list call) :
  idle h -> webgl h = true ->
  let w := state_after cs (snd (constructor_001 o h)) in
  contextHandlers (obj w) = true ->
  let w2 := state_after [ContextLost; ContextRestored] w in
  exists c,
    rootComponent (obj w) = Some c /\
    fst (run [ContextLost; ContextRestored] w) = [Returned VUndefined; Returned VUndefined] /\
    rootComponent (obj w2) = Some (mkComponent (Component_toJSON c) (rctx (obj w2)) ∅) /\
    rctx (obj w2) = S (contexts (host w)) /\
    isStarted (obj w2) = false /\
    frames_pending w2 = [] /\
    (is_ready (obj w2) = true ->
     exists id, frames_pending (snd (start w2)) = [mkRequest id (stats (obj w2))]).
Proof.
  intros Hidle Hgl w Hh w2.
  assert (Hw : coherent w).
  { apply run_coherent. apply constructor_001_coherent; assumption. }
  assert (Hw2 : coherent w2).
  { unfold w2. apply run_coherent. exact Hw. }
  destruct Hw as (_ & _ & _ & _ & H5 & H6).
  destruct (proj1 H5 Hh) as [rm Hrm].
  destruct (H6 (ex_intro _ rm Hrm)) as [c Hroot].
  destruct (lost_then_restored w rm c Hrm Hroot Hh) as (Hr & Hroot2 & Hctx & Hst & Hrd & Hstats).
  fold w2 in Hroot2, Hctx, Hst, Hrd, Hstats.
  exists c. repeat (split; [assumption |]).
  split.
  - pose proof (coherent_frames w2 Hw2) as F. rewrite Hst in F. exact F.
  - intros Hready. destruct (start_requests_frame w2 Hw2 Hst Hready) as (id & F & _).
    exists id. exact F.
Qed.

(** C2, amended, on a started Main. *)
Lemma context_restore_witness :
  let w := state_after [Start] (snd (constructor_001 plain_options fresh_host)) in
  let w2 := state_after [ContextLost; ContextRestored] w in
  exists c,
    rootComponent (obj w) = Some c /\
    rootComponent (obj w2) = Some (mkComponent (Component_toJSON c) 2 ∅) /\
    isStarted (obj w2) = false /\
    frames_pending w2 = [].
Proof.
  intros w w2.
  destruct (context_restore_rebuilds_and_stays_stopped plain_options fresh_host [Start])
    as (c & Hc & _ & Hroot & Hctx & Hst & F & _).
  - split; reflexivity.
  - reflexivity.
  - reflexivity.
  - exists c. fold w w2 in Hc, Hroot, Hctx, Hst, F.
    split; [exact Hc |]. split; [| split; assumption].
    rewrite Hroot, Hctx. reflexivity.
Defined.

(** *** Preset round trip *)

Lemma lookup_foldr_delete {V} (keys : list string) (m : gmap string V) k :
  foldr delete m keys !! k = if decide (k ∈ keys) then None else m !! k.
Proof.
  induction keys as [| k0 keys IH]; cbn.
  - destruct (decide (k ∈ [])) as [H | _]; [inversion H | reflexivity].
  - destruct (decide (k0 = k)) as [-> | Hne].
    + rewrite lookup_delete_eq. destruct (decide (k ∈ k :: keys)) as [_ | H];
        [reflexivity | elim H; left].
    + rewrite lookup_delete_ne by exact Hne. rewrite IH.
      destruct (decide (k ∈ keys)) as [Hin | Hout];
        destruct (decide (k ∈ k0 :: keys)) as [Hin' | Hout']; try reflexivity.
      * elim Hout'. right. exact Hin.
      * inversion Hin'; subst; [congruence | contradiction].
Qed.

Lemma clear_own_uris keys r :
  (forall k, is_Some (uris r !! k) -> k ∈ keys) ->
  uris (ResourceManager_clear keys r) = ∅.
Proof.
  intros H. apply map_eq. intros k. cbn. rewrite lookup_foldr_delete, lookup_empty.
  destruct (decide (k ∈ keys)) as [_ | Hout]; [reflexivity |].
  destruct (uris r !! k) eqn:E; [| reflexivity].
  elim Hout. apply H. rewrite E. eauto.
Qed.

Lemma plain_preset_resources cf comps u m :
  <["id" := JStr "root"]> (plain_preset cf comps u m) !! "resources"
  = Some (JObj {[ "uris" := JObj u ]}).
Proof. destruct cf, comps; vm_compute; reflexivity. Qed.

Lemma plain_preset_meta cf comps u m :
  <["id" := JStr "root"]> (plain_preset cf comps u m) !! "meta" = Some m.
Proof. destruct cf, comps; vm_compute; reflexivity. Qed.

Lemma pick_plain_preset cf comps u m :
  <["meta" := m]>
    (<["resources" := JObj {[ "uris" := JObj u ]}]>
       (pick ["clearFrame"; "components"]
             (JObj (<["id" := JStr "root"]> (plain_preset cf comps u m)))))
  = plain_preset cf comps u m.
Proof. destruct cf, comps; vm_compute; reflexivity. Qed.

Lemma toJSON_eval w c r :
  rootComponent (obj w) = Some c -> rsrcMan (obj w) = Some r ->
  toJSON w =
    (Returned (VJson (JObj (<["meta" := meta (obj w)]>
                              (<["resources" := ResourceManager_toJSON r]>
                                 (pick ["clearFrame"; "components"] (config c)))))), w).
Proof.
  intros Hc Hr. unfold toJSON. unfold_M. rewrite Hc, Hr. reflexivity.
Qed.

Lemma loadPreset_plain w c0 r cf comps u m :
  rootComponent (obj w) = Some c0 -> rsrcMan (obj w) = Some r -> own_uris (obj w) ->
  let p := plain_preset cf comps u m in
  let w1 := snd (loadPreset p w) in
  fst (loadPreset p w) = Returned VUndefined /\
  rootComponent (obj w1) =
    Some (mkComponent (JObj (<["id" := JStr "root"]> p)) (rctx (obj w)) ∅) /\
  rsrcMan (obj w1) = Some (mkRsrc (ready r) u (prefix r)) /\
  meta (obj w1) = m.
Proof.
  intros Hc Hr Hown p w1. unfold own_uris in Hown. rewrite Hr in Hown.
  pose proof (clear_own_uris _ _ Hown) as Hclear.
  subst w1 p. unfold loadPreset. cbv zeta.
  rewrite (plain_preset_resources cf comps u m), (plain_preset_meta cf comps u m).
  unfold call_rsrcMan, has_uris, object_keys, _setupRoot, EffectList_new. unfold_M.
  repeat (progress (cbn; rewrite ?Hc, ?Hr, ?lookup_singleton_eq)).
  repeat split.
  f_equal. f_equal. unfold ResourceManager_clear in Hclear. cbn [uris] in Hclear.
  rewrite Hclear. apply map_eq. intros k.
  rewrite lookup_union_l by apply lookup_empty. reflexivity.
Qed.

Lemma own_uris_cleared (keys : list string) (us : gmap string Json) (ks : list string) :
  foldr delete us keys = ∅ ->
  forall k : string, is_Some (foldr delete us keys !! k) -> k ∈ ks.
Proof. intros -> k [x Hx]. rewrite lookup_empty in Hx. discriminate. Qed.

Lemma loadPreset_own_uris p w : own_uris (obj w) -> own_uris (obj (snd (loadPreset p w))).
Proof.
  intros Hown. unfold own_uris in Hown.
  open_world w; cbn in Hown.
  - pose proof (clear_own_uris _ (mkRsrc rd us pf) Hown) as Hclear.
    unfold ResourceManager_clear in Hclear. cbn [uris] in Hclear.
    unfold loadPreset. cbv zeta.
    unfold call_rsrcMan, has_uris, object_keys, _setupRoot, EffectList_new, own_uris.
    unfold_M. cbn.
    destruct root as [c0 |]; cbn; [| exact Hown].
    destruct (<["id" := JStr "root"]> p !! "resources") as [[| | | | | | r0] |]; cbn;
      try (apply own_uris_cleared; exact Hclear).
    destruct (r0 !! "uris") as [[| | | | | | u'] |]; cbn;
      try (apply own_uris_cleared; exact Hclear).
    rewrite Hclear. intros k [x Hx].
    rewrite lookup_union_l in Hx by apply lookup_empty.
    apply list_elem_of_fmap. exists (k, x). split; [reflexivity |].
    apply elem_of_map_to_list. exact Hx.
  - unfold loadPreset. cbv zeta.
    unfold call_rsrcMan, has_uris, object_keys, _setupRoot, EffectList_new, own_uris.
    unfold_M. cbn. destruct root; cbn; exact I.
Qed.

Lemma perform_own_uris c w : own_uris (obj w) -> own_uris (obj (snd (perform c w))).
Proof.
  revert w. change (preserves (fun w => own_uris (obj w)) (perform c)).
  destruct c; cbn [perform];
    try (intros w H; apply loadPreset_own_uris; exact H);
    preserve;
    intros w H; unfold own_uris, set_ready in *; cbn;
    destruct (rsrcMan (obj w)); cbn; auto.
Qed.

Lemma run_own_uris cs : forall w, own_uris (obj w) -> own_uris (obj (state_after cs w)).
Proof.
  induction cs as [| c cs IH]; intros w H; [exact H |].
  unfold state_after in *. cbn [run].
  pose proof (perform_own_uris c w H) as H1.
  destruct (perform c w) as [r w1]. cbn [snd] in H1.
  specialize (IH w1 H1). destruct (run cs w1) as [rs w2]. exact IH.
Qed.

Lemma constructor_001_own_uris o h : own_uris (obj (snd (constructor_001 o h))).
Proof.
  unfold constructor_001, construct, _initResourceManager, _registerContextEvents, own_uris.
  unfold_methods. unfold_M.
  destruct o as [[] pf [] []], (webgl h) eqn:E; cbn; rewrite ?E; cbn;
    intros k [x Hx]; rewrite lookup_empty in Hx; discriminate.
Qed.

Lemma pick_lookup keys (o : gmap string Json) k :
  pick keys (JObj o) !! k = if decide (k ∈ keys) then o !! k else None.
Proof.
  unfold pick. rewrite map_lookup_filter.
  destruct (o !! k) as [x |]; cbn; [| destruct (decide (k ∈ keys)); reflexivity].
  destruct (decide (k ∈ keys)) as [Hin | Hout].
  - rewrite option_guard_True by exact Hin. reflexivity.
  - rewrite option_guard_False by exact Hout. reflexivity.
Qed.

Lemma loadPreset_returns p w v w' :
  loadPreset p w = (Returned v, w') ->
  meta (obj w') = default JUndefined (p !! "meta") /\
  is_Some (rsrcMan (obj w')) /\
  rootComponent (obj w') =
    Some (mkComponent (JObj (<["id" := JStr "root"]> p)) (rctx (obj w)) ∅).
Proof.
  assert (Hmeta : <["id" := JStr "root"]> p !! "meta" = p !! "meta").
  { apply lookup_insert_ne. discriminate. }
  unfold loadPreset. cbv zeta. rewrite Hmeta.
  unfold call_rsrcMan, has_uris, object_keys, _setupRoot, EffectList_new. unfold_M.
  open_world w; cbn; destruct root as [c0 |]; cbn; try discriminate.
  destruct (<["id" := JStr "root"]> p !! "resources") as [[| | | | | | r0] |]; cbn;
    try discriminate; try (intros [= <- <-]; cbn; eauto).
  destruct (r0 !! "uris") as [[| | | | | | u'] |]; cbn;
    try discriminate; intros [= <- <-]; cbn; eauto.
Qed.

(** C1 as stated fails.  The root of the repository's example preset
    carries [name] and [author] next to [clearFrame] and [components];
    [loadPreset] followed by [toJSON] returns an object without them,
    which is therefore not the preset that was loaded. *)
Lemma root_properties_are_dropped :
  let w := snd (constructor_001 plain_options fresh_host) in
  let w1 := snd (loadPreset pillow w) in
  exists j,
    fst (loadPreset pillow w) = Returned VUndefined /\
    fst (toJSON w1) = Returned (VJson (JObj j)) /\
    pillow !! "name" = Some (JStr "pillow fight (re-feathered)") /\
    j !! "name" = None /\
    j !! "author" = None /\
    j <> pillow.
Proof.
  cbv zeta. eexists.
  split; [vm_compute; reflexivity |].
  split; [vm_compute; reflexivity |].
  split; [vm_compute; reflexivity |].
  split; [vm_compute; reflexivity |].
  split; [vm_compute; reflexivity |].
  intros H. apply (f_equal (lookup "name")) in H. vm_compute in H. discriminate.
Qed.

(** C1, amended.  On a Main that was constructed and not destroyed,
    after any sequence of calls: a preset whose root carries only
    [clearFrame], [components] (either may be absent), [resources] of the
    form {uris: u} and [meta] is returned unchanged by [loadPreset]
    followed by [toJSON].  For any preset object that loads, [toJSON]
    returns the root's [clearFrame] and [components], always writes [meta]
    (the preset's, [undefined] when it has none) and [resources], and
    nothing else: every other property of the root is dropped.  The
    component tree and the resource manager are modelled from the spec. *)
Theorem preset_round_trip_of_written_properties
    (o : IMainOpts) (h : Host) (cs : list call)
    (clearFrame components : option Json) (u : gmap string Json) (m : Json) :
  idle h -> webgl h = true ->
  let w := state_after cs (snd (constructor_001 o h)) in
  is_Some (rsrcMan (obj w)) ->
  let c := plain_preset clearFrame components u m in
  let w1 := snd (loadPreset c w) in
  fst (loadPreset c w) = Returned VUndefined /\
  toJSON w1 = (Returned (VJson (JObj c)), w1) /\
  (forall p w' j,
      fst (loadPreset p w) = Returned VUndefined ->
      toJSON (snd (loadPreset p w)) = (Returned (VJson (JObj j)), w') ->
      j !! "clearFrame" = p !! "clearFrame" /\
      j !! "components" = p !! "components" /\
      j !! "meta" = Some (default JUndefined (p !! "meta")) /\
      is_Some (j !! "resources") /\
      forall k, is_Some (j !! k) ->
                k = "clearFrame" \/ k = "components" \/ k = "resources" \/ k = "meta").
Proof.
  intros Hidle Hgl w Hrm. cbv zeta.
  assert (Hw : coherent w).
  { apply run_coherent. apply constructor_001_coherent; assumption. }
  assert (Hown : own_uris (obj w)).
  { apply run_own_uris. apply constructor_001_own_uris. }
  destruct Hw as (_ & _ & _ & _ & _ & H6).
  destruct Hrm as [r Hr]. destruct (H6 (ex_intro _ r Hr)) as [c0 Hc0].
  destruct (loadPreset_plain w c0 r clearFrame components u m Hc0 Hr Hown)
    as (Hret & Hroot & Hrsrc & Hmeta).
  split; [exact Hret |]. split.
  - rewrite (toJSON_eval _ _ _ Hroot Hrsrc). rewrite Hmeta. cbn [config].
    unfold ResourceManager_toJSON. cbn [uris].
    rewrite pick_plain_preset. reflexivity.
  - intros p w' j Hp Hj.
    destruct (loadPreset p w) as [res wp] eqn:El. cbn in Hp, Hj. subst res.
    destruct (loadPreset_returns p w _ wp El) as (Hm & [rp Hrp] & Hrp').
    rewrite (toJSON_eval wp _ _ Hrp' Hrp) in Hj. injection Hj as <- _.
    cbn [config]. rewrite Hm.
    assert (Hpick : forall k,
      pick ["clearFrame"; "components"] (JObj (<["id" := JStr "root"]> p)) !! k
      = if decide (k ∈ ["clearFrame"; "components"]) then p !! k else None).
    { intros k. rewrite pick_lookup. destruct (decide _) as [Hin | Hout]; [| reflexivity].
      apply lookup_insert_ne. intros <-. revert Hin. vm_compute. 
      unfold elem_of in *. intros Hin. inversion Hin as [| ? ? ? Hin']; subst.
      inversion Hin' as [| ? ? ? Hin'']; subst. inversion Hin''. }
    split; [| split; [| split; [| split]]].
    + rewrite !lookup_insert_ne by discriminate. rewrite Hpick.
      rewrite decide_True; [reflexivity | left].
    + rewrite !lookup_insert_ne by discriminate. rewrite Hpick.
      rewrite decide_True; [reflexivity | right; left].
    + rewrite lookup_insert_eq. reflexivity.
    + rewrite lookup_insert_ne by discriminate. rewrite lookup_insert_eq. eauto.
    + intros k. rewrite !lookup_insert. repeat case_decide; subst; auto.
      rewrite Hpick. destruct (decide _) as [Hin | Hout]; [| intros [? ?]; discriminate].
      intros _. apply list_elem_of_In in Hin. cbn in Hin. intuition auto.
Qed.

(** C1, amended, on a preset with one resource. *)
Lemma preset_round_trip_witness :
  let w := state_after [Start] (snd (constructor_001 plain_options fresh_host)) in
  let c := plain_preset (Some (JBool true)) (Some (JArr [])) {[ "img" := JStr "a.png" ]}
                        (JObj {[ "name" := JStr "pillow fight" ]}) in
  toJSON (snd (loadPreset c w)) = (Returned (VJson (JObj c)), snd (loadPreset c w)).
Proof.
  intros w c.
  destruct (preset_round_trip_of_written_properties plain_options fresh_host [Start]
              (Some (JBool true)) (Some (JArr [])) {[ "img" := JStr "a.png" ]}
              (JObj {[ "name" := JStr "pillow fight" ]})) as (_ & H & _).
  - split; reflexivity.
  - reflexivity.
  - eexists. vm_compute. reflexivity.
  - exact H.
Defined.

End MainProofs.

Module MirrorProgramProofs.
Import Mirror MirrorProgram MirrorProofs.

Ltac qc2q :=
  unfold half, Qc_int in *;
  repeat (progress (unfold Qclt, Qcle, Qcplus, Qcminus, Qcopp, Qcmult in *;
                    cbn [this Q2Qc] in *; rewrite ?Qred_correct in *));
  change (inject_Z (-1)) with (-1 # 1)%Q in *;
  change (inject_Z 1) with (1 # 1)%Q in *.

Lemma keep_side (x : Qc) : ((x - half) * Qc_int 1 + half)%Qc = x.
Proof. change (Qc_int 1) with 1%Qc. ring. Qed.

Lemma flip_side (x : Qc) :
  x <> half ->
  ((x - half) * Qc_int (-1) + half < half)%Qc <-> ~ (x < half)%Qc.
Proof.
  intros Hx.
  assert (~ (x == half)%Q) as Hx'.
  { intros H. apply Hx. apply Qc_is_canon. exact H. }
  clear Hx. qc2q. split; intros H.
  - lra.
  - lra.
Qed.

Lemma flip_centre : ((half - half) * Qc_int (-1) + half)%Qc = half.
Proof. change (Qc_int (-1)) with (- (1))%Qc. ring. Qed.

Lemma xFlip_cases qa qb : xFlip qa qb = 1%Z \/ xFlip qa qb = (-1)%Z.
Proof. unfold xFlip. destruct (check _ _ _ _ _ _); auto. Qed.

Lemma yFlip_cases qa qb : yFlip qa qb = 1%Z \/ yFlip qa qb = (-1)%Z.
Proof. unfold yFlip. destruct (check _ _ _ _ _ _); auto. Qed.

Lemma check_sym a b c d e f : check a b c d e f = check b a c d e f.
Proof.
  unfold check.
  destruct (a =? c)%Z, (a =? d)%Z, (a =? e)%Z, (a =? f)%Z,
           (b =? c)%Z, (b =? d)%Z, (b =? e)%Z, (b =? f)%Z; reflexivity.
Qed.

Lemma mirrorPos_same (pos : vec2) (qa : Z) : mirrorPos pos qa qa = pos.
Proof.
  destruct pos as [px py]. unfold mirrorPos. cbn [fst snd].
  assert (xFlip qa qa = 1%Z) as ->.
  { unfold xFlip, check.
    destruct (Z.eqb_spec qa 0), (Z.eqb_spec qa 2), (Z.eqb_spec qa 1), (Z.eqb_spec qa 3);
      try reflexivity; lia. }
  assert (yFlip qa qa = 1%Z) as ->.
  { unfold yFlip, check.
    destruct (Z.eqb_spec qa 0), (Z.eqb_spec qa 2), (Z.eqb_spec qa 1), (Z.eqb_spec qa 3);
      try reflexivity; lia. }
  rewrite !keep_side. reflexivity.
Qed.

(** X1.  [xFlip] is -1 exactly between quadrants of different columns and
    [yFlip] exactly between quadrants of different rows; both are 1
    otherwise, in particular between a quadrant and itself.  [mirrorPos]
    does not depend on which of the two quadrants is the pixel's, and it
    leaves the centre lines of the frame where they are. *)
Theorem mirrorPos_is_a_reflection (pos : vec2) (qa qb : Z) (x y : Qc) :
  ((0 <= qa < 4)%Z -> (0 <= qb < 4)%Z ->
     (xFlip qa qb = (-1)%Z <-> (qa mod 2 <> qb mod 2)%Z) /\
     (yFlip qa qb = (-1)%Z <-> (qa / 2 <> qb / 2)%Z)) /\
  (xFlip qa qb = 1%Z \/ xFlip qa qb = (-1)%Z) /\
  (yFlip qa qb = 1%Z \/ yFlip qa qb = (-1)%Z) /\
  xFlip qa qa = 1%Z /\ yFlip qa qa = 1%Z /\
  mirrorPos pos qa qb = mirrorPos pos qb qa /\
  fst (mirrorPos (half, y) qa qb) = half /\
  snd (mirrorPos (x, half) qa qb) = half.
Proof.
  split.
  { intros Ha Hb.
    assert (qa = 0 \/ qa = 1 \/ qa = 2 \/ qa = 3)%Z as [-> | [-> | [-> | ->]]] by lia;
    assert (qb = 0 \/ qb = 1 \/ qb = 2 \/ qb = 3)%Z as [-> | [-> | [-> | ->]]] by lia;
    vm_compute; split; split; intros H;
      first [reflexivity | discriminate H | (exfalso; apply H; reflexivity)
            | (intros E; discriminate E)]. }
  split; [apply xFlip_cases |]. split; [apply yFlip_cases |].
  split.
  { unfold xFlip, check.
    destruct (Z.eqb_spec qa 0), (Z.eqb_spec qa 2), (Z.eqb_spec qa 1), (Z.eqb_spec qa 3);
      try reflexivity; lia. }
  split.
  { unfold yFlip, check.
    destruct (Z.eqb_spec qa 0), (Z.eqb_spec qa 2), (Z.eqb_spec qa 1), (Z.eqb_spec qa 3);
      try reflexivity; lia. }
  split; [| split]; destruct pos as [px py]; unfold mirrorPos; cbn [fst snd].
  - unfold xFlip, yFlip. rewrite (check_sym qa qb 0 2 1 3), (check_sym qa qb 0 1 2 3).
    reflexivity.
  - destruct (xFlip_cases qa qb) as [-> | ->]; rewrite ?keep_side, ?flip_centre; reflexivity.
  - destruct (yFlip_cases qa qb) as [-> | ->]; rewrite ?keep_side, ?flip_centre; reflexivity.
Qed.

(** X2.  A pixel that lies on neither centre line is sent by [mirrorPos] from
    its own quadrant into the quadrant it is asked to copy from. *)
Theorem mirrorPos_lands_in_quadrant (pos : vec2) (qb : Z) :
  (0 <= qb < 4)%Z -> off_centre pos ->
  getQuadrant (mirrorPos pos (getQuadrant pos) qb) = qb.
Proof.
  intros Hq [Hx Hy]. destruct pos as [px py]. cbn [fst snd] in Hx, Hy.
  (* a flip about the centre changes the side, no flip keeps it *)
  pose proof (flip_side px Hx) as Fx. pose proof (flip_side py Hy) as Fy.
  assert (qb = 0 \/ qb = 1 \/ qb = 2 \/ qb = 3)%Z as [-> | [-> | [-> | ->]]] by lia;
    unfold getQuadrant at 2; cbn [fst snd];
    destruct (decide (px < half)%Qc) as [Lx | Lx], (decide (py < half)%Qc) as [Ly | Ly];
    unfold mirrorPos, xFlip, yFlip, check; cbn [fst snd Z.eqb orb andb];
    rewrite ?keep_side; unfold getQuadrant; cbn [fst snd];
    repeat match goal with
           | |- context [decide ?P] => destruct (decide P)
           end; try reflexivity; exfalso; tauto.
Qed.

Lemma mirrorPos_lands_witness :
  getQuadrant (mirrorPos (Qc_int 0, Qc_int 0) (getQuadrant (Qc_int 0, Qc_int 0)) 1) = 1%Z.
Proof.
  apply mirrorPos_lands_in_quadrant; [lia |].
  split; cbn; intros H; discriminate H.
Defined.

End MirrorProgramProofs.

Module MirrorStatesProofs.
Import Mirror MirrorProgram MirrorStates MirrorProofs MirrorProgramProofs.

(** *** The quadrant map *)

(** X3.  Every quadrant that some quadrant copies from shows its own picture:
    looking up an entry of the map in the map gives the entry again, for
    every setting of the four directions, hence also for every random
    choice among them. *)
Theorem quadrant_map_sources_show_themselves (ds : MirrorDirs) :
  List.map (fun q => quadrant_map ds !!! Z.to_nat q) (quadrant_map ds) = quadrant_map ds.
Proof. destruct ds as [[] [] [] []]; reflexivity. Qed.

(** X4.  On a beat, [_setQuadrantMap(true)] keeps a configured direction
    exactly when the bit of the random value that belongs to it is set: no
    direction that the options switch off is ever switched on, every
    choice among the configured directions is taken for some random value
    below 16, the value 15 keeps them all and the value 0 none, which
    gives the identity map. *)
Theorem random_directions_are_among_the_configured (o : MirrorOpts) :
  (forall randVal, among (mirrorDirs true randVal o) (dirs o)) /\
  (forall ds, among ds (dirs o) ->
     exists randVal, (0 <= randVal < 16)%Z /\ mirrorDirs true randVal o = ds) /\
  mirrorDirs true 15 o = dirs o /\
  quadrant_map (mirrorDirs true 0 o) = [0; 1; 2; 3]%Z.
Proof.
  split; [| split; [| split]].
  - intros randVal d. unfold mirrorDirs, gate.
    destruct d; cbn [enabled topToBottom bottomToTop leftToRight rightToLeft];
      intros H; apply andb_true_iff in H as [_ H]; exact H.
  - intros [a b c d] H.
    pose proof (H TopToBottom) as Ha. pose proof (H BottomToTop) as Hb.
    pose proof (H LeftToRight) as Hc. pose proof (H RightToLeft) as Hd.
    cbn [enabled topToBottom bottomToTop leftToRight rightToLeft] in Ha, Hb, Hc, Hd.
    exists ((if a then 1 else 0) + (if b then 2 else 0)
            + (if c then 4 else 0) + (if d then 8 else 0))%Z.
    split; [destruct a, b, c, d; lia |].
    unfold mirrorDirs, gate.
    destruct a, b, c, d; cbn [Z.add Z.land Z.eqb negb andb Pos.land Pos.add Pos.succ];
      rewrite ?Ha, ?Hb, ?Hc, ?Hd by reflexivity; reflexivity.
  - destruct o as [[[] [] [] []] ? ? ?]; reflexivity.
  - reflexivity.
Qed.

(** *** Without smooth transitions *)

Lemma mirrorPos_lands (pos : vec2) (qb : Z) :
  (0 <= qb < 4)%Z -> off_centre pos ->
  getQuadrant (mirrorPos pos (getQuadrant pos) qb) = qb.
Proof.
  intros Hq [Hx Hy]. destruct pos as [px py]. cbn [fst snd] in Hx, Hy.
  pose proof (flip_side px Hx) as Fx. pose proof (flip_side py Hy) as Fy.
  assert (qb = 0 \/ qb = 1 \/ qb = 2 \/ qb = 3)%Z as [-> | [-> | [-> | ->]]] by lia;
    unfold getQuadrant at 2; cbn [fst snd];
    destruct (decide (px < half)%Qc), (decide (py < half)%Qc);
    unfold mirrorPos, xFlip, yFlip, check; cbn [fst snd Z.eqb orb andb];
    rewrite ?keep_side; unfold getQuadrant; cbn [fst snd];
    repeat match goal with
           | |- context [decide ?P] => destruct (decide P)
           end; try reflexivity; exfalso; tauto.
Qed.

Lemma quadrant_map_idempotent ds i :
  i < 4 -> quadrant_map ds !!! Z.to_nat (quadrant_map ds !!! i) = quadrant_map ds !!! i.
Proof.
  intros Hi. destruct i as [|[|[|[|]]]]; try lia;
    destruct ds as [[] [] [] []]; reflexivity.
Qed.

Lemma setMix_plain nt m :
  smoothTransition (opts m) = false -> shape (mix m) ->
  _setMix nt m = Ok (with_mix (indexed (map m)) m).
Proof.
  intros Hs Hmx. unfold _setMix. rewrite Hs. cbn [andb].
  rewrite index_format_eq by assumption. reflexivity.
Qed.

Lemma setQuadrantMap_plain random randVal m :
  smoothTransition (opts m) = false -> shape (mix m) ->
  let mp := quadrant_map (mirrorDirs random randVal (opts m)) in
  _setQuadrantMap random randVal m = Ok (with_mix (indexed mp) (with_map mp m)) /\
  plain (with_mix (indexed mp) (with_map mp m)).
Proof.
  intros Hs Hmx mp. unfold _setQuadrantMap. fold mp.
  rewrite setMix_plain by assumption. split; [reflexivity |].
  split; [exact Hs |]. split; [exists (mirrorDirs random randVal (opts m)) |]; reflexivity.
Qed.

Lemma plain_shape m : plain m -> shape (mix m).
Proof. intros (_ & _ & ->). apply shape_tabulate4. Qed.

Lemma draw_plain beat randVal m :
  plain m ->
  let m' := if onBeatRandom (opts m) && beat
            then let mp := quadrant_map (mirrorDirs true randVal (opts m)) in
                 with_mix (indexed mp) (with_map mp m)
            else m in
  Mirror.draw beat randVal m = Ok (m', (false, indexed (map m'))) /\ plain m'.
Proof.
  intros Hp m'. pose proof Hp as (Hs & Hds & Hmx).
  assert ((if onBeatRandom (opts m) && beat
           then _setQuadrantMap true randVal m else Ok m) = Ok m' /\ plain m') as [E Hp'].
  { subst m'. destruct (onBeatRandom (opts m) && beat).
    - apply setQuadrantMap_plain; [exact Hs | apply plain_shape; exact Hp].
    - split; [reflexivity | exact Hp]. }
  split; [| exact Hp'].
  unfold Mirror.draw. rewrite E. cbn [bind]. destruct Hp' as (Hs' & _ & Hmx').
  unfold uniforms, _inTransition. rewrite Hs', Hmx'. reflexivity.
Qed.

Lemma setOption_plain u m :
  plain m -> stays_plain (Update u) -> exists m', setOption u m = Ok m' /\ plain m'.
Proof.
  intros Hp Hu. pose proof Hp as (Hs & Hds & Hmx). unfold setOption.
  destruct u as [d b | b | b | q]; cbn [has_updateMap_handler].
  - eexists. unfold updateMap. apply setQuadrantMap_plain; [exact Hs | apply plain_shape; exact Hp].
  - eexists. split; [reflexivity |]. split; [exact Hs |]. split; assumption.
  - cbn in Hu. subst b. eexists. split; [reflexivity |].
    split; [reflexivity |]. split; assumption.
  - eexists. split; [reflexivity |]. split; [exact Hs |]. split; assumption.
Qed.

Lemma run_plain es : forall m,
  plain m -> Forall stays_plain es -> exists m', run es m = Ok m' /\ plain m'.
Proof.
  induction es as [| e es IH]; intros m Hp Hes; [cbn; eauto |].
  inversion Hes as [| ? ? He Hes']; subst. cbn [run].
  assert (exists m1, step e m = Ok m1 /\ plain m1) as (m1 & -> & Hp1).
  { destruct e as [beat randVal | u]; cbn [step].
    - destruct (draw_plain beat randVal m Hp) as [-> H1]. cbn. eauto.
    - apply setOption_plain; assumption. }
  cbn [bind]. apply IH; assumption.
Qed.

Lemma init_plain o : smoothTransition o = false -> exists m, init o = Ok m /\ plain m.
Proof.
  intros Hs. unfold init, updateMap. eexists.
  apply setQuadrantMap_plain; [exact Hs |].
  split; [reflexivity | repeat constructor].
Qed.

Lemma getQuadrant_cases pos :
  getQuadrant pos = 0%Z \/ getQuadrant pos = 1%Z \/ getQuadrant pos = 2%Z \/ getQuadrant pos = 3%Z.
Proof.
  unfold getQuadrant. destruct (decide _), (decide _); auto.
Qed.

Lemma rendered_indexed mp src pos :
  quadrants mp ->
  rendered (false, indexed mp) src pos
  = src (mirrorPos pos (getQuadrant pos) (mp !!! Z.to_nat (getQuadrant pos))).
Proof.
  intros Hq. unfold rendered, main, MirrorProgram.draw, getMirrorColor.
  cbn [fst snd u_mode u_mix0 u_mix1 u_mix2 u_mix3 Z.eqb].
  destruct (getQuadrant_cases pos) as [-> | [-> | [-> | ->]]];
    cbn [Z.eqb Z.to_nat Pos.to_nat Pos.iter_op Nat.add Pos.eqb];
    unfold indexed; rewrite row_tabulate4 by lia;
    cbn [lookup_total list_lookup_total];
    rewrite glsl_int_quadrant by (apply quadrants_lookup; [assumption | lia]);
    reflexivity.
Qed.

(** X5.  With [smoothTransition] off, in every state reached from [init] by
    frames and by updates that leave it off, a frame is rendered in the
    index mode with the map in force after the beat's random redraw, if
    there is one: the pixel at [pos], in quadrant [q], gets the source
    colour at the reflection of [pos] into quadrant [map[q]].  Off the
    centre lines that point lies in quadrant [map[q]] and shows its own
    source colour, so the picture is the same at [pos] and at its
    reflection. *)
Theorem plain_frame_copies_mirrored_quadrants
    (o : MirrorOpts) (es : list event) (beat : bool) (randVal : Z) :
  smoothTransition o = false -> Forall stays_plain es ->
  exists m0 m m' u,
    init o = Ok m0 /\ run es m0 = Ok m /\ Mirror.draw beat randVal m = Ok (m', u) /\
    map m' = (if onBeatRandom (opts m) && beat
              then quadrant_map (mirrorDirs true randVal (opts m)) else map m) /\
    forall src pos,
      let q := getQuadrant pos in
      let p := mirrorPos pos q (map m' !!! Z.to_nat q) in
      rendered u src pos = src p /\
      (off_centre pos ->
       getQuadrant p = map m' !!! Z.to_nat q /\ rendered u src p = rendered u src pos).
Proof.
  intros Hs Hes.
  destruct (init_plain o Hs) as (m0 & E0 & Hp0).
  destruct (run_plain es m0 Hp0 Hes) as (m & E & Hp).
  destruct (draw_plain beat randVal m Hp) as [Ed Hp'].
  eexists m0, m, _, _. split; [exact E0 |]. split; [exact E |]. split; [exact Ed |].
  split; [destruct (onBeatRandom (opts m) && beat); reflexivity |].
  set (m' := if onBeatRandom (opts m) && beat then _ else m) in *.
  destruct Hp' as (_ & [ds Hds] & _).
  assert (Hq : quadrants (map m')) by (rewrite Hds; apply quadrant_map_quadrants).
  intros src pos q p. rewrite rendered_indexed by assumption. fold q. fold p.
  split; [reflexivity |]. intros Hoff.
  assert (Hlt : Z.to_nat q < 4).
  { subst q. destruct (getQuadrant_cases pos) as [-> | [-> | [-> | ->]]]; cbn; lia. }
  assert (Hland : getQuadrant p = map m' !!! Z.to_nat q).
  { subst p q. apply mirrorPos_lands; [| exact Hoff].
    apply quadrants_lookup; assumption. }
  split; [exact Hland |].
  rewrite rendered_indexed by assumption. rewrite Hland.
  rewrite Hds, quadrant_map_idempotent by assumption. rewrite <- Hds.
  rewrite mirrorPos_same. reflexivity.
Qed.

Lemma plain_frame_witness :
  exists m0 m m' u,
    init defaultOptions = Ok m0 /\ run [] m0 = Ok m /\ Mirror.draw false 0 m = Ok (m', u) /\
    map m' = (if onBeatRandom (opts m) && false
              then quadrant_map (mirrorDirs true 0 (opts m)) else map m) /\
    forall src pos,
      let q := getQuadrant pos in
      let p := mirrorPos pos q (map m' !!! Z.to_nat q) in
      rendered u src pos = src p /\
      (off_centre pos ->
       getQuadrant p = map m' !!! Z.to_nat q /\ rendered u src p = rendered u src pos).
Proof.
  apply (plain_frame_copies_mirrored_quadrants defaultOptions [] false 0);
    [reflexivity | constructor].
Defined.

End MirrorStatesProofs.

Module MirrorTransitionProofs.
Import Mirror MirrorProgram MirrorStates MirrorProofs MirrorProgramProofs.

(** *** A redraw at the start of a frame *)

Lemma draw_after_redraw beat randVal m :
  Mirror.draw beat randVal m
  = (m1 <-- (if onBeatRandom (opts m) && beat
             then _setQuadrantMap true randVal m else Ok m) ;;
     Mirror.draw false randVal m1).
Proof.
  unfold Mirror.draw.
  destruct (if onBeatRandom (opts m) && beat then _ else _) as [m1 |]; [| reflexivity].
  cbn [bind]. rewrite andb_false_r. reflexivity.
Qed.

(** *** A redraw of the map during a transition *)



End MirrorTransitionProofs.

Module MirrorDurationProofs.
Import Mirror MirrorProgram MirrorStates MirrorProofs MirrorProgramProofs
  MirrorStatesProofs MirrorTransitionProofs.

(** *** Durations that are not a positive whole number *)

Lemma init_smooth o :
  smoothTransition o = true ->
  init o = Ok (mk o (transitionDuration o) (quadrant_map (dirs o)) (onehot unmirrored)
                 (tabulate4 (fun i j =>
                    (endValue (quadrant_map (dirs o)) i j - get2 (onehot unmirrored) i j)
                    / transitionDuration o)%Qc)).
Proof.
  intros Hs. unfold init, updateMap, _setQuadrantMap, _setMix.
  cbn [opts with_map map mix mixDelta animFrameCount mirrorDirs].
  rewrite Hs. cbn [andb negb].
  rewrite (proj2 (Qc_eq_bool_true 0 0) eq_refl).
  change (for_range 0 4 to_onehot_row _) with (for_range 0 4 to_onehot_row (indexed unmirrored)).
  rewrite to_onehot_indexed by (split; [reflexivity | repeat constructor; lia]).
  cbn [bind]. rewrite compute_deltas_eq by (split; [reflexivity | repeat constructor]).
  reflexivity.
Qed.

Lemma adrift_running o k m :
  (forall n : nat, transitionDuration o <> Qc_int (Z.of_nat n)) ->
  adrift o k m -> animFrameCount m <> 0%Qc.
Proof.
  intros Hd (_ & _ & _ & Ha) H0. rewrite Ha in H0. apply (Hd k).
  replace (transitionDuration o)
    with (transitionDuration o - Qc_int (Z.of_nat k) + Qc_int (Z.of_nat k))%Qc by ring.
  rewrite H0. ring.
Qed.

Lemma draw_adrift o k beat randVal m :
  smoothTransition o = true ->
  (forall n : nat, transitionDuration o <> Qc_int (Z.of_nat n)) ->
  adrift o k m ->
  exists m' u k', Mirror.draw beat randVal m = Ok (m', u) /\ adrift o k' m' /\ k' <= S k.
Proof.
  intros Hs Hd Hm. rewrite draw_after_redraw.
  assert (exists m1 k1, (if onBeatRandom (opts m) && beat
                         then _setQuadrantMap true randVal m else Ok m) = Ok m1 /\
                        adrift o k1 m1 /\ k1 <= k)
    as (m1 & k1 & -> & Hm1 & Hk1).
  { destruct (onBeatRandom (opts m) && beat); [| eauto].
    pose proof (adrift_running o k m Hd Hm) as Hnz.
    destruct Hm as (Ho & Hmx & Hmd & Ha).
    unfold _setQuadrantMap, _setMix. cbn [opts with_map map mix mixDelta animFrameCount].
    rewrite Ho, Hs. cbn [andb negb].
    apply Qc_eq_bool_false in Hnz. rewrite Hnz. cbn [bind].
    eexists _, 0. split; [reflexivity |]. split; [| lia].
    split; [reflexivity |]. split; [exact Hmx |].
    split; [cbn [mixDelta]; rewrite compute_deltas_eq by assumption; apply shape_tabulate4 |].
    cbn [animFrameCount]. change (Qc_int (Z.of_nat 0)) with 0%Qc. ring. }
  cbn [bind].
  pose proof (adrift_running o k1 m1 Hd Hm1) as Hnz.
  destruct Hm1 as (Ho & Hmx & Hmd & Ha).
  rewrite draw_quiet; try assumption; [| apply andb_false_r | rewrite Ho; exact Hs].
  assert (Ha' : (animFrameCount m1 - 1)%Qc
                = (transitionDuration o - Qc_int (Z.of_nat (S k1)))%Qc).
  { rewrite Ha, Qc_int_succ. ring. }
  assert (Hnz' : (animFrameCount m1 - 1)%Qc <> 0%Qc).
  { rewrite Ha'. intros H0. apply (Hd (S k1)).
    replace (transitionDuration o)
      with (transitionDuration o - Qc_int (Z.of_nat (S k1)) + Qc_int (Z.of_nat (S k1)))%Qc
      by ring.
    rewrite H0. ring. }
  apply Qc_eq_bool_false in Hnz'. rewrite Hnz'. cbv zeta.
  eexists _, _, (S k1). split; [reflexivity |]. split; [| lia].
  split; [exact Ho |]. split; [apply shape_tabulate4 |]. split; [exact Hmd | exact Ha'].
Qed.

Lemma draws_adrift o frames : forall k m,
  smoothTransition o = true ->
  (forall n : nat, transitionDuration o <> Qc_int (Z.of_nat n)) ->
  adrift o k m ->
  exists m' k', draws frames m = Ok m' /\ adrift o k' m' /\ k' <= k + length frames.
Proof.
  induction frames as [| [beat r] fs IH]; intros k m Hs Hd Hm.
  - exists m, k. cbn. split; [reflexivity |]. split; [exact Hm | lia].
  - cbn [draws length].
    destruct (draw_adrift o k beat r m Hs Hd Hm) as (m1 & u & k1 & -> & Hm1 & Hk1).
    cbn [bind fst].
    destruct (IH k1 m1 Hs Hd Hm1) as (m' & k' & E & Hm' & Hk').
    exists m', k'. split; [exact E |]. split; [exact Hm' | lia].
Qed.

(** X8.  With [smoothTransition] on and a duration that is not a whole number
    of frames (a fraction, or a negative number), the frame count never
    reaches 0: after [init] and any number of frames, with or without
    beat, a transition is still in progress. *)
Theorem transition_never_ends_for_fractional_duration
    (o : MirrorOpts) (frames : list (bool * Z)) :
  smoothTransition o = true ->
  (forall n : nat, transitionDuration o <> Qc_int (Z.of_nat n)) ->
  exists m0 m,
    init o = Ok m0 /\ draws frames m0 = Ok m /\
    _inTransition m = true /\ animFrameCount m <> 0%Qc.
Proof.
  intros Hs Hd.
  assert (exists m0, init o = Ok m0 /\ adrift o 0 m0) as (m0 & E0 & H0).
  { eexists. split; [apply init_smooth; exact Hs |].
    split; [reflexivity |]. split; [apply shape_tabulate4 |]. split; [apply shape_tabulate4 |].
    cbn [animFrameCount]. change (Qc_int (Z.of_nat 0)) with 0%Qc. ring. }
  destruct (draws_adrift o frames 0 m0 Hs Hd H0) as (m & k & E & Hm & Hk).
  exists m0, m. split; [exact E0 |]. split; [exact E |].
  pose proof (adrift_running o k m Hd Hm) as Hnz.
  destruct Hm as (Ho & _ & _ & Ha).
  split; [| exact Hnz].
  unfold _inTransition. rewrite Ho, Hs. apply Qc_eq_bool_false in Hnz. rewrite Hnz.
  reflexivity.
Qed.

Lemma fractional_duration_witness :
  let o := mkOpts (mkDirs true false false false) false true (Q2Qc (5 # 2)) in
  exists m0 m,
    init o = Ok m0 /\ draws [(false, 0%Z); (false, 0%Z); (false, 0%Z)] m0 = Ok m /\
    _inTransition m = true /\ animFrameCount m <> 0%Qc.
Proof.
  apply (transition_never_ends_for_fractional_duration
           (mkOpts (mkDirs true false false false) false true (Q2Qc (5 # 2)))
           [(false, 0%Z); (false, 0%Z); (false, 0%Z)]).
  - reflexivity.
  - intros n H. cbn [transitionDuration] in H. unfold Qc_int in H.
    apply Q2Qc_eq_iff in H. unfold Qeq in H. cbn in H. lia.
Defined.

(** *** A duration of 0 *)

Lemma draws_at_rest frames : forall m,
  animFrameCount m = 0%Qc -> Forall (quiet (opts m)) frames -> draws frames m = Ok m.
Proof.
  induction frames as [| [beat r] fs IH]; intros m Ha Hq; [reflexivity |].
  inversion Hq as [| ? ? Hq1 Hq2]; subst. cbn [draws].
  unfold quiet in Hq1. cbn [fst] in Hq1.
  unfold Mirror.draw. rewrite Hq1. cbn [bind].
  unfold _inTransition. rewrite Ha, (proj2 (Qc_eq_bool_true 0 0) eq_refl), andb_false_r.
  cbn [bind fst]. apply IH; assumption.
Qed.

(** X9.  With [smoothTransition] on and a duration of 0, [init] turns the mix
    vectors into one-hot weights and leaves the frame count at 0, so the
    frames are rendered in the index mode from weights: whatever the
    directions are, quadrant 0 shows the reflection of quadrant 1 and
    every other quadrant the reflection of quadrant 0, on every frame on
    which no beat redraws the map. *)
Theorem zero_duration_ignores_the_directions
    (ds : MirrorDirs) (onBeat : bool) (frames : list (bool * Z)) :
  Forall (quiet (mkOpts ds onBeat true 0%Qc)) frames ->
  exists m,
    init (mkOpts ds onBeat true 0%Qc) = Ok m /\ draws frames m = Ok m /\
    map m = quadrant_map ds /\
    uniforms m = (false, onehot unmirrored) /\
    forall src pos,
      rendered (uniforms m) src pos
      = src (mirrorPos pos (getQuadrant pos) (if (getQuadrant pos =? 0)%Z then 1 else 0)%Z).
Proof.
  intros Hq. eexists. split; [apply init_smooth; reflexivity |].
  split; [apply draws_at_rest; [reflexivity | exact Hq] |].
  split; [reflexivity |]. split; [reflexivity |].
  intros src pos. unfold rendered, uniforms, _inTransition, main, MirrorProgram.draw.
  cbn [fst snd opts smoothTransition animFrameCount transitionDuration mix
       u_mode u_mix0 u_mix1 u_mix2 u_mix3].
  rewrite (proj2 (Qc_eq_bool_true 0 0) eq_refl). cbn [andb negb Z.eqb].
  destruct (getQuadrant_cases pos) as [-> | [-> | [-> | ->]]]; reflexivity.
Qed.

Lemma zero_duration_witness :
  exists m,
    init (mkOpts (mkDirs false true false false) false true 0%Qc) = Ok m /\
    draws [(true, 3%Z)] m = Ok m /\
    map m = quadrant_map (mkDirs false true false false) /\
    uniforms m = (false, onehot unmirrored) /\
    forall src pos,
      rendered (uniforms m) src pos
      = src (mirrorPos pos (getQuadrant pos) (if (getQuadrant pos =? 0)%Z then 1 else 0)%Z).
Proof.
  apply (zero_duration_ignores_the_directions (mkDirs false true false false) false
           [(true, 3%Z)]).
  repeat constructor.
Defined.

(** *** The first frame of a smooth Mirror *)

Lemma dot4_unit (c : nat -> Qc) (k : nat) :
  k < 4 -> dot4 c (onehot unmirrored !!! k) = c k.
Proof.
  intros Hk.
  change (onehot unmirrored)
    with [[1; 0; 0; 0]; [0; 1; 0; 0]; [0; 0; 1; 0]; [0; 0; 0; 1]]%Qc.
  destruct k as [|[|[|[|]]]]; try lia;
    unfold dot4; cbn [lookup_total list_lookup_total]; ring.
Qed.

(** X10.  With [smoothTransition] on and a duration other than 0, [init] starts
    a transition from the identity map: the first frame is rendered in
    the mixing mode with each quadrant's own weight at 1, so every pixel
    shows the red, green and blue of the source at the position that
    [mirrorPos] gives between the pixel's quadrant and itself, where it
    flips nothing, with alpha 1. *)
Theorem smooth_mirror_starts_unmirrored (o : MirrorOpts) :
  smoothTransition o = true -> transitionDuration o <> 0%Qc ->
  exists m,
    init o = Ok m /\ map m = quadrant_map (dirs o) /\
    uniforms m = (true, onehot unmirrored) /\
    forall src pos,
      let own := src (mirrorPos pos (getQuadrant pos) (getQuadrant pos)) in
      rendered (uniforms m) src pos = rgba (red own) (green own) (blue own) 1%Qc.
Proof.
  intros Hs Hd. eexists. split; [apply init_smooth; exact Hs |].
  split; [reflexivity |].
  assert (Hu : uniforms (mk o (transitionDuration o) (quadrant_map (dirs o)) (onehot unmirrored)
                 (tabulate4 (fun i j =>
                    (endValue (quadrant_map (dirs o)) i j - get2 (onehot unmirrored) i j)
                    / transitionDuration o)%Qc)) = (true, onehot unmirrored)).
  { unfold uniforms, _inTransition. cbn [opts animFrameCount mix]. rewrite Hs.
    apply Qc_eq_bool_false in Hd. rewrite Hd. reflexivity. }
  split; [exact Hu |]. rewrite Hu.
  intros src pos. cbv zeta. unfold rendered, main, MirrorProgram.draw, getMirrorColor.
  cbn [fst snd u_mode u_mix0 u_mix1 u_mix2 u_mix3 Z.eqb].
  destruct (getQuadrant_cases pos) as [E | [E | [E | E]]]; rewrite E; cbn [Z.eqb Pos.eqb].
  - rewrite !(dot4_unit _ 0) by lia. reflexivity.
  - rewrite !(dot4_unit _ 1) by lia. reflexivity.
  - rewrite !(dot4_unit _ 2) by lia. reflexivity.
  - rewrite !(dot4_unit _ 3) by lia. reflexivity.
Qed.

Lemma smooth_mirror_starts_witness :
  exists m,
    init (mkOpts (mkDirs true false false false) false true (Qc_int 4)) = Ok m /\
    map m = quadrant_map (mkDirs true false false false) /\
    uniforms m = (true, onehot unmirrored) /\
    forall src pos,
      let own := src (mirrorPos pos (getQuadrant pos) (getQuadrant pos)) in
      rendered (uniforms m) src pos = rgba (red own) (green own) (blue own) 1%Qc.
Proof.
  apply (smooth_mirror_starts_unmirrored
           (mkOpts (mkDirs true false false false) false true (Qc_int 4))).
  - reflexivity.
  - intros H. discriminate H.
Defined.

End MirrorDurationProofs.

Module MainStatesProofs.
Import Main MainStates MainProofs.

(** *** [start] and [stop] *)

(** X11.  A second [start()] in a row does nothing, and a second [stop()] in a
    row does nothing: the state after two calls is the state after one,
    in every state of the object and for any callbacks; this holds even
    when the first call throws because the object was destroyed, and the
    second call then returns silently. *)
Theorem start_and_stop_are_idempotent (w : World) :
  snd (start (snd (start w))) = snd (start w) /\
  fst (start (snd (start w))) = Returned VUndefined /\
  snd (stop (snd (stop w))) = snd (stop w) /\
  fst (stop (snd (stop w))) = Returned VUndefined.
Proof.
  open_world w; unfold start, stop; unfold_methods; unfold_M; cbn;
    destruct started; cbn; try destruct rd; cbn; try destruct req; cbn;
    repeat split; reflexivity.
Qed.

(** *** What [loadPreset] and [resetCanvas] leave alone *)

Lemma schedule_same w0 w : same_schedule w0 w -> schedule w = schedule w0.
Proof.
  intros (Hst & Hrd & Hraf & Hcaf & Hid & Hstats & Hl & Hc & Hrm & Hroot & Hwf & Hcf).
  unfold schedule. rewrite Hst, Hraf, Hcaf, Hid, Hwf, Hcf. reflexivity.
Qed.

(** X12.  Neither [loadPreset] nor [resetCanvas] (nor the context-restored
    handler, which calls it) stops or restarts the animation: whether
    they return or throw, the started flag, the callbacks, the last
    request id and the pending frame requests are as before. *)
Theorem loading_a_preset_leaves_the_animation_alone (w : World) (p : gmap string Json) :
  schedule (snd (loadPreset p w)) = schedule w /\
  schedule (snd (resetCanvas w)) = schedule w /\
  schedule (snd (contextRestoredHander w)) = schedule w.
Proof.
  split; [| split].
  - apply schedule_same.
    apply (passive_same_schedule w (LoadPreset p) I w), same_schedule_refl.
  - apply schedule_same.
    apply (passive_same_schedule w ResetCanvas I w), same_schedule_refl.
  - pose proof (passive_same_schedule w ResetCanvas I w (same_schedule_refl w)) as H.
    apply schedule_same in H. cbn [perform] in H.
    unfold contextRestoredHander, bindM.
    destruct (resetCanvas w) as [[v | e] w1]; exact H.
Qed.

(** *** [meta] *)

Lemma perform_keeps_meta m c :
  keeps_meta c -> preserves (fun w => meta (obj w) = m) (perform c).
Proof.
  intros Hc. destruct c; cbn in Hc; try contradiction; cbn [perform];
    try (unfold setAttribute; destruct (decide (key = "meta")); [contradiction |]);
    preserve.
Qed.

(** X13.  [get("meta")] returns what [setAttribute("meta", v)] stored; any
    other key is refused by [setAttribute] and [undefined] for [get];
    after a [loadPreset] that returns, [get("meta")] is the preset's
    [meta], [undefined] when the preset has none; and no other call,
    signal, context event or frame changes [meta]. *)
Theorem meta_is_set_by_setAttribute_and_loadPreset :
  (forall v w,
      fst (setAttribute "meta" v w) = Returned (VBool true) /\
      fst (get "meta" (snd (setAttribute "meta" v w))) = Returned (VJson v)) /\
  (forall k v w, k <> "meta" ->
      setAttribute k v w = (Returned (VBool false), w) /\
      get k w = (Returned VUndefined, w)) /\
  (forall p w, fst (loadPreset p w) = Returned VUndefined ->
      fst (get "meta" (snd (loadPreset p w)))
      = Returned (VJson (default JUndefined (p !! "meta")))) /\
  (forall c w, keeps_meta c -> meta (obj (snd (perform c w))) = meta (obj w)).
Proof.
  split; [| split; [| split]].
  - intros v w. split; reflexivity.
  - intros k v w Hk. unfold setAttribute, get.
    destruct (decide (k = "meta")); [contradiction |]. split; reflexivity.
  - intros p w H.
    destruct (loadPreset p w) as [r w'] eqn:E. cbn [fst snd] in *. subst r.
    assert (meta (obj w') = default JUndefined (p !! "meta")) as Hm.
    { unfold loadPreset in E. cbv zeta in E. repeat peel E.
      injection E as <-.
      match goal with E : _setupRoot _ _ = _ |- _ =>
        rewrite setupRoot_eq in E; injection E as _ <- end.
      match goal with E : update (set_meta _) _ = _ |- _ =>
        unfold update in E; injection E as _ <- end.
      cbn [obj meta set_rootComponent set_bootTime set_registerBank set_meta].
      rewrite lookup_insert_ne by discriminate. reflexivity. }
    unfold get. destruct (decide ("meta" = "meta")) as [_ | n]; [| elim n; reflexivity].
    unfold bindM, read, ret. cbn [fst]. rewrite Hm. reflexivity.
  - intros c w Hc. apply (perform_keeps_meta (meta (obj w)) c Hc w). reflexivity.
Qed.

End MainStatesProofs.

Module MainEdgeProofs.
Import Main MainStates MainProofs.

(** *** [loadPreset] on a malformed preset *)

(** X14.  When the preset's [resources] is neither an object nor an array,
    ["uris" in preset.resources] throws a TypeError.  By then the old
    root component has been destroyed and the resources of the old preset
    have been cleared from the resource manager; nothing else has
    changed: the destroyed component is still the root, and [meta], the
    register bank and [presetResourceKeys] are those of the old preset. *)
Theorem loadPreset_rejects_primitive_resources
    (p : gmap string Json) (r : Json) (w : World) (c : Component) (rm : ResourceManager) :
  p !! "resources" = Some r -> primitive r ->
  rootComponent (obj w) = Some c -> rsrcMan (obj w) = Some rm ->
  let w' := snd (loadPreset p w) in
  fst (loadPreset p w) = Threw TypeError /\
  obj w' = set_rsrcMan (Some (ResourceManager_clear (presetResourceKeys (obj w)) rm)) (obj w) /\
  rootComponent (obj w') = Some c /\
  log (host w') = log (host w) ++ [ComponentDestroy].
Proof.
  intros Hp Hr Hroot Hrm. cbv zeta. unfold loadPreset. cbv zeta.
  rewrite lookup_insert_ne by discriminate. rewrite Hp.
  open_world w; cbn in Hroot, Hrm; [| discriminate]. subst root. injection Hrm as <-.
  unfold call_rsrcMan. unfold_methods. unfold_M. cbn.
  destruct r; try destruct Hr; cbn; repeat split; reflexivity.
Qed.

Lemma loadPreset_rejects_witness :
  let w := snd (constructor_001 plain_options fresh_host) in
  let p : gmap string Json := {[ "resources" := JNull ]} in
  fst (loadPreset p w) = Threw TypeError /\
  obj (snd (loadPreset p w))
  = set_rsrcMan (Some (ResourceManager_clear (presetResourceKeys (obj w))
                         (ResourceManager_new ""))) (obj w) /\
  rootComponent (obj (snd (loadPreset p w)))
  = Some (mkComponent (JObj {[ "id" := JStr "root" ]}) 1 ∅) /\
  log (host (snd (loadPreset p w))) = log (host w) ++ [ComponentDestroy].
Proof.
  apply (loadPreset_rejects_primitive_resources
           {[ "resources" := JNull ]} JNull
           (snd (constructor_001 plain_options fresh_host))
           (mkComponent (JObj {[ "id" := JStr "root" ]}) 1 ∅)
           (ResourceManager_new "")).
  - vm_compute. reflexivity.
  - exact I.
  - vm_compute. reflexivity.
  - vm_compute. reflexivity.
Defined.

(** *** [resetCanvas] without a WebGL context *)

(** X15.  When the canvas gives no WebGL context, [resetCanvas] throws the
    error of [_initGl], whose message is the fixed text followed by the
    text of the exception caught there, after it has destroyed the root
    component and the temporary buffers; the object itself is unchanged
    and still refers to the destroyed root.  Once the canvas gives a context again, a second
    [resetCanvas] returns and rebuilds the root from the same
    configuration on a new rendering context. *)
Theorem resetCanvas_without_context_can_be_retried (w : World) (c : Component) :
  rootComponent (obj w) = Some c -> webgl (host w) = false ->
  let w1 := snd (resetCanvas w) in
  let w2 := snd (resetCanvas (mkWorld (obj w1) (set_webgl true (host w1)))) in
  fst (resetCanvas w)
  = Threw (Error ("Couldnt get webgl context" ++ gl_failure (host w))) /\
  obj w1 = obj w /\
  log (host w1) = log (host w) ++ [ComponentDestroy; TempBuffersDestroy] /\
  fst (resetCanvas (mkWorld (obj w1) (set_webgl true (host w1)))) = Returned VUndefined /\
  rootComponent (obj w2) = Some (mkComponent (Component_toJSON c) (S (contexts (host w))) ∅) /\
  rctx (obj w2) = S (contexts (host w)).
Proof.
  intros Hroot Hgl.
  destruct w as [[started raf caf st mt rmo root bank boot req bufs keys ctx lis hand]
                 [[wp wn] [cp cn] clk gl ctxs lg glf]].
  cbn in Hroot, Hgl. subst root gl.
  unfold resetCanvas. unfold_methods. unfold_M. cbn.
  rewrite <- !app_assoc. repeat split; reflexivity.
Qed.

Lemma resetCanvas_retry_witness :
  let w := mkWorld (obj (snd (constructor_001 plain_options fresh_host)))
                   (failing "TypeError: gl is null"
                            (host (snd (constructor_001 plain_options fresh_host)))) in
  let w1 := snd (resetCanvas w) in
  let w2 := snd (resetCanvas (mkWorld (obj w1) (set_webgl true (host w1)))) in
  fst (resetCanvas w) = Threw (Error "Couldnt get webgl contextTypeError: gl is null") /\
  obj w1 = obj w /\
  log (host w1) = log (host w) ++ [ComponentDestroy; TempBuffersDestroy] /\
  fst (resetCanvas (mkWorld (obj w1) (set_webgl true (host w1)))) = Returned VUndefined /\
  rootComponent (obj w2)
  = Some (mkComponent (Component_toJSON (mkComponent (JObj {[ "id" := JStr "root" ]}) 1 ∅))
                      (S (contexts (host w))) ∅) /\
  rctx (obj w2) = S (contexts (host w)).
Proof.
  apply (resetCanvas_without_context_can_be_retried
           (mkWorld (obj (snd (constructor_001 plain_options fresh_host)))
                    (failing "TypeError: gl is null"
                             (host (snd (constructor_001 plain_options fresh_host)))))
           (mkComponent (JObj {[ "id" := JStr "root" ]}) 1 ∅)).
  - vm_compute. reflexivity.
  - reflexivity.
Defined.

(** *** The constructor *)

(** X16.  The constructor of either revision returns exactly when the
    canvas gives a WebGL context.  It then leaves an object that is not
    started, has requested no frame, holds an empty [meta], a new resource
    manager, an empty register bank and a root built from [{id: "root"}]
    on the new rendering context.  Without a context it throws the error
    of [_initGl], whose message is the fixed text followed by the text of
    the exception caught there, after the stats element, the resource
    listeners and the context handlers have been attached, and nothing
    removes them. *)
Theorem constructor_needs_a_webgl_context
    (select : IMainOpts -> source * source) (o : IMainOpts) (h : Host) :
  let r := construct select o (mkWorld blank h) in
  (webgl h = true ->
     fst r = Returned tt /\
     obj (snd r) = constructed select o h /\
     window_frames (host (snd r)) = window_frames h /\
     custom_frames (host (snd r)) = custom_frames h) /\
  (webgl h = false ->
     fst r = Threw (Error ("Couldnt get webgl context" ++ gl_failure h)) /\
     rootComponent (obj (snd r)) = None /\
     listening (obj (snd r)) = true /\
     contextHandlers (obj (snd r)) = true /\
     stats (obj (snd r)) = showStat o /\
     log (host (snd r)) = log h ++ (if showStat o then [StatsAttached] else [])).
Proof.
  destruct h as [[wp wn] [cp cn] clk gl ctxs lg glf]. destruct o as [st pf oraf ocaf].
  cbv zeta. split; intros Hgl; cbn in Hgl; subst gl;
    unfold construct, _initResourceManager, _registerContextEvents, constructed;
    unfold_methods; unfold_M; destruct st; cbn;
    rewrite ?app_nil_r; repeat split; reflexivity.
Qed.

End MainEdgeProofs.

Module MainScheduleProofs.
Import Main MainStates MainProofs.

(** *** Frames of the first revision *)







(** *** After [destroy] *)

Lemma destroy_destroys w rm :
  coherent w -> rsrcMan (obj w) = Some rm ->
  fst (destroy w) = Returned VUndefined /\ destroyed (snd (destroy w)) /\
  frames_pending (snd (destroy w)) = [].
Proof.
  intros H Hrm.
  pose proof (coherent_frames _ (destroy_coherent w H)) as F.
  assert (fst (destroy w) = Returned VUndefined /\ destroyed (snd (destroy w))) as [Hr Hd].
  { destruct H as (_ & _ & _ & _ & _ & H6).
    destruct (H6 (ex_intro _ rm Hrm)) as [c Hc]. clear F H6.
    open_world w; cbn in Hrm, Hc; [| discriminate]. subst root.
    unfold destroy, stop, destroyed. unfold_methods. unfold_M.
    destruct started, rd, st; cbn; try destruct req; cbn; repeat split; reflexivity. }
  split; [exact Hr |]. split; [exact Hd |].
  destruct Hd as (_ & _ & Hst & _). rewrite Hst in F. exact F.
Qed.

Lemma destroyed_rejects w :
  destroyed w ->
  (forall p, loadPreset p w = (Threw TypeError, w)) /\
  resetCanvas w = (Threw TypeError, w) /\
  toJSON w = (Threw TypeError, w) /\
  destroy w = (Threw TypeError, w) /\
  fst (start w) = Threw TypeError /\
  isStarted (obj (snd (start w))) = true /\
  stop w = (Returned VUndefined, w) /\
  signal_wait w = (Returned tt, w) /\
  signal_ready w = (Returned tt, w) /\
  obj (snd (context_lost w)) = obj w /\
  obj (snd (context_restored w)) = obj w.
Proof.
  intros (Hroot & Hrm & Hst & Hstats & Hl & Hh).
  destruct w as [[started raf caf st mt rmo root bank boot req bufs keys ctx lis hand]
                 [[wp wn] [cp cn] clk gl ctxs lg glf]].
  cbn in Hroot, Hrm, Hst, Hstats, Hl, Hh. subst.
  unfold loadPreset, resetCanvas, toJSON, destroy, start, stop, signal_wait, signal_ready,
    context_lost, context_restored, is_ready.
  unfold_methods. unfold_M. cbn. repeat split; reflexivity.
Qed.

(** X19.  On a Main of the first revision that has not been destroyed yet,
    [destroy()] returns and leaves no frame request pending, so no frame
    runs any more.  On the destroyed object [loadPreset], [resetCanvas],
    [toJSON] and a second [destroy] throw a TypeError and change nothing;
    [start()] throws a TypeError as well, but only after it has set the
    started flag; [stop()] returns; the resource signals and the context
    events no longer reach the object. *)
Theorem destroy_is_final (o : IMainOpts) (h : Host) (cs : list call) :
  idle h -> webgl h = true ->
  let w := state_after cs (snd (constructor_001 o h)) in
  is_Some (rsrcMan (obj w)) ->
  let w' := snd (destroy w) in
  fst (destroy w) = Returned VUndefined /\
  frames_pending w' = [] /\
  (forall s id eel, tick s id eel w' = (Returned tt, w')) /\
  (forall p, loadPreset p w' = (Threw TypeError, w')) /\
  resetCanvas w' = (Threw TypeError, w') /\
  toJSON w' = (Threw TypeError, w') /\
  destroy w' = (Threw TypeError, w') /\
  fst (start w') = Threw TypeError /\
  isStarted (obj (snd (start w'))) = true /\
  stop w' = (Returned VUndefined, w') /\
  signal_wait w' = (Returned tt, w') /\
  signal_ready w' = (Returned tt, w') /\
  obj (snd (context_lost w')) = obj w' /\
  obj (snd (context_restored w')) = obj w'.
Proof.
  intros Hi Hgl w [rm Hrm] w'.
  destruct (constructor_001_coherent o h Hi Hgl) as [_ H0].
  pose proof (run_coherent cs _ H0) as H. fold w in H.
  destruct (destroy_destroys w rm H Hrm) as (Hr & Hd & Hf). fold w' in Hd, Hf.
  split; [exact Hr |]. split; [exact Hf |].
  split; [intros s id eel; apply no_frames_no_tick; exact Hf |].
  apply destroyed_rejects. exact Hd.
Qed.

Lemma destroy_is_final_witness :
  let w := state_after [Start] (snd (constructor_001 plain_options fresh_host)) in
  let w' := snd (destroy w) in
  fst (destroy w) = Returned VUndefined /\
  frames_pending w' = [] /\
  (forall s id eel, tick s id eel w' = (Returned tt, w')) /\
  (forall p, loadPreset p w' = (Threw TypeError, w')) /\
  resetCanvas w' = (Threw TypeError, w') /\
  toJSON w' = (Threw TypeError, w') /\
  destroy w' = (Threw TypeError, w') /\
  fst (start w') = Threw TypeError /\
  isStarted (obj (snd (start w'))) = true /\
  stop w' = (Returned VUndefined, w') /\
  signal_wait w' = (Returned tt, w') /\
  signal_ready w' = (Returned tt, w') /\
  obj (snd (context_lost w')) = obj w' /\
  obj (snd (context_restored w')) = obj w'.
Proof.
  apply (destroy_is_final plain_options fresh_host [Start]).
  - split; reflexivity.
  - reflexivity.
  - eexists. vm_compute. reflexivity.
Defined.

End MainScheduleProofs.

Module MainRevisionProofs.
Import Main MainStates MainProofs.

(** *** The second revision with one custom callback *)






End MainRevisionProofs.

Module MirrorBoundsProofs.
Import Mirror MirrorProgram MirrorStates MirrorProofs MirrorProgramProofs.

(** *** The computed index of [_setMix] *)

Lemma js_index_is_quadrant q k : js_index q = Some k -> k < 4 -> is_quadrant q.
Proof.
  unfold js_index. intros H Hk.
  destruct (Pos.eqb_spec (Qden q) 1) as [Hd |]; [| discriminate].
  destruct (Z.leb_spec 0 (Qnum q)) as [Hn |]; [| discriminate].
  cbn in H. injection H as <-.
  exists (Qnum q). split; [lia |].
  apply Qc_is_canon. unfold Qc_int. cbn [this Q2Qc]. rewrite Qred_correct.
  destruct q as [[n d] Hc]. cbn in *. subst d. reflexivity.
Qed.

Lemma is_quadrant_js_index q :
  is_quadrant q <-> exists k, js_index q = Some k /\ k < 4.
Proof.
  split.
  - intros (z & Hz & ->). exists (Z.to_nat z).
    split; [apply js_index_quadrant; exact Hz | lia].
  - intros (k & Hk & Hlt). apply (js_index_is_quadrant q k); assumption.
Qed.

Lemma to_onehot_row_eq (f : nat -> nat -> Qc) i :
  i < 4 ->
  to_onehot_row i (tabulate4 f)
  = match js_index (f i 0) with
    | Some k =>
        if decide (k < 4)
        then Ok (tabulate4 (fun i' j =>
                   if Nat.eqb i' i
                   then (if Nat.eqb j k then 1%Qc else if Nat.eqb j 0 then 0%Qc else f i' j)
                   else f i' j))
        else NotVec4
    | None => NotVec4
    end.
Proof.
  intros Hi. unfold to_onehot_row, set_computed.
  destruct i as [|[|[|[|]]]]; try lia;
    unfold get2, set2; cbn [tabulate4 lookup_total list_lookup_total insert list_insert];
    (destruct (js_index _) as [k |]; [| reflexivity]);
    cbn [length]; destruct (decide (k < 4)); try reflexivity;
    destruct k as [|[|[|[|]]]]; try lia; reflexivity.
Qed.

(** X21.  With [smoothTransition] on and no transition in progress,
    [_setMix(false)] reads the first entry of each mix vector as an index
    and writes a 1 there.  The write stays inside the four entries of the
    vector exactly when that entry is one of 0, 1, 2, 3: if the first
    entry of some vector is anything else (a fraction, a negative number,
    4 or more), the assignment [mix[i][quad] = 1] goes outside the
    vector. *)
Theorem setMix_stays_in_the_row_iff_indices (m : t) :
  smoothTransition (opts m) = true -> animFrameCount m = 0%Qc -> shape (mix m) ->
  (_setMix false m = NotVec4 <-> exists i, i < 4 /\ ~ is_quadrant (get2 (mix m) i 0)).
Proof.
  intros Hs Ha Hmx. unfold _setMix. rewrite Hs, Ha. cbn [andb negb].
  rewrite (proj2 (Qc_eq_bool_true 0 0) eq_refl).
  rewrite (shape_tabulate _ Hmx). set (f := get2 (mix m)).
  assert (Hq : forall i, i < 4 -> is_quadrant (get2 (tabulate4 f) i 0) <->
                         exists k, js_index (f i 0) = Some k /\ k < 4).
  { intros i Hi. rewrite get2_tabulate4 by lia. apply is_quadrant_js_index. }
  cbn [for_range]. rewrite !to_onehot_row_eq by lia.
  destruct (js_index (f 0 0)) as [k0 |] eqn:E0.
  2: { cbn [bind]. split; [intros _ | reflexivity].
       exists 0. split; [lia |]. rewrite (Hq 0) by lia. rewrite E0. intros (k & H & _).
       discriminate. }
  destruct (decide (k0 < 4)) as [L0 | L0].
  2: { cbn [bind]. split; [intros _ | reflexivity].
       exists 0. split; [lia |]. rewrite (Hq 0) by lia. rewrite E0. intros (k & H & Hk).
       injection H as <-. contradiction. }
  cbn [bind]. rewrite to_onehot_row_eq by lia. cbn [Nat.eqb].
  destruct (js_index (f 1 0)) as [k1 |] eqn:E1.
  2: { cbn [bind]. split; [intros _ | reflexivity].
       exists 1. split; [lia |]. rewrite (Hq 1) by lia. rewrite E1. intros (k & H & _).
       discriminate. }
  destruct (decide (k1 < 4)) as [L1 | L1].
  2: { cbn [bind]. split; [intros _ | reflexivity].
       exists 1. split; [lia |]. rewrite (Hq 1) by lia. rewrite E1. intros (k & H & Hk).
       injection H as <-. contradiction. }
  cbn [bind]. rewrite to_onehot_row_eq by lia. cbn [Nat.eqb].
  destruct (js_index (f 2 0)) as [k2 |] eqn:E2.
  2: { cbn [bind]. split; [intros _ | reflexivity].
       exists 2. split; [lia |]. rewrite (Hq 2) by lia. rewrite E2. intros (k & H & _).
       discriminate. }
  destruct (decide (k2 < 4)) as [L2 | L2].
  2: { cbn [bind]. split; [intros _ | reflexivity].
       exists 2. split; [lia |]. rewrite (Hq 2) by lia. rewrite E2. intros (k & H & Hk).
       injection H as <-. contradiction. }
  cbn [bind]. rewrite to_onehot_row_eq by lia. cbn [Nat.eqb].
  destruct (js_index (f 3 0)) as [k3 |] eqn:E3.
  2: { cbn [bind]. split; [intros _ | reflexivity].
       exists 3. split; [lia |]. rewrite (Hq 3) by lia. rewrite E3. intros (k & H & _).
       discriminate. }
  destruct (decide (k3 < 4)) as [L3 | L3].
  2: { cbn [bind]. split; [intros _ | reflexivity].
       exists 3. split; [lia |]. rewrite (Hq 3) by lia. rewrite E3. intros (k & H & Hk).
       injection H as <-. contradiction. }
  cbn [bind]. split; [discriminate |].
  intros (i & Hi & Hn). exfalso. apply Hn. rewrite (Hq i) by lia.
  destruct i as [|[|[|[|]]]]; try lia; eauto.
Qed.

Lemma setMix_row_witness :
  let m := mk (mkOpts (mkDirs true false false false) false true (Qc_int 4)) 0%Qc
              [0; 1; 0; 1]%Z
              (tabulate4 (fun i j => if Nat.eqb j 0 then Q2Qc (1 # 2) else 0%Qc))
              (tabulate4 (fun _ _ => 0%Qc)) in
  _setMix false m = NotVec4 <-> exists i, i < 4 /\ ~ is_quadrant (get2 (mix m) i 0).
Proof.
  apply (setMix_stays_in_the_row_iff_indices
           (mk (mkOpts (mkDirs true false false false) false true (Qc_int 4)) 0%Qc
               [0; 1; 0; 1]%Z
               (tabulate4 (fun i j => if Nat.eqb j 0 then Q2Qc (1 # 2) else 0%Qc))
               (tabulate4 (fun _ _ => 0%Qc)))).
  - reflexivity.
  - reflexivity.
  - split; [reflexivity | repeat constructor].
Defined.

End MirrorBoundsProofs.

Module MirrorFormatProofs.
Import Mirror MirrorProgram MirrorStates MirrorProofs MirrorProgramProofs
  MirrorStatesProofs MirrorTransitionProofs MirrorDurationProofs MirrorBoundsProofs.

(** *** The format of the mix vectors and the frame count *)

(** [_setMix] takes a frame count of 0 to mean that the mix vectors are
    in the index format, and the frame is rendered in the mixing mode
    whenever [smoothTransition] is on and the count is not 0.  Two option
    updates break the link between the count and the format. *)

Lemma run_app es1 es2 : forall m,
  run (es1 ++ es2) m = (m' <-- run es1 m ;; run es2 m').
Proof.
  induction es1 as [| e es IH]; intros m; [reflexivity |].
  cbn [run app]. destruct (step e m) as [m1 |]; [apply IH | reflexivity].
Qed.

Lemma play_app o es1 es2 m :
  play o es1 = Ok m -> play o (es1 ++ es2) = run es2 m.
Proof.
  unfold play. destruct (init o) as [m0 |]; cbn [bind]; [| discriminate].
  intros E. rewrite run_app, E. reflexivity.
Qed.

Lemma play_wf o es m : play o es = Ok m -> Forall nonzero_duration es -> wf m.
Proof.
  unfold play. intros E Hes. destruct (init_wf o) as (m0 & E0 & Hwf0 & _).
  rewrite E0 in E. cbn [bind] in E.
  destruct (run_wf es m0 Hwf0 Hes) as (m' & E' & Hwf). congruence.
Qed.

(** The conversion stops at the first row whose first entry is not an
    index of the row. *)
Lemma onehot_conversion_leaves_row mx i :
  shape mx -> i < 4 -> ~ is_quadrant (get2 mx i 0) ->
  for_range 0 4 to_onehot_row mx = NotVec4.
Proof.
  intros Hmx Hi Hn. rewrite (shape_tabulate _ Hmx) in Hn |- *. set (f := get2 mx) in *.
  rewrite get2_tabulate4 in Hn by lia.
  assert (Hq : forall k, js_index (f i 0) = Some k -> k < 4 -> False).
  { intros k E Hk. apply Hn. apply (js_index_is_quadrant _ k); assumption. }
  cbn [for_range]. rewrite !to_onehot_row_eq by lia.
  destruct (js_index (f 0 0)) as [k0 |] eqn:E0; [| reflexivity].
  destruct (decide (k0 < 4)) as [L0 | L0]; [| reflexivity].
  cbn [bind]. rewrite to_onehot_row_eq by lia. cbn [Nat.eqb].
  destruct (js_index (f 1 0)) as [k1 |] eqn:E1; [| reflexivity].
  destruct (decide (k1 < 4)) as [L1 | L1]; [| reflexivity].
  cbn [bind]. rewrite to_onehot_row_eq by lia. cbn [Nat.eqb].
  destruct (js_index (f 2 0)) as [k2 |] eqn:E2; [| reflexivity].
  destruct (decide (k2 < 4)) as [L2 | L2]; [| reflexivity].
  cbn [bind]. rewrite to_onehot_row_eq by lia. cbn [Nat.eqb].
  destruct (js_index (f 3 0)) as [k3 |] eqn:E3; [| reflexivity].
  destruct (decide (k3 < 4)) as [L3 | L3]; [| reflexivity].
  exfalso. destruct i as [|[|[|[|]]]]; try lia; eauto.
Qed.

(** C9.  The entries of the quadrant map are always in {0,1,2,3}, but the
    one-hot conversion indexes with [mix[i][0]], which holds a map entry
    only in the index format.  When [transitionDuration] is set to 0
    while a transition runs, the next direction update sets
    [animFrameCount] to 0 and leaves the weights in place.  From then on
    every recomputation of the map, by a direction update or by a beat
    with [onBeatRandom], converts the weights as if they were indices: if
    the first weight of some quadrant is not one of 0, 1, 2, 3, the write
    [mix[i][quad] = 1] leaves the 4-element vector. *)
Theorem zero_duration_leaves_the_weight_vector
    (o : MirrorOpts) (es : list event) (m : t) (i : nat)
    (d1 d2 : direction) (b1 b2 : bool) :
  play o es = Ok m -> Forall nonzero_duration es ->
  smoothTransition (opts m) = true -> animFrameCount m <> 0%Qc ->
  i < 4 -> ~ is_quadrant (get2 (mix m) i 0) ->
  exists m1,
    play o (es ++ [Update (SetTransitionDuration 0%Qc); Update (SetDirection d1 b1)]) = Ok m1 /\
    quadrants (map m1) /\ animFrameCount m1 = 0%Qc /\ mix m1 = mix m /\
    play o (es ++ [Update (SetTransitionDuration 0%Qc); Update (SetDirection d1 b1);
                   Update (SetDirection d2 b2)]) = NotVec4 /\
    (onBeatRandom (opts m) = true ->
     forall randVal,
       play o (es ++ [Update (SetTransitionDuration 0%Qc); Update (SetDirection d1 b1);
                      Frame true randVal]) = NotVec4).
Proof.
  intros E Hes Hs Hnz Hi Hn.
  destruct (play_wf o es m E Hes) as (_ & Hmx & Hmd & _).
  destruct m as [[ds ob st td] c mp mx md].
  cbn [opts smoothTransition animFrameCount mix mixDelta] in Hs, Hnz, Hn, Hmx, Hmd.
  subst st. cbn [opts mix mixDelta onBeatRandom].
  set (o1 := apply_update (SetDirection d1 b1)
               (apply_update (SetTransitionDuration 0%Qc) (mkOpts ds ob true td))).
  set (m1 := mk o1 0%Qc (quadrant_map (dirs o1)) mx
                (compute_deltas 0%Qc (quadrant_map (dirs o1)) mx md)).
  assert (E1 : run [Update (SetTransitionDuration 0%Qc); Update (SetDirection d1 b1)]
                   (mk (mkOpts ds ob true td) c mp mx md)
               = Ok m1).
  { cbn [run step setOption has_updateMap_handler bind].
    unfold updateMap, _setQuadrantMap, _setMix.
    cbn [opts with_opts with_map map mix mixDelta animFrameCount mirrorDirs apply_update
         smoothTransition transitionDuration dirs].
    cbn [andb negb]. apply Qc_eq_bool_false in Hnz. rewrite Hnz. reflexivity. }
  assert (Hstop : forall random randVal, _setQuadrantMap random randVal m1 = NotVec4).
  { intros random randVal. unfold _setQuadrantMap, _setMix.
    cbn [m1 o1 opts with_map map mix mixDelta animFrameCount apply_update smoothTransition].
    cbn [andb negb]. rewrite (proj2 (Qc_eq_bool_true 0 0) eq_refl).
    rewrite (onehot_conversion_leaves_row mx i Hmx Hi Hn). reflexivity. }
  exists m1. split; [rewrite (play_app o es _ _ E); exact E1 |].
  split; [apply quadrant_map_quadrants |]. split; [reflexivity |]. split; [reflexivity |].
  split.
  - rewrite (play_app o es _ _ E).
    change [Update (SetTransitionDuration 0%Qc); Update (SetDirection d1 b1);
            Update (SetDirection d2 b2)]
      with ([Update (SetTransitionDuration 0%Qc); Update (SetDirection d1 b1)]
              ++ [Update (SetDirection d2 b2)]).
    rewrite run_app, E1. cbn [bind run step setOption has_updateMap_handler].
    unfold updateMap.
    change (with_opts (apply_update (SetDirection d2 b2) (opts m1)) m1)
      with (mk (apply_update (SetDirection d2 b2) o1) 0%Qc (quadrant_map (dirs o1)) mx
               (compute_deltas 0%Qc (quadrant_map (dirs o1)) mx md)).
    unfold _setQuadrantMap, _setMix.
    cbn [o1 opts with_map map mix mixDelta animFrameCount apply_update smoothTransition].
    cbn [andb negb]. rewrite (proj2 (Qc_eq_bool_true 0 0) eq_refl).
    rewrite (onehot_conversion_leaves_row mx i Hmx Hi Hn). reflexivity.
  - intros Hb randVal. rewrite (play_app o es _ _ E).
    change [Update (SetTransitionDuration 0%Qc); Update (SetDirection d1 b1);
            Frame true randVal]
      with ([Update (SetTransitionDuration 0%Qc); Update (SetDirection d1 b1)]
              ++ [Frame true randVal]).
    rewrite run_app, E1. cbn [bind run step]. unfold Mirror.draw.
    assert (onBeatRandom (opts m1) = true) as -> by exact Hb.
    cbn [andb]. rewrite Hstop. reflexivity.
Qed.

(** A Mirror is built without directions, [topToBottom] is switched on,
    one frame is drawn, the duration is set to 0 and [leftToRight] is
    switched on and off again: the first weight of quadrant 2 is 1/4. *)
Lemma zero_duration_run_witness :
  exists m1,
    play (mkOpts (mkDirs false false false false) false true (Qc_int 4))
         ([Update (SetDirection TopToBottom true); Frame false 0]
          ++ [Update (SetTransitionDuration 0%Qc); Update (SetDirection LeftToRight true)])
    = Ok m1 /\
    quadrants (map m1) /\ animFrameCount m1 = 0%Qc /\
    play (mkOpts (mkDirs false false false false) false true (Qc_int 4))
         ([Update (SetDirection TopToBottom true); Frame false 0]
          ++ [Update (SetTransitionDuration 0%Qc); Update (SetDirection LeftToRight true);
              Update (SetDirection LeftToRight false)])
    = NotVec4.
Proof.
  edestruct (zero_duration_leaves_the_weight_vector
               (mkOpts (mkDirs false false false false) false true (Qc_int 4))
               [Update (SetDirection TopToBottom true); Frame false 0])
    with (i := 2) (d1 := LeftToRight) (d2 := LeftToRight) (b1 := true) (b2 := false)
    as (m1 & E1 & Hq & Ha & _ & Estop & _).
  - vm_compute. reflexivity.
  - repeat constructor.
  - reflexivity.
  - intros H. vm_compute in H. discriminate H.
  - lia.
  - intros (k & Hk & H).
    assert (k = 0 \/ k = 1 \/ k = 2 \/ k = 3)%Z as [-> | [-> | [-> | ->]]] by lia;
      vm_compute in H; discriminate H.
  - exists m1. repeat (split; [assumption |]). exact Estop.
Defined.

(** C6.  Switching [smoothTransition] off and on again while a transition
    runs leaves the mix vectors in the index format while the frames are
    rendered in the mixing mode.  For every Mirror built with
    [smoothTransition] on and a duration other than 0, after
    [smoothTransition] is switched off, a direction is updated and
    [smoothTransition] is switched on again, a transition is in progress
    and the four mix weights of quadrant [i] are [map[i], 0, 0, 0]: they
    sum to [map[i]], which is not 1 unless the quadrant copies from
    quadrant 1.  The same direction update without the two switches
    leaves the one-hot weights in place, which sum to 1. *)
Theorem smoothTransition_toggle_breaks_the_weights
    (o : MirrorOpts) (d : direction) (b : bool) :
  smoothTransition o = true -> transitionDuration o <> 0%Qc ->
  let target := quadrant_map (set_direction d b (dirs o)) in
  exists m,
    play o [Update (SetSmoothTransition false); Update (SetDirection d b);
            Update (SetSmoothTransition true)] = Ok m /\
    _inTransition m = true /\
    map m = target /\
    uniforms m = (true, indexed target) /\
    (forall i, i < 4 ->
       weights (uniforms m) i = [Qc_int (target !!! i); 0; 0; 0]%Qc /\
       row_sum (mix m !!! i) = Qc_int (target !!! i)) /\
    (forall i, i < 4 -> target !!! i <> 1%Z -> row_sum (mix m !!! i) <> 1%Qc) /\
    exists m',
      play o [Update (SetDirection d b)] = Ok m' /\
      _inTransition m' = true /\
      map m' = target /\
      forall i, i < 4 -> row_sum (mix m' !!! i) = 1%Qc.
Proof.
  intros Hs Hd target. unfold play. rewrite (init_smooth o Hs). cbn [bind].
  set (o2 := apply_update (SetSmoothTransition true)
               (apply_update (SetDirection d b)
                  (apply_update (SetSmoothTransition false) o))).
  set (md := tabulate4 (fun i j =>
               (endValue (quadrant_map (dirs o)) i j - get2 (onehot unmirrored) i j)
               / transitionDuration o)%Qc).
  assert (E : run [Update (SetSmoothTransition false); Update (SetDirection d b);
                   Update (SetSmoothTransition true)]
                (mk o (transitionDuration o) (quadrant_map (dirs o)) (onehot unmirrored) md)
              = Ok (mk o2 (transitionDuration o) target (indexed target) md)).
  { cbn [run step setOption has_updateMap_handler bind].
    unfold updateMap, _setQuadrantMap, _setMix.
    cbn [opts with_opts with_map with_mix map mix mixDelta animFrameCount mirrorDirs
         apply_update smoothTransition transitionDuration dirs andb bind].
    fold target. rewrite index_format_eq by apply shape_tabulate4. reflexivity. }
  rewrite E. eexists. split; [reflexivity |].
  assert (Ht : _inTransition (mk o2 (transitionDuration o) target (indexed target) md) = true).
  { unfold _inTransition. cbn [opts animFrameCount o2 apply_update smoothTransition andb].
    apply negb_true_iff, Qc_eq_bool_false. exact Hd. }
  split; [exact Ht |]. split; [reflexivity |].
  assert (Hu : uniforms (mk o2 (transitionDuration o) target (indexed target) md)
               = (true, indexed target)).
  { unfold uniforms. rewrite Ht. reflexivity. }
  split; [exact Hu |].
  assert (Hrow : forall i, i < 4 -> indexed target !!! i = [Qc_int (target !!! i); 0; 0; 0]%Qc).
  { intros i Hi. unfold indexed. rewrite row_tabulate4 by exact Hi. reflexivity. }
  assert (Hsum : forall i, i < 4 -> row_sum (indexed target !!! i) = Qc_int (target !!! i)).
  { intros i Hi. rewrite Hrow by exact Hi. unfold row_sum.
    cbn [lookup_total list_lookup_total]. ring. }
  split.
  { intros i Hi. rewrite Hu. unfold weights. cbn [fst snd mix].
    split; [apply Hrow | apply Hsum]; exact Hi. }
  split.
  { intros i Hi Hne. cbn [mix]. rewrite Hsum by exact Hi.
    intros H. apply Hne. apply Qc_int_inj. exact H. }
  eexists. split.
  { cbn [run step setOption has_updateMap_handler bind].
    unfold updateMap, _setQuadrantMap, _setMix.
    cbn [opts with_opts with_map map mix mixDelta animFrameCount mirrorDirs
         apply_update smoothTransition transitionDuration dirs].
    rewrite Hs. cbn [andb negb]. fold target.
    pose proof Hd as Hd'. apply Qc_eq_bool_false in Hd'. rewrite Hd'. reflexivity. }
  split.
  { unfold _inTransition. cbn [opts animFrameCount apply_update smoothTransition andb]. apply negb_true_iff, Qc_eq_bool_false. exact Hd. }
  split; [reflexivity |].
  intros i Hi. cbn [mix].
  change (onehot unmirrored)
    with [[1; 0; 0; 0]; [0; 1; 0; 0]; [0; 0; 1; 0]; [0; 0; 0; 1]]%Qc.
  destruct i as [|[|[|[|]]]]; try lia;
    unfold row_sum; cbn [lookup_total list_lookup_total]; ring.
Qed.

(** With [bottomToTop]: the weights of quadrants 0 and 1 sum to 2 and
    to 3. *)
Lemma smoothTransition_toggle_witness :
  exists m,
    play (mkOpts (mkDirs false false false false) false true (Qc_int 4))
         [Update (SetSmoothTransition false); Update (SetDirection BottomToTop true);
          Update (SetSmoothTransition true)] = Ok m /\
    _inTransition m = true /\
    map m = [2; 3; 2; 3]%Z /\
    mix m = [[Qc_int 2; 0; 0; 0]; [Qc_int 3; 0; 0; 0];
             [Qc_int 2; 0; 0; 0]; [Qc_int 3; 0; 0; 0]]%Qc /\
    row_sum (mix m !!! 0) = Qc_int 2.
Proof.
  destruct (smoothTransition_toggle_breaks_the_weights
              (mkOpts (mkDirs false false false false) false true (Qc_int 4))
              BottomToTop true) as (m & E & Ht & Hm & Hu & Hw & _ & _).
  - reflexivity.
  - intros H. discriminate H.
  - exists m. split; [exact E |]. split; [exact Ht |]. split; [exact Hm |].
    split; [exact (f_equal snd Hu) |].
    exact (proj2 (Hw 0 ltac:(lia))).
Defined.

End MirrorFormatProofs.

Module MainLiveProofs.
Import Main MainStates MainProofs.

(** *** Calls on an object that has not been destroyed *)




End MainLiveProofs.

Module MainCallbackProofs.
Import Main MainStates MainCallbacks MainProofs.

(** *** The callbacks selected by the constructor *)

Lemma snd_then_ret {A B} (m : M A) (v : B) w : snd ((m ;;; ret v) w) = snd (m w).
Proof. unfold bindM, ret. destruct (m w) as [[a | e] w1]; reflexivity. Qed.

Lemma perform_keeps_other c w :
  coherent w ->
  requestAnimationFrame (obj (snd (perform c w))) = requestAnimationFrame (obj w) /\
  sched (other (requestAnimationFrame (obj w))) (host (snd (perform c w)))
  = sched (other (requestAnimationFrame (obj w))) (host w).
Proof.
  intros H.
  assert (Hpassive : passive c ->
            requestAnimationFrame (obj (snd (perform c w))) = requestAnimationFrame (obj w) /\
            sched (other (requestAnimationFrame (obj w))) (host (snd (perform c w)))
            = sched (other (requestAnimationFrame (obj w))) (host w)).
  { intros Hc.
    destruct (passive_same_schedule w c Hc w (same_schedule_refl w))
      as (_ & _ & Hraf & _ & _ & _ & _ & _ & _ & _ & Hwf & Hcf).
    split; [exact Hraf |]. destruct (requestAnimationFrame (obj w)); assumption. }
  destruct c; try (apply Hpassive; exact I); clear Hpassive; cbn [perform].
  - (* start *)
    destruct H as (H1 & _). open_world w; cbn in H1; subst caf;
      unfold start; unfold_methods; unfold_M;
      destruct started, raf; cbn; try destruct rd; cbn; split; reflexivity.
  - destruct H as (H1 & _). open_world w; cbn in H1; subst caf;
      unfold stop; unfold_methods; unfold_M;
      destruct started, raf; cbn; try destruct rd; cbn; try destruct req; cbn;
      split; reflexivity.
  - destruct H as (H1 & _). open_world w; cbn in H1; subst caf;
      unfold destroy, stop; unfold_methods; unfold_M;
      destruct started, raf, root, st; cbn; try destruct rd; cbn; try destruct req; cbn;
      try destruct root; cbn; split; reflexivity.
  - destruct H as (H1 & _). open_world w; cbn in H1; subst caf;
      unfold signal_wait, is_ready, bindM at 1; unfold_methods; unfold_M;
      destruct lis, started, raf; cbn; try destruct rd; cbn; try destruct req; cbn;
      split; reflexivity.
  - destruct H as (H1 & _). open_world w; cbn in H1; subst caf;
      unfold signal_ready, is_ready, bindM at 1; unfold_methods; unfold_M;
      destruct lis, started, raf; cbn; try destruct rd; cbn; split; reflexivity.
  - destruct H as (H1 & _). open_world w; cbn in H1; subst caf;
      unfold context_lost, stop, bindM at 1; unfold_methods; unfold_M;
      destruct hand, started, raf; cbn; try destruct rd; cbn; try destruct req; cbn;
      split; reflexivity.
  - rewrite !snd_then_ret.
    assert (requestAnimationFrame (obj (snd (tick s id eel w))) = requestAnimationFrame (obj w) /\
            sched (other (requestAnimationFrame (obj w))) (host (snd (tick s id eel w)))
            = sched (other (requestAnimationFrame (obj w))) (host w)) as Ht.
    { destruct (find_request id (sched s (host w))) as [r |] eqn:E.
      - destruct (pending_frame_is_own s id w r H E)
          as (-> & Hid & -> & Hp & Hst & rm & c & Hrm & Hrd & Hroot).
        unfold tick, drawFrame. unfold_M. rewrite E.
        destruct w as [[started raf caf st mt rmo root bank boot req bufs keys ctx lis hand]
                       [[wp wn] [cp cn] clk gl ctxs lg glf]].
        cbn in Hroot |- *. subst root.
        destruct raf, st; cbn; split; reflexivity.
      - unfold tick, bindM, read_host. cbn [fst snd]. rewrite E. split; reflexivity. }
    exact Ht.
Qed.

Lemma run_keeps_other cs : forall w,
  coherent w ->
  requestAnimationFrame (obj (state_after cs w)) = requestAnimationFrame (obj w) /\
  sched (other (requestAnimationFrame (obj w))) (host (state_after cs w))
  = sched (other (requestAnimationFrame (obj w))) (host w).
Proof.
  induction cs as [| c cs IH]; intros w H; [split; reflexivity |].
  unfold state_after in *. cbn [run].
  pose proof (perform_coherent c w H) as H1.
  destruct (perform_keeps_other c w H) as [Hraf Hs].
  destruct (perform c w) as [r w1]. cbn [snd] in H1, Hraf, Hs.
  destruct (IH w1 H1) as [Graf Gs]. destruct (run cs w1) as [rs w2]. cbn [snd] in *.
  rewrite Hraf in Graf, Gs. split; [exact Graf |]. rewrite Gs. exact Hs.
Qed.

(** X25.  A Main of the first revision only ever uses the pair of frame
    callbacks its constructor selected: given both custom callbacks it
    never requests or cancels a frame on the window, and given at most one
    of them it never calls a custom callback, whatever calls, signals,
    context events and frames follow. *)
Theorem only_the_selected_callbacks_are_used (o : IMainOpts) (h : Host) (cs : list call) :
  idle h -> webgl h = true ->
  let w := state_after cs (snd (constructor_001 o h)) in
  requestAnimationFrame (obj w) = fst (select_callbacks_001 o) /\
  cancelAnimationFrame (obj w) = fst (select_callbacks_001 o) /\
  sched (other (fst (select_callbacks_001 o))) (host w)
  = sched (other (fst (select_callbacks_001 o))) h.
Proof.
  intros Hi Hgl w.
  destruct (constructor_001_coherent o h Hi Hgl) as [_ H0].
  destruct (run_keeps_other cs _ H0) as [Hraf Hs]. fold w in Hraf, Hs.
  pose proof (run_coherent cs _ H0) as (H1 & _). fold w in H1.
  assert (E : requestAnimationFrame (obj (snd (constructor_001 o h)))
              = fst (select_callbacks_001 o) /\
              forall s, sched s (host (snd (constructor_001 o h))) = sched s h).
  { destruct h as [[wp wn] [cp cn] clk gl ctxs lg glf]. cbn in Hgl. subst gl.
    unfold constructor_001, construct, _initResourceManager, _registerContextEvents.
    unfold_methods. unfold_M.
    destruct o as [[] pf [] []]; cbn; split; try reflexivity; intros []; reflexivity. }
  destruct E as [E1 E2]. rewrite E1 in Hraf, Hs. rewrite E2 in Hs.
  split; [exact Hraf |]. split; [rewrite <- H1; exact Hraf | exact Hs].
Qed.

Lemma selected_callbacks_witness :
  let w := state_after [Start; Stop; Start]
             (snd (constructor_001 single_callback fresh_host)) in
  requestAnimationFrame (obj w) = fst (select_callbacks_001 single_callback) /\
  cancelAnimationFrame (obj w) = fst (select_callbacks_001 single_callback) /\
  sched (other (fst (select_callbacks_001 single_callback))) (host w)
  = sched (other (fst (select_callbacks_001 single_callback))) fresh_host.
Proof.
  apply (only_the_selected_callbacks_are_used single_callback fresh_host [Start; Stop; Start]).
  - split; reflexivity.
  - reflexivity.
Defined.

(** *** The second revision after [destroy] *)

Lemma orphaned_frame b eel w :
  orphaned b w ->
  length (frames_pending w) = 1 /\
  fst (next_frame eel w) = Threw TypeError /\
  frames_pending (snd (next_frame eel w)) = [] /\
  log (host (snd (next_frame eel w))) = log (host w) ++ (if b then [] else [AnalyserUpdate]).
Proof.
  intros (Hroot & Hs & Hother & id & Hid & Hp).
  destruct w as [[started raf caf st mt rmo root bank boot req bufs keys ctx lis hand]
                 [[wp wn] [cp cn] clk gl ctxs lg glf]].
  cbn in Hroot, Hs, Hid, Hp, Hother. subst st root req.
  unfold next_frame, tick, drawFrame, find_request, frames_pending. unfold_M.
  destruct raf; cbn in Hp |- *; subst.
  - pose proof (Hother Custom ltac:(discriminate)) as Hc. cbn in Hc. subst cp.
    cbn. rewrite !Nat.eqb_refl. cbn. destruct b; cbn; rewrite ?Nat.eqb_refl, ?app_nil_r;
      repeat split; reflexivity.
  - pose proof (Hother Window ltac:(discriminate)) as Hc. cbn in Hc. subst wp.
    cbn. rewrite !Nat.eqb_refl. cbn. destruct b; cbn; rewrite ?Nat.eqb_refl, ?app_nil_r;
      repeat split; reflexivity.
Qed.

Lemma second_revision_orphans_frame o h :
  idle h -> webgl h = true ->
  opt_requestAnimationFrame o <> opt_cancelAnimationFrame o ->
  fst (run [Start; Destroy] (snd (constructor_002 o h)))
  = [Returned VUndefined; Returned VUndefined] /\
  orphaned (showStat o) (state_after [Start; Destroy] (snd (constructor_002 o h))).
Proof.
  intros [Hw Hc] Hgl Hne.
  destruct h as [[wp wn] [cp cn] clk gl ctxs lg glf].
  cbn in Hw, Hc, Hgl. subst wp cp gl. destruct o as [st pf oraf ocaf]. cbn in Hne.
  unfold state_after, run, perform, constructor_002, construct, select_callbacks_002,
    _initResourceManager, _registerContextEvents, start, destroy, stop, orphaned.
  unfold_methods. unfold_M.
  destruct oraf, ocaf; try (elim Hne; reflexivity); destruct st; cbn;
    repeat split; eauto; intros []; cbn; congruence.
Qed.

(** X24.  On a Main of the second revision that was given exactly one
    of the two custom callbacks, [destroy()] after [start()] returns but
    leaves the frame request pending; when the host runs that frame, the
    callback throws a TypeError, at [stats.begin()] when stats were shown
    and at [rootComponent.draw()] otherwise, and requests no further
    frame. *)
Theorem second_revision_frame_throws_after_destroy
    (o : IMainOpts) (h : Host) (eel : gmap string Qc -> gmap string Qc) :
  idle h -> webgl h = true ->
  opt_requestAnimationFrame o <> opt_cancelAnimationFrame o ->
  let w := state_after [Start; Destroy] (snd (constructor_002 o h)) in
  fst (run [Start; Destroy] (snd (constructor_002 o h)))
  = [Returned VUndefined; Returned VUndefined] /\
  length (frames_pending w) = 1 /\
  fst (next_frame eel w) = Threw TypeError /\
  frames_pending (snd (next_frame eel w)) = [] /\
  log (host (snd (next_frame eel w)))
  = log (host w) ++ (if showStat o then [] else [AnalyserUpdate]).
Proof.
  intros Hi Hgl Hne w.
  destruct (second_revision_orphans_frame o h Hi Hgl Hne) as [Hr Ho].
  split; [exact Hr |]. apply orphaned_frame. exact Ho.
Qed.

Lemma second_revision_destroy_witness :
  let w := state_after [Start; Destroy] (snd (constructor_002 single_callback fresh_host)) in
  fst (run [Start; Destroy] (snd (constructor_002 single_callback fresh_host)))
  = [Returned VUndefined; Returned VUndefined] /\
  length (frames_pending w) = 1 /\
  fst (next_frame (fun bank => bank) w) = Threw TypeError /\
  frames_pending (snd (next_frame (fun bank => bank) w)) = [] /\
  log (host (snd (next_frame (fun bank => bank) w)))
  = log (host w) ++ (if showStat single_callback then [] else [AnalyserUpdate]).
Proof.
  apply (second_revision_frame_throws_after_destroy single_callback fresh_host
           (fun bank => bank)).
  - split; reflexivity.
  - reflexivity.
  - discriminate.
Defined.

End MainCallbackProofs.
